(** * power-data-downloader: archive reconciliation, ledger and extraction

    A shallow embedding of the Python sources

    - [power_data_utils.py], [power_data_architecture.py]
      (the spreadsheet driver [download_data]) and
    - [power_data_downloader_utils.py], [power_data_downloader_architecture.py]
      (the multi-type driver [download]).

    Python functions become Rocq functions of the same name.  Code that can
    raise returns a [Res]; code that touches files, the clock or the network
    runs in the state-and-exception monad [M] and logs what it does in a
    trace of [event]s.  pandas tables are [DataFrame]s of optional cells,
    BeautifulSoup documents are [node] trees. *)

From stdpp Require Import base list strings gmap pretty.
From Stdlib Require Import ZArith Lia Ascii.

Open Scope string_scope.
Open Scope list_scope.

Set Warnings "-register-all".

(** ** Python exceptions and results *)

Inductive exn :=
| AssertionError
| AttributeError
| IndexError
| KeyError
| TypeError
| UnboundLocalError
| ValueError
| OSError
| WebDriverException.

Inductive Res (A : Type) :=
| Ok (a : A)
| Raise (e : exn).

Arguments Ok {A} a.
Arguments Raise {A} e.

Definition res_bind {A B} (r : Res A) (k : A -> Res B) : Res B :=
  match r with
  | Ok a => k a
  | Raise e => Raise e
  end.

Definition res_map {A B} (f : A -> B) (r : Res A) : Res B :=
  res_bind r (fun a => Ok (f a)).

(** ** Cell values and tables *)

(** A calendar date ([datetime.date]) and a time stamp ([datetime.datetime],
    [pd.Timestamp]): the date plus the seconds elapsed since midnight. *)
Record date := mk_date { year : Z; month : Z; day : Z }.

Record datetime := mk_datetime { dt_date : date; dt_seconds : Z }.

#[global] Instance date_eq_dec : EqDecision date.
Proof. solve_decision. Defined.

(** What a table cell or a key entry can hold.  Numbers are only ever
    stored, compared and tested for presence here, never computed with;
    [VNum] carries the number read.  A missing cell ([None], [NaN], [NaT])
    is the [None] of [cell]. *)
Inductive value :=
| VStr (s : string)
| VNum (z : Z)
| VDate (d : date).

#[global] Instance value_eq_dec : EqDecision value.
Proof. solve_decision. Defined.

Abbreviation cell := (option value).

Definition isna (c : cell) : bool :=
  match c with
  | None => true
  | Some _ => false
  end.

(** A pandas [DataFrame], row by row.  The cell of a row at a column
    position beyond the row's end is missing, which is how the
    [pd.DataFrame(rows, columns=...)] constructor pads short rows. *)
Record DataFrame := mkDF { columns : list string; data : list (list cell) }.

Definition cell_of (r : list cell) (j : nat) : cell := default None (r !! j).

Definition normalize (n : nat) (r : list cell) : list cell :=
  map (cell_of r) (seq 0 n).

Definition empty_frame : DataFrame := mkDF [] [].

Definition in_list (s : string) (l : list string) : bool :=
  existsb (String.eqb s) l.

(** Positions of the columns whose label passes [keep]. *)
Fixpoint positions (keep : string -> bool) (cols : list string) (j : nat) : list nat :=
  match cols with
  | [] => []
  | c :: cs => if keep c then j :: positions keep cs (S j) else positions keep cs (S j)
  end.

(** The table restricted to the columns whose label passes [keep]. *)
Definition select_columns (keep : string -> bool) (df : DataFrame) : DataFrame :=
  mkDF (List.filter keep (columns df))
       (map (fun r => map (cell_of r) (positions keep (columns df) 0)) (data df)).

(** [df.drop(columns=names)] for labels taken from [df.columns]. *)
Definition drop_columns (df : DataFrame) (names : list string) : DataFrame :=
  select_columns (fun c => negb (in_list c names)) df.

(** [df.drop_duplicates()]: the first occurrence of every row is kept. *)
Fixpoint keep_first (seen : list (list cell)) (l : list (list cell)) : list (list cell) :=
  match l with
  | [] => []
  | r :: t =>
      if bool_decide (r ∈ seen) then keep_first seen t
      else r :: keep_first (r :: seen) t
  end.

Definition drop_duplicates (df : DataFrame) : DataFrame :=
  mkDF (columns df) (keep_first [] (data df)).

(** Element-wise [==] of a cell with a key entry: a missing cell equals
    nothing. *)
Definition cell_eqb (c : cell) (k : value) : bool := bool_decide (c = Some k).

Fixpoint row_eqb (r : list cell) (key : list value) : bool :=
  match r, key with
  | [], [] => true
  | c :: r', k :: key' => cell_eqb c k && row_eqb r' key'
  | _, _ => false
  end.

(** [((df == combination).all(axis=1)).any()]: comparing a frame with a
    list aligns the list with the columns and raises when the lengths
    differ. *)
Definition eq_all_any (df : DataFrame) (combination : list value) : Res bool :=
  if bool_decide (length combination = length (columns df))
  then Ok (existsb (fun r => row_eqb (normalize (length (columns df)) r) combination)
                   (data df))
  else Raise ValueError.

(** [power_data_utils.check_archive] *)
Definition check_archive (archive_df : DataFrame) (combination : list value)
    (columns_to_check : list string) : Res bool :=
  let columns_to_drop :=
    List.filter (fun column_name => negb (in_list column_name columns_to_check))
                (columns archive_df) in
  let archive_df := drop_columns archive_df columns_to_drop in
  let archive_unique_df := drop_duplicates archive_df in
  eq_all_any archive_unique_df combination.

(** [power_data_downloader_utils.check_existing_combinations] *)
Definition check_existing_combinations (archive_df : DataFrame)
    (combination : list value) : Res bool :=
  eq_all_any archive_df combination.

(** [df.isna().all(axis=0)]: for every column, whether all its cells are
    missing. *)
Definition isna_all_axis0 (df : DataFrame) : list bool :=
  map (fun j => forallb (fun r => isna (cell_of r j)) (data df))
      (seq 0 (length (columns df))).

(** [power_data_utils.plausibility_checks] *)
Definition plausibility_checks (df : DataFrame) : bool :=
  let all_nan := forallb id (isna_all_axis0 df) in
  if all_nan then false
  else
    let columns_ := zip (columns df) (isna_all_axis0 df) in
    let all_nan_columns :=
      map fst (List.filter (fun cv => bool_decide (snd cv = true)) columns_) in
    let number_all_nans := length all_nan_columns in
    if (0 <? number_all_nans)%nat then false else true.

(** The cell of a table at row [i] and column [j]. *)
Definition cell_at (df : DataFrame) (i j : nat) : cell :=
  match data df !! i with
  | Some r => cell_of r j
  | None => None
  end.

(** The tables of the examples. *)
Definition d_2024_05_01 : date := mk_date 2024 5 1.

Definition example_archive : DataFrame :=
  mkDF ["A"; "B"; "C"]
       [ [Some (VStr "DE"); Some (VDate d_2024_05_01); Some (VNum 5)];
         [Some (VStr "DE"); Some (VDate d_2024_05_01); Some (VNum 5)];
         [Some (VStr "FR"); Some (VDate d_2024_05_01); Some (VNum 5)] ].

Definition example_b_missing : DataFrame :=
  mkDF ["A"; "B"] [ [Some (VNum 1); None]; [Some (VNum 2); None] ].

Definition example_full : DataFrame :=
  mkDF ["A"; "B"] [ [Some (VNum 1); Some (VNum 2)]; [Some (VNum 3); Some (VNum 4)] ].

(** The projection in the words of the specification: the table restricted
    to the columns whose label is one of [match_columns], in the table's
    own column order.  [check_archive] reaches it by dropping the others. *)
Definition project (df : DataFrame) (match_columns : list string) : DataFrame :=
  select_columns (fun c => in_list c match_columns) df.

(** ** Files, events and the monad *)

(** A file is the rows of fields that the [csv] module reads and writes
    (the tracking ledger), or a table that pandas wrote with [to_csv] or
    [to_excel] (an archive). *)
Inductive file :=
| FCsv (rows : list (list string))
| FTable (df : DataFrame).

(** What a run does to the outside world, in order: file status tests,
    file reads and writes, page fetches, pauses, new directories, and the
    two messages that announce the skip decision. *)
Inductive event :=
| EStat (path : string)
| ERead (path : string)
| EWrite (path : string) (content : file)
| EFetch (url : string)
| ESleep (backoff_time : Z)
| EMakedirs (path : string)
| EPrintAlready (combination : list value)
| EPrintMustAdd (combination : list value).

Record World := mkWorld {
  fs : gmap string file;
  dirs : gset string;
  clock : nat;
  trace : list event
}.

(** State and exceptions: a raised exception keeps the state reached. *)
Definition M (S A : Type) : Type := S -> Res A * S.

Definition ret {S A} (a : A) : M S A := fun s => (Ok a, s).

Definition bind {S A B} (m : M S A) (k : A -> M S B) : M S B :=
  fun s => match m s with
           | (Ok a, s') => k a s'
           | (Raise e, s') => (Raise e, s')
           end.

Definition raise {S A} (e : exn) : M S A := fun s => (Raise e, s).

(** [try: m  except Exception: handler] *)
Definition try_except {S A} (m : M S A) (handler : exn -> M S A) : M S A :=
  fun s => match m s with
           | (Ok a, s') => (Ok a, s')
           | (Raise e, s') => handler e s'
           end.

Definition lift_res {S A} (r : Res A) : M S A := fun s => (r, s).

Notation "'let*' x ':=' m 'in' k" := (bind m (fun x => k))
  (at level 10, x name, m at level 100, k at level 200).
Notation "m '>>' k" := (bind m (fun _ => k))
  (at level 100, k at level 200, right associativity).

Definition emit (e : event) : M World unit :=
  fun w => (Ok tt, mkWorld (fs w) (dirs w) (clock w) (trace w ++ [e])).

Definition set_file (path : string) (f : file) : M World unit :=
  fun w => (Ok tt, mkWorld (<[path := f]> (fs w)) (dirs w) (clock w) (trace w)).

Definition get_file (path : string) : M World (option file) :=
  fun w => (Ok (fs w !! path), w).

(** [os.path.isfile] *)
Definition os_path_isfile (path : string) : M World bool :=
  emit (EStat path) >>
  let* f := get_file path in
  ret (match f with Some _ => true | None => false end).

(** [os.path.exists]: a file or a directory. *)
Definition os_path_exists (path : string) : M World bool :=
  emit (EStat path) >>
  fun w => (Ok (match fs w !! path with
                | Some _ => true
                | None => bool_decide (path ∈ dirs w)
                end), w).

(** [os.makedirs]: a [FileExistsError] where the path is there already and
    a [FileNotFoundError] for the empty path, both of them [OSError]s. *)
Definition os_makedirs (path : string) : M World unit :=
  emit (EMakedirs path) >>
  fun w => match fs w !! path with
           | Some _ => (Raise OSError, w)
           | None =>
               if bool_decide (path ∈ dirs w) || String.eqb path ""
               then (Raise OSError, w)
               else (Ok tt, mkWorld (fs w) ({[path]} ∪ dirs w) (clock w) (trace w))
           end.

(** [assert cond] *)
Definition assert_ {S} (cond : bool) : M S unit :=
  if cond then ret tt else raise AssertionError.

(** [list(csv.reader(open(path, 'r')))] *)
Definition csv_read (path : string) : M World (list (list string)) :=
  emit (ERead path) >>
  let* f := get_file path in
  match f with
  | Some (FCsv rows) => ret rows
  | Some (FTable _) => raise ValueError
  | None => raise OSError
  end.

(** [os.path.split] before it strips the head: the text of a path up to
    and including its last slash, and the file name that follows. *)
Fixpoint split_path (path : string) : string * string :=
  match path with
  | EmptyString => (EmptyString, EmptyString)
  | String c rest =>
      let '(head, name) := split_path rest in
      match head with
      | EmptyString =>
          if Ascii.eqb c "/" then ("/", name) else (EmptyString, String c name)
      | _ => (String c head, name)
      end
  end.

Fixpoint rstrip_slashes (s : string) : string :=
  match s with
  | EmptyString => EmptyString
  | String c rest =>
      match rstrip_slashes rest with
      | EmptyString => if Ascii.eqb c "/" then EmptyString else String c EmptyString
      | stripped => String c stripped
      end
  end.

(** [os.path.dirname]: what precedes the last slash, without the slashes
    that end it unless it holds nothing else.  It is empty for a bare file
    name, which lies in the working directory. *)
Definition dirname (path : string) : string :=
  let head := fst (split_path path) in
  match rstrip_slashes head with
  | EmptyString => head
  | stripped => stripped
  end.

(** [os.path.basename] *)
Definition basename (path : string) : string := snd (split_path path).

(** Whether [path] names a directory of the world: one that was made or
    given under this name, or one that a file or a directory of the world
    lies in.  Paths are taken as they are written. *)
Definition is_directory (w : World) (path : string) : bool :=
  bool_decide (path ∈ dirs w)
  || existsb (String.prefix (path +:+ "/")) (elements (dom (fs w)) ++ elements (dirs w)).

(** Whether a file can be created at [path], where there is none: the path
    ends in a file name, names no directory, and its directory is there.
    The working directory, its parent and the root always are. *)
Definition can_create (w : World) (path : string) : bool :=
  negb (in_list (basename path) [""; "."; ".."])
  && negb (is_directory w path)
  && (in_list (rstrip_slashes (dirname path)) [""; "."; ".."]
      || is_directory w (dirname path)).

(** [open(path, 'w')] and [open(path, 'a')]: an existing file is opened, a
    new one is created where that can be done; otherwise the call raises
    [FileNotFoundError], [IsADirectoryError] or [NotADirectoryError], all
    of them [OSError]s. *)
Definition open_for_writing (path : string) : M World unit :=
  fun w => match fs w !! path with
           | Some _ => (Ok tt, w)
           | None => if can_create w path then (Ok tt, w) else (Raise OSError, w)
           end.

(** [open(path, 'w')] followed by [writerow]/[writerows]. *)
Definition csv_write (path : string) (rows : list (list string)) : M World unit :=
  open_for_writing path >>
  emit (EWrite path (FCsv rows)) >>
  set_file path (FCsv rows).

(** [open(path, 'a')] followed by [writerow]s: the rows go after what the
    file holds, and the file is created when there is none. *)
Definition csv_append (path : string) (rows : list (list string)) : M World unit :=
  let* f := get_file path in
  match f with
  | Some (FCsv old) => csv_write path (old ++ rows)
  | Some (FTable _) => raise ValueError
  | None => csv_write path rows
  end.

(** [rows[0]] *)
Definition first_row {S} (rows : list (list string)) : M S (list string) :=
  match rows with
  | header :: _ => ret header
  | [] => raise IndexError
  end.

(** [power_data_downloader_utils.update_tracking_file] *)
Definition update_tracking_file (tracking_file_filepath : string)
    (tracking_data : list string) (header_row : list string) : M World unit :=
  assert_ (length tracking_data =? length header_row)%nat >>
  let* file_exists := os_path_isfile tracking_file_filepath in
  if file_exists then
    let* rows := csv_read tracking_file_filepath in
    let* header := first_row rows in
    let data_rows := List.tl rows in
    let data_rows := tracking_data :: data_rows in
    csv_write tracking_file_filepath (header :: data_rows)
  else
    csv_append tracking_file_filepath [header_row; tracking_data].

(** A ledger with a header and two entries, and a world that holds it. *)
Definition example_ledger : list (list string) :=
  [ ["MarketArea"; "DeliveryDate"; "SuccessIndicator"];
    ["DE-LU"; "2025-01-13"; "Success"];
    ["FR"; "2025-01-12"; "Error"] ].

Definition world_of (files : gmap string file) : World := mkWorld files ∅ 0 [].

Definition example_world : World :=
  world_of (<["tracking.csv" := FCsv example_ledger]> ∅).

(** ** Strings *)

(** The ASCII characters that [str.isspace] accepts: tab, line feed,
    vertical tab, form feed, carriage return, the four separators
    0x1c..0x1f, and the space. *)
Definition is_space (c : ascii) : bool :=
  let n := nat_of_ascii c in
  ((9 <=? n) && (n <=? 13) || (28 <=? n) && (n <=? 32))%nat.

Fixpoint lstrip (s : string) : string :=
  match s with
  | String c s' => if is_space c then lstrip s' else s
  | EmptyString => EmptyString
  end.

(** [s.strip()] *)
Definition strip (s : string) : string :=
  String.rev (lstrip (String.rev (lstrip s))).

(** [sub in s] on strings. *)
Fixpoint contains (sub s : string) : bool :=
  String.prefix sub s ||
  match s with
  | String _ s' => contains sub s'
  | EmptyString => false
  end.

(** ** Documents *)

(** A parsed page: tags with their [class] attribute split into its
    values (empty when the attribute is absent) and their children, and
    text nodes.  The document itself is a tag whose children are the
    top-level nodes. *)
Inductive node :=
| Tag (name : string) (classes : list string) (children : list node)
| NavigableString (text : string).

(** [tag.text]: the text nodes below the tag, concatenated. *)
Fixpoint get_text (n : node) : string :=
  match n with
  | Tag _ _ children =>
      (fix texts (l : list node) : string :=
         match l with
         | [] => EmptyString
         | c :: r => get_text c +:+ texts r
         end) children
  | NavigableString s => s
  end.

(** The nodes below a node in document order, each with the siblings
    that follow it under its parent. *)
Fixpoint descendants (n : node) : list (node * list node) :=
  match n with
  | Tag _ _ children =>
      (fix walk (l : list node) : list (node * list node) :=
         match l with
         | [] => []
         | c :: r => (c, r) :: descendants c ++ walk r
         end) children
  | NavigableString _ => []
  end.

Definition walk (l : list node) : list (node * list node) :=
  (fix walk (l : list node) : list (node * list node) :=
     match l with
     | [] => []
     | c :: r => (c, r) :: descendants c ++ walk r
     end) l.

(** How BeautifulSoup matches [class_="..."]: against each value of the
    attribute, then against the values joined by spaces. *)
Definition class_matches (class_ : string) (classes : list string) : bool :=
  match classes with
  | [] => false
  | _ => in_list class_ classes || String.eqb (String.concat " " classes) class_
  end.

Definition tag_matches (name : string) (class_ : option string) (n : node) : bool :=
  match n with
  | Tag nm classes _ =>
      String.eqb nm name &&
      match class_ with
      | None => true
      | Some c => class_matches c classes
      end
  | NavigableString _ => false
  end.

(** [tag.find_all(name, class_=...)], with the following siblings kept. *)
Definition find_all_ctx (name : string) (class_ : option string) (n : node)
    : list (node * list node) :=
  List.filter (fun p => tag_matches name class_ (fst p)) (descendants n).

Definition find_all (name : string) (class_ : option string) (n : node) : list node :=
  map fst (find_all_ctx name class_ n).

(** [tag.find(name, class_=...)]: the first match or [None]. *)
Definition find (name : string) (class_ : option string) (n : node) : option node :=
  head (find_all name class_ n).

(** A method call on what may be [None]. *)
Definition on {A B} (o : option A) (method : A -> B) : Res B :=
  match o with
  | Some a => Ok (method a)
  | None => Raise AttributeError
  end.

Fixpoint res_mapM {A B} (f : A -> Res B) (l : list A) : Res (list B) :=
  match l with
  | [] => Ok []
  | a :: r => res_bind (f a) (fun b => res_bind (res_mapM f r) (fun bs => Ok (b :: bs)))
  end.

(** [item.find("a").text.strip()] *)
Definition a_text (item : node) : Res string :=
  res_bind (on (find "a" None item) get_text) (fun text => Ok (strip text)).

Definition hours_container : string := "fixed-column js-table-times".

(** [extract_hours] (the same in both utility modules) *)
Definition extract_hours (soup : node) : Res (list string) :=
  let hours_div := find "div" (Some hours_container) soup in
  res_bind (on hours_div (find "ul" None)) (fun ul =>
  res_bind (on ul (find_all "li" None)) (fun hours_list =>
  res_mapM a_text hours_list)).

(** The [while] loop of [extract_hours_continous] over the siblings that
    follow an hour block; [find_next_sibling()] steps over text nodes. *)
Fixpoint following_intervals (siblings : list node) : Res (list string) :=
  match siblings with
  | [] => Ok []
  | NavigableString _ :: rest => following_intervals rest
  | (Tag _ classes _ as next_sibling) :: rest =>
      if in_list "child" classes then Ok []
      else if in_list "lvl-1" classes then
        res_bind (a_text next_sibling) (fun half_hour_interval =>
        res_bind (following_intervals rest) (fun more =>
        Ok (half_hour_interval :: more)))
      else if in_list "lvl-2" classes then
        res_bind (a_text next_sibling) (fun smaller_interval =>
        res_bind (following_intervals rest) (fun more =>
        Ok (smaller_interval :: more)))
      else following_intervals rest
  end.

(** [power_data_downloader_utils.extract_hours_continous] *)
Definition extract_hours_continous (soup : node) : Res (list string) :=
  match find "div" (Some hours_container) soup with
  | None => Ok []
  | Some hours_div =>
      res_map (@concat string)
        (res_mapM (fun block : node * list node =>
                     res_bind (a_text (fst block)) (fun hour_range =>
                     res_bind (following_intervals (snd block)) (fun rest =>
                     Ok (hour_range :: rest))))
                  (find_all_ctx "li" (Some "child") hours_div))
  end.

(** Pages for the statements below: an hour block with its sub-interval
    blocks as the page renders them, and the container that holds them,
    with the text between the tags of the page source. *)
Inductive granularity := HalfHour | Quarter.

Record hour_block := mk_block {
  hb_label : string;
  hb_subs : list (granularity * string)
}.

Definition li (classes : list string) (label : string) : node :=
  Tag "li" classes [Tag "a" [] [NavigableString label]].

Definition sub_li (sub : granularity * string) : node :=
  match fst sub with
  | HalfHour => li ["sub-child"; "lvl-1"] (snd sub)
  | Quarter => li ["sub-child"; "lvl-2"] (snd sub)
  end.

(** The sub-interval blocks of an hour block, each followed by the text
    [sep] that separates the list items in the page source. *)
Definition spaced_subs (sep : string) (subs : list (granularity * string)) : list node :=
  flat_map (fun sub => [sub_li sub; NavigableString sep]) subs.

Definition block_items (sep : string) (b : hour_block) : list node :=
  li ["child"] (hb_label b) :: NavigableString sep :: spaced_subs sep (hb_subs b).

Definition container (sep : string) (blocks : list hour_block) : node :=
  Tag "div" ["fixed-column"; "js-table-times"]
      [ NavigableString sep;
        Tag "ul" [] (NavigableString sep :: flat_map (block_items sep) blocks);
        NavigableString sep ].

(** Each hour block of the container with the siblings that follow it. *)
Fixpoint block_pairs (sep : string) (blocks : list hour_block) : list (node * list node) :=
  match blocks with
  | [] => []
  | b :: rest =>
      (li ["child"] (hb_label b),
       (NavigableString sep :: spaced_subs sep (hb_subs b)
          ++ flat_map (block_items sep) rest)%list)
        :: block_pairs sep rest
  end.

Definition block_labels (b : hour_block) : list string :=
  strip (hb_label b) :: map (fun sub => strip (snd sub)) (hb_subs b).

Definition document (body : list node) : node := Tag "[document]" [] body.

Definition quarter_hours_00_02 : list hour_block :=
  [ mk_block "00 - 01" [ (Quarter, "00:00 - 00:15"); (Quarter, "00:15 - 00:30");
                         (Quarter, "00:30 - 00:45"); (Quarter, "00:45 - 01:00") ];
    mk_block "01 - 02" [ (Quarter, "01:00 - 01:15"); (Quarter, "01:15 - 01:30");
                         (Quarter, "01:30 - 01:45"); (Quarter, "01:45 - 02:00") ] ].

Definition example_page : node :=
  document [ Tag "span" ["last-update"] [NavigableString "Last update: 13 January 2025"];
             container " " quarter_hours_00_02 ].

Definition page_without_container : node :=
  document [ Tag "div" ["content"] [NavigableString "No data"] ].

Definition page_with_empty_container : node :=
  document [ Tag "div" ["fixed-column"; "js-table-times"] [] ].

(** ** Row assembly *)

(** The loop that builds the hourly rows in both drivers: for the row at
    [index], the metadata, then [hours[index]], then the row's entries. *)
Fixpoint assemble_rows (metadata : list cell) (hours : list string)
    (numeric : list (list cell)) (index : nat) : Res (list (list cell)) :=
  match numeric with
  | [] => Ok []
  | row :: rest =>
      match hours !! index with
      | None => Raise IndexError
      | Some hour =>
          res_bind (assemble_rows metadata hours rest (S index)) (fun rows =>
          Ok ((metadata ++ [Some (VStr hour)] ++ row) :: rows))
      end
  end.


Definition numeric_row (a b c d : Z) : list cell :=
  [Some (VNum a); Some (VNum b); Some (VNum c); Some (VNum d)].

(** The assembled row for an hour label and a numeric row. *)
Definition assembled (metadata : list cell) (hour : string) (row : list cell) : list cell :=
  metadata ++ [Some (VStr hour)] ++ row.

(** ** More of pandas *)

Fixpoint index_of (name : string) (cols : list string) (j : nat) : option nat :=
  match cols with
  | [] => None
  | c :: cs => if String.eqb c name then Some j else index_of name cs (S j)
  end.

(** [df[name] = f(df[name])], cell by cell; [KeyError] without such a
    column, and the exception of [f] when a cell cannot be converted. *)
Definition convert_row (name : string) (f : cell -> Res cell) (cols : list string)
    (r : list cell) : Res (list cell) :=
  res_mapM (fun cx : string * cell =>
              if String.eqb (fst cx) name then f (snd cx) else Ok (snd cx))
           (zip cols (normalize (length cols) r)).

Definition convert_column (name : string) (f : cell -> Res cell) (df : DataFrame)
    : Res DataFrame :=
  if in_list name (columns df) then
    res_map (mkDF (columns df)) (res_mapM (convert_row name f (columns df)) (data df))
  else Raise KeyError.

(** [pd.DataFrame(rows, columns=names)]: the longest row must be as long
    as the list of names; shorter rows are padded with missing cells. *)
Definition make_frame (rows : list (list cell)) (names : list string) : Res DataFrame :=
  match rows with
  | [] => Ok (mkDF names [])
  | _ =>
      if (foldr Nat.max 0 (map length rows) =? length names)%nat
      then Ok (mkDF names (map (normalize (length names)) rows))
      else Raise ValueError
  end.

Definition strip_cell (c : cell) : cell :=
  match c with
  | Some (VStr s) => Some (VStr (strip s))
  | _ => c
  end.

(** Whether column [j] holds strings only (pandas' [str] dtype). *)
Definition is_str_column (df : DataFrame) (j : nat) : bool :=
  forallb (fun r => match cell_of r j with
                    | Some (VStr _) | None => true
                    | Some _ => false
                    end) (data df).

(** [clean_df] (the same in both utility modules): the labels are
    stripped, and so are the cells of the string columns.  The third
    step, turning [datetime64] columns into dates, leaves the tables built
    here as they are: their date cells are dates already. *)
Definition clean_df (df : DataFrame) : DataFrame :=
  mkDF (map strip (columns df))
       (map (fun r => imap (fun j c => if is_str_column df j then strip_cell c else c)
                           (normalize (length (columns df)) r))
            (data df)).

(** [pd.concat([a, b], ignore_index=True)]: the columns of [a], then
    those [b] adds; cells are matched by label and missing elsewhere. *)
Definition row_by_label (df : DataFrame) (labels : list string) (r : list cell) : list cell :=
  map (fun c => match index_of c (columns df) 0 with
                | Some j => cell_of r j
                | None => None
                end) labels.

Definition concat_frames (a b : DataFrame) : DataFrame :=
  let labels := columns a ++ List.filter (fun c => negb (in_list c (columns a))) (columns b) in
  mkDF labels (map (row_by_label a labels) (data a) ++ map (row_by_label b labels) (data b)).

(** [df.empty] *)
Definition frame_empty (df : DataFrame) : bool :=
  (length (data df) =? 0)%nat || (length (columns df) =? 0)%nat.

Definition pad2 (z : Z) : string :=
  if (z <? 10)%Z then "0" +:+ pretty z else pretty z.

Definition pad4 (z : Z) : string :=
  if (z <? 10)%Z then "000" +:+ pretty z
  else if (z <? 100)%Z then "00" +:+ pretty z
  else if (z <? 1000)%Z then "0" +:+ pretty z
  else pretty z.

(** [d.strftime("%Y-%m-%d")]: the C library behind it does not pad the
    year, so that a year below 1000 has fewer than four digits. *)
Definition strftime (t : datetime) : string :=
  pretty (year (dt_date t)) +:+ "-" +:+ pad2 (month (dt_date t)) +:+ "-"
    +:+ pad2 (day (dt_date t)).

(** [str(d)], that is [d.isoformat()], which pads the year. *)
Definition isoformat (d : date) : string :=
  pad4 (year d) +:+ "-" +:+ pad2 (month d) +:+ "-" +:+ pad2 (day d).

(** ** The outside world *)

(** What the drivers take from outside, and every statement below holds
    for every such environment: what the browser returns for a URL (or the
    exception it raises) at a given clock reading, the time of day, whether
    a pandas write succeeds, how pandas parses a ledger and its dates, and
    the extractors of the utility module at hand that are not embedded
    here (the last-update text, the numeric table whose cells are parsed
    from the page text, base and peak load), as functions of the page.
    For the aggregated curves the embedded JSON text ([None] where reading
    it raises) and its decoding into rows ([None] where decoding raises)
    are given too. *)
Record Env := mkEnv {
  page : string -> nat -> Res node;
  page_aggregated : string -> nat -> Res node;
  utc_now : nat -> string;
  disk_ok : string -> nat -> bool;
  read_csv : list (list string) -> option DataFrame;
  parse_date : string -> option date;
  date_of_number : Z -> option date;
  extract_last_update : node -> Res string;
  extract_volume_and_price_data : node -> Res (list (list cell));
  extract_volume_and_price_data_continuous : node -> Res (list (list cell));
  extract_baseload_peakload : node -> Res (cell * cell);
  json_content : node -> option string;
  decode_curves : string -> list cell -> option (list (list cell))
}.

(** [pd.to_datetime(x).dt.date] on one cell. *)
Definition to_date (E : Env) (c : cell) : Res cell :=
  match c with
  | None => Ok None
  | Some (VDate d) => Ok (Some (VDate d))
  | Some (VStr s) =>
      match parse_date E s with
      | Some d => Ok (Some (VDate d))
      | None => Raise ValueError
      end
  | Some (VNum z) =>
      match date_of_number E z with
      | Some d => Ok (Some (VDate d))
      | None => Raise ValueError
      end
  end.

Definition tick : M World nat :=
  fun w => (Ok (clock w), mkWorld (fs w) (dirs w) (S (clock w)) (trace w)).

(** [datetime.now(timezone.utc)], kept as its [isoformat()]. *)
Definition now (E : Env) : M World string :=
  let* t := tick in ret (utc_now E t).

(** [extract_soup(chromedriver, url)] *)
Definition extract_soup (E : Env) (url : string) : M World node :=
  emit (EFetch url) >>
  let* t := tick in
  lift_res (page E url t).

(** [extract_soup_aggregated_curves(chromedriver, url)] *)
Definition extract_soup_aggregated_curves (E : Env) (url : string) : M World node :=
  emit (EFetch url) >>
  let* t := tick in
  lift_res (page_aggregated E url t).

(** [time.sleep(backoff_time)] *)
Definition time_sleep (backoff_time : Z) : M World unit :=
  emit (ESleep backoff_time).

(** [df.to_excel(path, index=False)], [df.to_csv(path, index=False)] *)
Definition write_table (E : Env) (path : string) (df : DataFrame) : M World unit :=
  let* t := tick in
  if disk_ok E path t
  then emit (EWrite path (FTable df)) >> set_file path (FTable df)
  else raise OSError.

Definition without_unnamed (df : DataFrame) : DataFrame :=
  select_columns (fun c => negb (contains "Unnamed" c)) df.

(** [power_data_utils.import_xlsx]: [None] for a missing file and for
    one that pandas cannot read as a table. *)
Definition import_xlsx (file_path : string) : M World (option DataFrame) :=
  let* present := os_path_exists file_path in
  if negb present then ret None
  else
    emit (ERead file_path) >>
    let* f := get_file file_path in
    ret (match f with
         | Some (FTable df) => Some (without_unnamed df)
         | _ => None
         end).

(** [power_data_downloader_utils.import_csv] *)
Definition import_csv (E : Env) (file_path : string) : M World (option DataFrame) :=
  let* present := os_path_exists file_path in
  if negb present then ret None
  else
    emit (ERead file_path) >>
    let* f := get_file file_path in
    ret (match f with
         | Some (FTable df) => Some (without_unnamed df)
         | Some (FCsv rows) => option_map without_unnamed (read_csv E rows)
         | None => None
         end).

(** [df[...]] on what may be [None]. *)
Definition subscript {S A} (o : option A) : M S A :=
  match o with
  | Some a => ret a
  | None => raise TypeError
  end.

(** [l[0]], [l[-1]] *)
Definition item0 {S A} (l : list A) : M S A :=
  match l with
  | a :: _ => ret a
  | [] => raise IndexError
  end.

Definition item_last {S A} (l : list A) : M S A :=
  match last l with
  | Some a => ret a
  | None => raise IndexError
  end.

(** The outcome variables of the drivers: [None], ["Error"], ["Success"]
    or a row count, and their [str()]. *)
Inductive indicator := Unset | Error | Success | Count (n : nat).

Definition is_error (i : indicator) : bool :=
  match i with
  | Error => true
  | _ => false
  end.

Definition str_indicator (i : indicator) : string :=
  match i with
  | Unset => "None"
  | Error => "Error"
  | Success => "Success"
  | Count n => pretty n
  end.

Definition archive_key_columns : list string :=
  ["MarketArea"; "TradingDate"; "DeliveryDate"; "TradingModality"; "MarketSegment";
   "AuctionName"].

(** The label cleaning of both drivers. *)
Definition clean_dayahead (value : string) : string :=
  if String.eqb value "SDAC" then "MRC"
  else if String.eqb value "GB DAA 1 (60')" then "GB"
  else if String.eqb value "GB DAA 2 (30')" then "30-call-GB"
  else value.

Definition clean_intraday (value : string) : string :=
  if String.eqb value "SIDC IDA1" then "IDA1"
  else if String.eqb value "SIDC IDA2" then "IDA2"
  else if String.eqb value "SIDC IDA3" then "IDA3"
  else if contains "CH" value then value
  else if contains "GB" value then value
  else " ".

Definition table_url (market_area auction trading_date_str delivery_date_str
    sub_modality : string) : string :=
  "https://www.epexspot.com/en/market-results?market_area=" +:+ market_area
  +:+ "&auction=" +:+ auction +:+ "&trading_date=" +:+ trading_date_str
  +:+ "&delivery_date=" +:+ delivery_date_str
  +:+ "&underlying_year=&modality=Auction&sub_modality=" +:+ sub_modality
  +:+ "&technology=&data_mode=table&period=&production_period=".

(** Reading a variable that may not have been assigned. *)
Definition bound {A} (x : option A) : Res A :=
  match x with
  | Some a => Ok a
  | None => Raise UnboundLocalError
  end.

(** ** The spreadsheet driver: [power_data_architecture.download_data] *)

Module DownloadData.

(** The local variables of [download_data] that an iteration can read
    before it has assigned them: they keep the value of an earlier
    iteration, or are unbound. *)
Record Locals := mkLocals {
  soup : option node;
  last_update : option string;
  hours : option (list string);
  hourly_data : option (list (list cell));
  hourly_data_df : option DataFrame;
  base_peak : option (cell * cell);
  baseload : option cell;
  peakload : option cell;
  base_peak_data_df : option DataFrame
}.

Definition unbound : Locals := mkLocals None None None None None None None None None.

Definition set_soup (v : node) (l : Locals) : Locals :=
  mkLocals (Some v) (last_update l) (hours l) (hourly_data l) (hourly_data_df l)
           (base_peak l) (baseload l) (peakload l) (base_peak_data_df l).

Definition set_last_update (v : string) (l : Locals) : Locals :=
  mkLocals (soup l) (Some v) (hours l) (hourly_data l) (hourly_data_df l)
           (base_peak l) (baseload l) (peakload l) (base_peak_data_df l).

Definition set_hours (v : list string) (l : Locals) : Locals :=
  mkLocals (soup l) (last_update l) (Some v) (hourly_data l) (hourly_data_df l)
           (base_peak l) (baseload l) (peakload l) (base_peak_data_df l).

Definition set_hourly_data (v : list (list cell)) (l : Locals) : Locals :=
  mkLocals (soup l) (last_update l) (hours l) (Some v) (hourly_data_df l)
           (base_peak l) (baseload l) (peakload l) (base_peak_data_df l).

Definition set_hourly_data_df (v : DataFrame) (l : Locals) : Locals :=
  mkLocals (soup l) (last_update l) (hours l) (hourly_data l) (Some v)
           (base_peak l) (baseload l) (peakload l) (base_peak_data_df l).

Definition set_base_peak (v : cell * cell) (l : Locals) : Locals :=
  mkLocals (soup l) (last_update l) (hours l) (hourly_data l) (hourly_data_df l)
           (Some v) (Some (fst v)) (Some (snd v)) (base_peak_data_df l).

Definition set_base_peak_data_df (v : DataFrame) (l : Locals) : Locals :=
  mkLocals (soup l) (last_update l) (hours l) (hourly_data l) (hourly_data_df l)
           (base_peak l) (baseload l) (peakload l) (Some v).

Definition St : Type := Locals * World.

Definition io {A} (m : M World A) : M St A :=
  fun s => (fst (m (snd s)), (fst s, snd (m (snd s)))).

Definition assign (f : Locals -> Locals) : M St unit :=
  fun s => (Ok tt, (f (fst s), snd s)).

(** Reading a local variable. *)
Definition var {A} (x : Locals -> option A) : M St A :=
  fun s => match x (fst s) with
           | Some a => (Ok a, s)
           | None => (Raise UnboundLocalError, s)
           end.

(** The parameters of a call and the combination at hand. *)
Record Args := mkArgs {
  type_ : string;
  modality : string;
  sub_modality : string;
  tracking_file_filepath : string;
  archive_hourly_data_filepath : string;
  archive_base_peak_data_filepath : string;
  backoff_time : Z
}.

Record Combination := mkCombination {
  market_area : string;
  auction_name : string;
  trading_date : datetime;
  delivery_date : datetime
}.

Definition combination_to_check (a : Args) (c : Combination) : list value :=
  [ VStr (market_area c); VDate (dt_date (trading_date c));
    VDate (dt_date (delivery_date c)); VStr (modality a); VStr (sub_modality a);
    VStr (auction_name c) ].

Definition metadata (a : Args) (c : Combination) (last_update : string) : list cell :=
  [ Some (VStr (market_area c)); Some (VDate (dt_date (trading_date c)));
    Some (VDate (dt_date (delivery_date c))); Some (VStr (modality a));
    Some (VStr (sub_modality a)); Some (VStr (auction_name c));
    Some (VStr last_update) ].

Definition columns_hourly : list string :=
  ["MarketArea"; "TradingDate"; "DeliveryDate"; "TradingModality"; "MarketSegment";
   "AuctionName"; "LastUpdate"; "Hours"; "BuyVolume(MWh)"; "SellVolume(MWh)";
   "Volume(MWh)"; "Price(€/MWh)"].

Definition columns_base_peak : list string :=
  ["MarketArea"; "TradingDate"; "DeliveryDate"; "TradingModality"; "MarketSegment";
   "AuctionName"; "LastUpdate"; "Baseload(€/MWh)"; "Peakload(€/MWh)"].

Definition tracking_header : list string :=
  ["MarketArea"; "TradingDate"; "DeliveryDate"; "Modality"; "SubModality";
   "AuctionName"; "WebsiteAccessTimeUTC"; "NumberHourlyEntries"; "BasePeakSuccess"].

(** Lines 103-115: an archive is read anew for every combination. *)
Definition load_archive (E : Env) (path : string) : M World DataFrame :=
  let* present := os_path_exists path in
  if present then
    let* imported := import_xlsx path in
    let* df := subscript imported in
    let* df := lift_res (convert_column "TradingDate" (to_date E) df) in
    lift_res (convert_column "DeliveryDate" (to_date E) df)
  else ret empty_frame.

(** Lines 119-147: the market area as cleaned and the auction label of
    the query; the latter is assigned in neither branch when the type
    names neither market. *)
Definition clean_market_area (a : Args) (market_area : string) : string :=
  if contains "head" (type_ a) then
    if contains "GB" market_area then "GB" else market_area
  else market_area.

Definition auction_name_clean (a : Args) (auction_name : string) : option string :=
  if contains "head" (type_ a) then Some (clean_dayahead auction_name)
  else if contains "traday" (type_ a) then Some (clean_intraday auction_name)
  else None.

(** Lines 150-157: one existence check. *)
Definition archive_check (path : string) (archive_df : DataFrame)
    (combination : list value) : M World bool :=
  let* present := os_path_exists path in
  if present then lift_res (check_archive archive_df combination archive_key_columns)
  else ret false.

(** Lines 103-157: both archives and both checks. *)
Definition archive_checks (E : Env) (a : Args) (c : Combination)
    : M World (DataFrame * DataFrame * bool * bool) :=
  let* archive_hourly_data_df := load_archive E (archive_hourly_data_filepath a) in
  let* archive_basepeak_data_df := load_archive E (archive_base_peak_data_filepath a) in
  let* archive_check_hours :=
    archive_check (archive_hourly_data_filepath a) archive_hourly_data_df
                  (combination_to_check a c) in
  let* archive_check_base_peak :=
    archive_check (archive_base_peak_data_filepath a) archive_basepeak_data_df
                  (combination_to_check a c) in
  ret (archive_hourly_data_df, archive_basepeak_data_df,
       archive_check_hours, archive_check_base_peak).

(** Lines 159-195: skip, or fetch the page and its last-update text.
    Returns the two outcome variables and the access time. *)
Definition fetch (E : Env) (a : Args) (c : Combination) (clean : option string)
    (archive_check_hours archive_check_base_peak : bool)
    : M St (indicator * indicator * option string) :=
  if archive_check_hours && archive_check_base_peak then
    io (emit (EPrintAlready (combination_to_check a c))) >>
    ret (Unset, Unset, None)
  else
    io (emit (EPrintMustAdd (combination_to_check a c))) >>
    let* auction := lift_res (bound clean) in
    let url := table_url (market_area c) auction (strftime (trading_date c))
                         (strftime (delivery_date c)) (sub_modality a) in
    let* current_utc_time := io (now E) in
    let* outcome :=
      try_except (let* document := io (extract_soup E url) in
                  assign (set_soup document) >> ret Unset)
                 (fun _ => ret Error) in
    let* outcome :=
      try_except (let* document := var soup in
                  let* text := lift_res (extract_last_update E document) in
                  assign (set_last_update text) >> ret outcome)
                 (fun _ => ret Error) in
    let* text := var last_update in
    let outcome :=
      if (String.length text =? 0)%nat then Error
      else if (String.length text <? 10)%nat then Error
      else outcome in
    ret (outcome, outcome, Some current_utc_time).

(** Lines 197-279: the hourly sub-table. *)
Definition hours_block (E : Env) (a : Args) (c : Combination)
    (archive_hourly_data_df : DataFrame) (archive_check_hours : bool)
    (num_hours_records : indicator) : M St indicator :=
  if negb archive_check_hours && negb (is_error num_hours_records) then
    let* num :=
      try_except (let* document := var soup in
                  let* found := lift_res (extract_hours document) in
                  assign (set_hours found) >> ret num_hours_records)
                 (fun _ => ret Error) in
    let* hs := var hours in
    let* num :=
      if (length hs =? 0)%nat && negb (is_error num) then ret Error
      else
        let* first := item0 hs in
        if (String.length first <? 2)%nat && negb (is_error num) then ret Error
        else ret num in
    let* num :=
      try_except (let* document := var soup in
                  let* found := lift_res (extract_volume_and_price_data E document) in
                  assign (set_hourly_data found) >> ret num)
                 (fun _ => ret Error) in
    let* rows := var hourly_data in
    let* num :=
      if (length rows =? 0)%nat && negb (is_error num) then ret Error
      else
        let* first := item0 rows in
        if (length first =? 0)%nat && negb (is_error num) then ret Error
        else
          let* final := item_last rows in
          if (length final =? 0)%nat && negb (is_error num) then ret Error
          else if negb (length first =? 4)%nat && negb (is_error num)
                  || negb (length final =? 4)%nat && negb (is_error num)
          then ret Error
          else ret num in
    if negb (is_error num) then
      let* num :=
        try_except (let* hs := var hours in
                    let* rows := var hourly_data in
                    let* text := var last_update in
                    let* hourly_data_list :=
                      lift_res (assemble_rows (metadata a c text) hs rows 0) in
                    let* df := lift_res (make_frame hourly_data_list columns_hourly) in
                    assign (set_hourly_data_df (clean_df df)) >> ret num)
                   (fun _ => ret Error) in
      let* df := var hourly_data_df in
      let num :=
        if (length (data df) =? 0)%nat && negb (is_error num)
           || frame_empty df && negb (is_error num)
        then Error else num in
      if plausibility_checks df && negb (is_error num) then
        io (write_table E (archive_hourly_data_filepath a)
                        (concat_frames archive_hourly_data_df df)) >>
        ret (Count (length (data df)))
      else ret Error
    else ret num
  else ret num_hours_records.

(** Lines 281-323: the base/peak sub-table. *)
Definition base_peak_block (E : Env) (a : Args) (c : Combination)
    (archive_basepeak_data_df : DataFrame) (archive_check_base_peak : bool)
    (base_peak_sucess : indicator) : M St indicator :=
  if negb archive_check_base_peak && negb (is_error base_peak_sucess) then
    let* ok :=
      try_except (let* document := var soup in
                  let* found := lift_res (extract_baseload_peakload E document) in
                  assign (set_base_peak found) >> ret base_peak_sucess)
                 (fun _ => ret Error) in
    let* _ := var base_peak in
    let* base := var baseload in
    let* ok :=
      if isna base && negb (is_error ok) then ret Error
      else
        let* peak := var peakload in
        if isna peak && negb (is_error ok) then ret Error else ret ok in
    if negb (is_error ok) then
      let* ok :=
        try_except (let* base := var baseload in
                    let* peak := var peakload in
                    let* text := var last_update in
                    let* df := lift_res (make_frame [metadata a c text ++ [base; peak]]
                                                    columns_base_peak) in
                    assign (set_base_peak_data_df (clean_df df)) >> ret ok)
                   (fun _ => ret Error) in
      let* df := var base_peak_data_df in
      let ok :=
        if (length (data df) =? 0)%nat && negb (is_error ok)
           || frame_empty df && negb (is_error ok)
        then Error else ok in
      if plausibility_checks df && negb (is_error ok) then
        io (write_table E (archive_base_peak_data_filepath a)
                        (concat_frames archive_basepeak_data_df df)) >>
        ret Success
      else ret Error
    else ret ok
  else ret base_peak_sucess.

(** Lines 325-378: the ledger entry, written in place. *)
Definition track (a : Args) (c : Combination)
    (archive_check_hours archive_check_base_peak : bool)
    (current_utc_time : option string)
    (num_hours_records base_peak_sucess : indicator) : M World unit :=
  if negb archive_check_hours || negb archive_check_base_peak then
    let* accessed := lift_res (on current_utc_time id) in
    let tracking_data :=
      [ market_area c; strftime (trading_date c); strftime (delivery_date c);
        modality a; sub_modality a; auction_name c; accessed;
        str_indicator num_hours_records; str_indicator base_peak_sucess ] in
    let* file_exists := os_path_isfile (tracking_file_filepath a) in
    if file_exists then
      let* rows := csv_read (tracking_file_filepath a) in
      let* header := first_row rows in
      let data_rows := tracking_data :: List.tl rows in
      csv_write (tracking_file_filepath a) (header :: data_rows)
    else
      csv_append (tracking_file_filepath a) [tracking_header; tracking_data]
  else ret tt.

(** What follows the two existence checks, lines 159-381. *)
Definition after_checks (E : Env) (a : Args) (c : Combination)
    (clean : option string)
    (checked : DataFrame * DataFrame * bool * bool) : M St unit :=
  let '(archive_hourly_data_df, archive_basepeak_data_df,
        archive_check_hours, archive_check_base_peak) := checked in
  let* fetched := fetch E a c clean archive_check_hours archive_check_base_peak in
  let '(num_hours_records, base_peak_sucess, current_utc_time) := fetched in
  let* num_hours_records :=
    hours_block E a c archive_hourly_data_df archive_check_hours num_hours_records in
  let* base_peak_sucess :=
    base_peak_block E a c archive_basepeak_data_df archive_check_base_peak
                    base_peak_sucess in
  io (track a c archive_check_hours archive_check_base_peak current_utc_time
            num_hours_records base_peak_sucess) >>
  io (time_sleep (backoff_time a)).

(** The body of the innermost loop, lines 99-381, for the market area as
    the loop variable holds it; returns the market area as it leaves it. *)
Definition process (E : Env) (a : Args) (dates : datetime * datetime)
    (market_area auction_name : string) : M St string :=
  let c := mkCombination (clean_market_area a market_area) auction_name
                         (fst dates) (snd dates) in
  let* checked := io (archive_checks E a c) in
  after_checks E a c (auction_name_clean a auction_name) checked >>
  ret (clean_market_area a market_area).

Fixpoint for_auctions (E : Env) (a : Args) (dates : datetime * datetime)
    (market_area : string) (auctions : list string) : M St unit :=
  match auctions with
  | [] => ret tt
  | auction_name :: rest =>
      let* market_area := process E a dates market_area auction_name in
      for_auctions E a dates market_area rest
  end.

Fixpoint for_market_areas (E : Env) (a : Args) (dates : datetime * datetime)
    (market_areas : list (string * list string)) : M St unit :=
  match market_areas with
  | [] => ret tt
  | (market_area, auctions) :: rest =>
      for_auctions E a dates market_area auctions >>
      for_market_areas E a dates rest
  end.

Fixpoint for_days (E : Env) (a : Args) (market_areas : list (string * list string))
    (relevant_days : list (datetime * datetime)) : M St unit :=
  match relevant_days with
  | [] => ret tt
  | dates :: rest =>
      for_market_areas E a dates market_areas >>
      for_days E a market_areas rest
  end.

(** Lines 66-78: the type and the three file names must all name the same
    market. *)
Definition count_containing (sub : string) (l : list string) : nat :=
  length (List.filter (contains sub) l).

Definition check_names (a : Args) : M St unit :=
  let strings_to_check :=
    [ type_ a; tracking_file_filepath a; archive_hourly_data_filepath a;
      archive_base_peak_data_filepath a ] in
  let total_check := length strings_to_check in
  let check_dayahead := count_containing "head" strings_to_check in
  let check_intraday := count_containing "traday" strings_to_check in
  if (check_intraday <? check_dayahead)%nat && negb (check_dayahead =? total_check)%nat
  then raise ValueError
  else if (check_dayahead <? check_intraday)%nat && negb (check_intraday =? total_check)%nat
  then raise ValueError
  else if (check_intraday =? check_dayahead)%nat then raise ValueError
  else assert_ ((total_check =? check_dayahead)%nat || (total_check =? check_intraday)%nat).

(** [download_data] *)
Definition download_data (E : Env) (a : Args)
    (market_areas : list (string * list string))
    (relevant_days : list (datetime * datetime)) : M St unit :=
  check_names a >>
  for_days E a market_areas relevant_days.

End DownloadData.

(** ** The ledger as the skip-set *)

(** The cells of a row under the columns whose label is one of
    [columns_to_check]. *)
Definition key_cells (columns_to_check cols : list string) (row : list cell) : list cell :=
  map (cell_of row) (positions (fun c => in_list c columns_to_check) cols 0).

(** [df[df["SuccessIndicator"] != "Error"]] *)
Definition not_error_rows (df : DataFrame) : Res DataFrame :=
  match index_of "SuccessIndicator" (columns df) 0 with
  | None => Raise KeyError
  | Some j =>
      Ok (mkDF (columns df)
               (List.filter (fun r => negb (cell_eqb (cell_of r j) (VStr "Error")))
                            (data df)))
  end.

(** The part of [import_exsting_combinations_file] that follows the
    import: date conversion, removal of the error rows, projection,
    removal of duplicates. *)
Definition existing_combinations (E : Env) (archive_df : DataFrame)
    (columns_to_check : list string) : Res DataFrame :=
  res_bind (convert_column "DeliveryDate" (to_date E) archive_df) (fun archive_df =>
  res_bind (not_error_rows archive_df) (fun archive_df =>
  let columns_to_drop :=
    List.filter (fun column_name => negb (in_list column_name columns_to_check))
                (columns archive_df) in
  let archive_df := drop_columns archive_df columns_to_drop in
  Ok (drop_duplicates archive_df))).

(** [power_data_downloader_utils.import_exsting_combinations_file] *)
Definition import_exsting_combinations_file (E : Env) (tracking_file_filepath : string)
    (columns_to_check : list string) : M World DataFrame :=
  let* imported := import_csv E tracking_file_filepath in
  let* archive_df := subscript imported in
  lift_res (existing_combinations E archive_df columns_to_check).

(** ** The multi-type driver: [power_data_downloader_architecture.download] *)

Module Download.

Record Args := mkArgs {
  type_ : string;
  tracking_file_filepath : string;
  trading_modality : string;
  sub_modality : string;
  folder_path : string;
  backoff_time : Z
}.

(** A combination: the market area as cleaned, the auction name or the
    product (a number for continuous trading), and the two dates. *)
Record Combination := mkCombination {
  market_area : string;
  product : value;
  trading_date : datetime;
  delivery_date : datetime
}.

(** [str(value)] *)
Definition str_value (v : value) : string :=
  match v with
  | VStr s => s
  | VNum z => pretty z
  | VDate d => isoformat d
  end.

Definition value_is (v : value) (s : string) : bool :=
  match v with
  | VStr x => String.eqb x s
  | _ => false
  end.

(** ["CH" in value]: a [TypeError] when the value is no string. *)
Definition value_contains {S} (sub : string) (v : value) : M S bool :=
  match v with
  | VStr x => ret (contains sub x)
  | _ => raise TypeError
  end.

Definition is_dayahead (a : Args) : bool :=
  String.eqb (type_ a) "dayahead" || String.eqb (type_ a) "aggregated_curves_dayahead".

Definition is_intraday (a : Args) : bool :=
  String.eqb (type_ a) "intraday" || String.eqb (type_ a) "aggregated_curves_intraday".

Definition is_table (a : Args) : bool :=
  String.eqb (type_ a) "dayahead" || String.eqb (type_ a) "intraday".

Definition is_continuous (a : Args) : bool := String.eqb (type_ a) "continuous".

Definition is_aggregated (a : Args) : bool := contains "aggregated_curves" (type_ a).

(** Lines 100-129: the market area as cleaned, and [value_clean] when a
    branch assigns it. *)
Definition clean_market_area (a : Args) (market_area : string) : string :=
  if is_dayahead a then
    if contains "GB" market_area then "GB" else market_area
  else market_area.

Definition value_clean (a : Args) (value : value) : M World (option string) :=
  if is_dayahead a then
    ret (Some (if value_is value "SDAC" then "MRC"
               else if value_is value "GB DAA 1 (60')" then "GB"
               else if value_is value "GB DAA 2 (30')" then "30-call-GB"
               else str_value value))
  else if is_intraday a then
    if value_is value "SIDC IDA1" then ret (Some "IDA1")
    else if value_is value "SIDC IDA2" then ret (Some "IDA2")
    else if value_is value "SIDC IDA3" then ret (Some "IDA3")
    else
      let* ch := value_contains "CH" value in
      if ch then ret (Some (str_value value))
      else
        let* gb := value_contains "GB" value in
        if gb then ret (Some (str_value value)) else ret (Some " ")
  else ret None.

(** Lines 132-135 *)
Definition combination_to_check (a : Args) (c : Combination) : list value :=
  if is_continuous a then
    [ VStr (market_area c); VDate (dt_date (delivery_date c));
      VStr (trading_modality a); product c ]
  else
    [ VStr (market_area c); VDate (dt_date (trading_date c));
      VDate (dt_date (delivery_date c)); VStr (trading_modality a);
      VStr (sub_modality a); product c ].

(** Lines 137-140 *)
Definition archive_check (exsting_combinations : option DataFrame)
    (combination : list value) : Res bool :=
  match exsting_combinations with
  | Some df => check_existing_combinations df combination
  | None => Ok false
  end.

Definition aggregated_url (market_area auction trading_date_str delivery_date_str
    sub_modality : string) : string :=
  "https://www.epexspot.com/en/market-results?market_area=" +:+ market_area
  +:+ "&auction=" +:+ auction +:+ "&trading_date=" +:+ trading_date_str
  +:+ "&delivery_date=" +:+ delivery_date_str
  +:+ "&underlying_year=&modality=Auction&sub_modality=" +:+ sub_modality
  +:+ "&technology=&data_mode=aggregated&period=&production_period=".

Definition continuous_url (market_area delivery_date_str product : string) : string :=
  "https://www.epexspot.com/en/market-results?market_area=" +:+ market_area
  +:+ "&auction=&trading_date=&delivery_date=" +:+ delivery_date_str
  +:+ "&underlying_year=&modality=Continuous&sub_modality=&technology="
  +:+ "&data_mode=table&period=&production_period=&product=" +:+ product.

(** Lines 149-154: the URL, unassigned when no branch applies. *)
Definition url_of (a : Args) (c : Combination) (clean : option string)
    : M World (option string) :=
  if is_table a then
    let* auction := lift_res (bound clean) in
    ret (Some (table_url (market_area c) auction (strftime (trading_date c))
                         (strftime (delivery_date c)) (sub_modality a)))
  else if is_continuous a then
    ret (Some (continuous_url (market_area c) (strftime (delivery_date c))
                              (str_value (product c))))
  else if is_aggregated a then
    let* auction := lift_res (bound clean) in
    ret (Some (aggregated_url (market_area c) auction (strftime (trading_date c))
                              (strftime (delivery_date c)) (sub_modality a)))
  else ret None.

(** Lines 160-173: the page, unassigned when the fetch fails or no branch
    applies. *)
Definition fetch (E : Env) (a : Args) (url : option string)
    : M World (option node * indicator) :=
  try_except
    (if is_table a then
       let* u := lift_res (bound url) in
       let* document := extract_soup E u in
       ret (Some document, Success)
     else if is_aggregated a || is_continuous a then
       let* u := lift_res (bound url) in
       let* document := extract_soup_aggregated_curves E u in
       ret (Some document, Success)
     else ret (None, Success))
    (fun _ => ret (None, Error)).

(** Lines 176-190 *)
Definition last_update_of (E : Env) (soup : option node) (success_indicator : indicator)
    : option string * indicator :=
  if negb (is_error success_indicator) then
    match res_bind (bound soup) (extract_last_update E) with
    | Ok text =>
        if (String.length text =? 0)%nat then (Some text, Error)
        else if (String.length text <? 10)%nat then (Some text, Error)
        else (Some text, success_indicator)
    | Raise _ => (None, Error)
    end
  else (None, success_indicator).

Definition hours_column_names : list string :=
  ["MarketArea"; "TradingDate"; "DeliveryDate"; "TradingModality"; "MarketSegment";
   "AuctionName"; "LastUpdate"; "Hours"; "BuyVolume(MWh)"; "SellVolume(MWh)";
   "Volume(MWh)"; "Price(EUR/MWh)"].

Definition base_peak_column_names : list string :=
  ["MarketArea"; "TradingDate"; "DeliveryDate"; "TradingModality"; "MarketSegment";
   "AuctionName"; "LastUpdate"; "Baseload(EUR/MWh)"; "Peakload(EUR/MWh)"].

Definition continuous_column_names : list string :=
  ["MarketArea"; "DeliveryDate"; "TradingModality"; "Product(min)"; "LastUpdate";
   "Hours"; "Low(EUR/MWh)"; "High(EUR/MWh)"; "Last(EUR/MWh)"; "WeightAvg(EUR/MWh)";
   "IDFull(EUR/MWh)"; "ID1(EUR/MWh)"; "ID3(EUR/MWh)"; "BuyVolume(MWh)";
   "SellVolume(MWh)"; "Volume(MWh)"; "RPD(POUND/MWh)"; "RPD HH(POUND/MWh)"].

Definition aggregated_column_names : list string :=
  ["MarketArea"; "TradingDate"; "DeliveryDate"; "TradingModality"; "MarketSegment";
   "AuctionName"; "LastUpdate"; "Hours"; "Participant"; "Volume(MWh)"; "Price(EUR/MWh)"].

Definition metadata (a : Args) (c : Combination) (last_update : string) : list cell :=
  [ Some (VStr (market_area c)); Some (VDate (dt_date (trading_date c)));
    Some (VDate (dt_date (delivery_date c))); Some (VStr (trading_modality a));
    Some (VStr (sub_modality a)); Some (product c); Some (VStr last_update) ].

Definition continuous_metadata (a : Args) (c : Combination) (last_update : string)
    : list cell :=
  [ Some (VStr (market_area c)); Some (VDate (dt_date (delivery_date c)));
    Some (VStr (trading_modality a)); Some (product c); Some (VStr last_update) ].

(** What the extraction leaves for the archives. *)
Inductive payload :=
| Tables (hours_data_list base_peak_data_list : list (list cell))
| Rows (data_list : list (list cell)) (column_names : list string)
| Nothing.

Definition flag (r : indicator) (failed : bool) : indicator :=
  if negb (is_error r) && failed then Error else r.

(** Lines 194-305: hourly and base/peak tables. *)
Definition extract_tables (E : Env) (a : Args) (c : Combination) (soup : node)
    (last_update : string) (success_indicator : indicator) : indicator * payload :=
  let '(hours, ok) :=
    match extract_hours soup with
    | Ok hs => (hs, success_indicator)
    | Raise _ => ([], Error)
    end in
  let ok :=
    if negb (is_error ok) && (length hours =? 0)%nat then Error
    else flag ok (String.length (default "" (head hours)) <? 2)%nat in
  let '(dayahead_intraday_data, ok) :=
    match extract_volume_and_price_data E soup with
    | Ok rows => (rows, ok)
    | Raise _ => ([], Error)
    end in
  let first := default [] (head dayahead_intraday_data) in
  let final := default [] (last dayahead_intraday_data) in
  let ok :=
    if negb (is_error ok) && (length dayahead_intraday_data =? 0)%nat then Error
    else if negb (is_error ok) && (length first =? 0)%nat then Error
    else if negb (is_error ok) && (length final =? 0)%nat then Error
    else if negb (is_error ok) && negb (length first =? 4)%nat then Error
    else flag ok (negb (length final =? 4)%nat) in
  let '(hours_data_list, ok) :=
    if negb (is_error ok) then
      match assemble_rows (metadata a c last_update) hours dayahead_intraday_data 0 with
      | Ok rows => (rows, ok)
      | Raise _ => ([], Error)
      end
    else ([], ok) in
  let '(baseload, peakload, ok) :=
    match extract_baseload_peakload E soup with
    | Ok bp => (fst bp, snd bp, ok)
    | Raise _ => (None, None, Error)
    end in
  let ok :=
    if negb (is_error ok) && isna baseload then Error
    else flag ok (isna peakload) in
  if negb (is_error ok)
  then (ok, Tables hours_data_list [metadata a c last_update ++ [baseload; peakload]])
  else (ok, Nothing).

(** [s.lower()] on ASCII. *)
Definition lower_ascii (ch : ascii) : ascii :=
  let n := nat_of_ascii ch in
  if ((65 <=? n) && (n <=? 90))%nat then ascii_of_nat (n + 32) else ch.

Fixpoint lower (s : string) : string :=
  match s with
  | EmptyString => EmptyString
  | String ch s' => String (lower_ascii ch) (lower s')
  end.

(** [th.get_text(strip=True)]: the text nodes, each stripped, the empty
    ones left out. *)
Fixpoint get_text_strip (n : node) : string :=
  match n with
  | Tag _ _ children =>
      (fix texts (l : list node) : string :=
         match l with
         | [] => EmptyString
         | ch :: r => get_text_strip ch +:+ texts r
         end) children
  | NavigableString s => strip s
  end.

(** Lines 355-357 *)
Definition header_labels (soup : node) : Res (list string) :=
  match find_all "tr" None soup !! 1%nat with
  | Some soup_header_row => Ok (map get_text_strip (find_all "th" None soup_header_row))
  | None => Raise IndexError
  end.

(** Lines 363-376 *)
Record header_flags := mk_flags {
  id_full_indicator : bool;
  id_1_indicator : bool;
  id_3_indicator : bool;
  rpd_indicator : bool
}.

Definition flags_of (headers : list string) : header_flags :=
  mk_flags
    (existsb (fun h => contains "id" (lower h) && contains "full" (lower h)) headers)
    (existsb (fun h => contains "id" (lower h) && contains "1" (lower h)) headers)
    (existsb (fun h => contains "id" (lower h) && contains "3" (lower h)) headers)
    (existsb (fun h => contains "rpd" (lower h)) headers).

(** Lines 386-400: the entries of one row go after the six leading cells,
    with a missing cell in the place of each optional column that the page
    did not render. *)
Fixpoint place_entries (f : header_flags) (row_clean : list cell) (row_counter : nat)
    (entries : list cell) : list cell :=
  match entries with
  | [] => row_clean
  | entry :: rest =>
      let row_counter := S row_counter in
      let '(row_clean, row_counter) :=
        if negb (id_full_indicator f) && (row_counter =? 10)%nat
        then (row_clean ++ [None], S row_counter) else (row_clean, row_counter) in
      let '(row_clean, row_counter) :=
        if negb (id_1_indicator f) && negb (rpd_indicator f) && (row_counter =? 11)%nat
        then (row_clean ++ [None], S row_counter) else (row_clean, row_counter) in
      let '(row_clean, row_counter) :=
        if negb (id_3_indicator f) && negb (rpd_indicator f) && (row_counter =? 12)%nat
        then (row_clean ++ [None], S row_counter) else (row_clean, row_counter) in
      place_entries f (row_clean ++ [entry]) row_counter rest
  end.

(** Lines 401-410 *)
Definition gb_columns (market_area : string) (row_clean : list cell) : Res (list cell) :=
  if negb (contains "GB" market_area) then Ok (row_clean ++ [None; None])
  else
    match row_clean !! 11%nat, row_clean !! 12%nat with
    | Some rpd, Some rpd_hh =>
        Ok (<[12%nat := None]> (<[11%nat := None]> row_clean) ++ [rpd; rpd_hh])
    | _, _ => Raise IndexError
    end.

(** Lines 381-412 *)
Fixpoint continuous_rows (f : header_flags) (market_area : string) (lead : list cell)
    (hours : list string) (continuous_data : list (list cell)) (index : nat)
    : Res (list (list cell)) :=
  match continuous_data with
  | [] => Ok []
  | entries :: rest =>
      match hours !! index with
      | None => Raise IndexError
      | Some hour =>
          let row_clean := lead ++ [Some (VStr hour)] in
          let row_clean := place_entries f row_clean (length row_clean - 1) entries in
          res_bind (gb_columns market_area row_clean) (fun row_clean =>
          res_bind (continuous_rows f market_area lead hours rest (S index)) (fun rows =>
          Ok (row_clean :: rows)))
      end
  end.

(** Lines 307-418: continuous trading.  [len(continuous_data)] on a failed
    extraction is the [TypeError] that leaves the driver. *)
Definition extract_continuous (E : Env) (a : Args) (c : Combination) (soup : node)
    (last_update : string) : Res (indicator * payload) :=
  let '(hours, ok) :=
    match extract_hours_continous soup with
    | Ok hs => (hs, Success)
    | Raise _ => ([], Error)
    end in
  let ok :=
    if negb (is_error ok) && (length hours =? 0)%nat then Error
    else flag ok (String.length (default "" (head hours)) <? 2)%nat in
  res_bind
    (if negb (is_error ok) then
       match extract_volume_and_price_data_continuous E soup with
       | Raise _ => Raise TypeError
       | Ok continuous_data =>
           let first := default [] (head continuous_data) in
           let final := default [] (last continuous_data) in
           if (length continuous_data =? 0)%nat then Ok ([], Error)
           else if (length first <? 4)%nat then Ok (continuous_data, Error)
           else if (length final <? 4)%nat then Ok (continuous_data, Error)
           else Ok (continuous_data, ok)
       end
     else Ok ([], ok))
    (fun found =>
       let '(continuous_data, ok) := found in
       let '(headers, ok) :=
         if negb (is_error ok) then
           match header_labels soup with
           | Ok hs => (hs, ok)
           | Raise _ => ([], Error)
           end
         else ([], ok) in
       if negb (is_error ok) then
         match continuous_rows (flags_of headers) (market_area c)
                 (continuous_metadata a c last_update) hours continuous_data 0 with
         | Ok data_list => Ok (ok, Rows data_list continuous_column_names)
         | Raise _ => Ok (Error, Nothing)
         end
       else Ok (ok, Nothing)).

(** Lines 420-480: aggregated curves.  The handler of the decoding reads
    the unbound [e], which is the [UnboundLocalError] that leaves the
    driver. *)
Definition extract_aggregated (E : Env) (a : Args) (c : Combination) (soup : node)
    (last_update : string) : Res (indicator * payload) :=
  match json_content E soup with
  | None => Ok (Error, Nothing)
  | Some content =>
      match decode_curves E content (metadata a c last_update) with
      | Some data_list => Ok (Success, Rows data_list aggregated_column_names)
      | None => Raise UnboundLocalError
      end
  end.

(** Lines 192-480 *)
Definition extract (E : Env) (a : Args) (c : Combination) (soup : option node)
    (last_update : option string) (success_indicator : indicator)
    : Res (indicator * payload) :=
  if negb (is_error success_indicator) then
    match soup, last_update with
    | Some document, Some text =>
        if is_table a then Ok (extract_tables E a c document text success_indicator)
        else if is_continuous a then extract_continuous E a c document text
        else if is_aggregated a then extract_aggregated E a c document text
        else Ok (success_indicator, Nothing)
    | _, _ => Raise UnboundLocalError
    end
  else Ok (success_indicator, Nothing).

(** [os.path.join] of two parts: a part that starts with a slash replaces
    what precedes it, and a slash is put between the parts unless the
    first is empty or ends with one. *)
Definition path_join (path part : string) : string :=
  if String.prefix "/" part then part
  else if String.eqb path "" || String.eqb (basename path) "" then path +:+ part
  else path +:+ "/" +:+ part.

(** [os.path.join(folder_path, market_area, "")] *)
Definition archive_folder (a : Args) (c : Combination) : string :=
  path_join (path_join (folder_path a) (market_area c)) "".

Definition archive_path (a : Args) (c : Combination) (suffix : string) : string :=
  archive_folder a c +:+ "epex_" +:+ market_area c +:+ "_" +:+ type_ a +:+ suffix.

(** Lines 518-537 and 576-590: read the archive if there is one, add the
    new rows, write it back. *)
Definition append_to_archive (E : Env) (a : Args) (c : Combination) (suffix : string)
    (with_trading_date : bool) (new_rows : DataFrame) : M World unit :=
  let* folder := os_path_exists (archive_folder a c) in
  let* archive_data_df :=
    if folder then
      let* present := os_path_exists (archive_path a c suffix) in
      if present then
        let* imported := import_csv E (archive_path a c suffix) in
        let* df := subscript imported in
        let* df :=
          if with_trading_date
          then lift_res (convert_column "TradingDate" (to_date E) df)
          else ret df in
        lift_res (convert_column "DeliveryDate" (to_date E) df)
      else ret empty_frame
    else os_makedirs (archive_folder a c) >> ret empty_frame in
  write_table E (archive_path a c suffix) (concat_frames archive_data_df new_rows).

Definition frame_of (rows : list (list cell)) (names : list string) : option DataFrame :=
  match make_frame rows names with
  | Ok df => Some (clean_df df)
  | Raise _ => None
  end.

Definition unusable (df : DataFrame) : bool :=
  (length (data df) =? 0)%nat || frame_empty df.

(** Lines 482-596 *)
Definition store (E : Env) (a : Args) (c : Combination) (success_indicator : indicator)
    (extracted : payload) : M World indicator :=
  if negb (is_error success_indicator) then
    if is_table a then
      match extracted with
      | Tables hours_data_list base_peak_data_list =>
          match frame_of hours_data_list hours_column_names with
          | None => ret Error
          | Some hours_data_df =>
              match frame_of base_peak_data_list base_peak_column_names with
              | None => ret Error
              | Some base_peak_data_df =>
                  if unusable hours_data_df || unusable base_peak_data_df then ret Error
                  else
                    let* ok :=
                      try_except
                        (append_to_archive E a c "_hours_archive.csv" true hours_data_df >>
                         ret Success)
                        (fun _ => ret Error) in
                    if negb (is_error ok) then
                      try_except
                        (append_to_archive E a c "_base_peak_archive.csv" true
                                           base_peak_data_df >>
                         ret Success)
                        (fun _ => ret Error)
                    else ret ok
              end
          end
      | _ => raise UnboundLocalError
      end
    else if is_continuous a || is_aggregated a then
      match extracted with
      | Rows data_list column_names =>
          match frame_of data_list column_names with
          | None => ret Error
          | Some data_df =>
              if unusable data_df then ret Error
              else
                try_except
                  (append_to_archive E a c "_archive.csv" (is_aggregated a) data_df >>
                   ret Success)
                  (fun _ => ret Error)
          end
      | _ => raise UnboundLocalError
      end
    else ret success_indicator
  else ret success_indicator.

Definition tracking_header : list string :=
  ["MarketArea"; "TradingDate"; "DeliveryDate"; "TradingModality"; "SubModality";
   "AuctionName"; "WebsiteAccessTimeUTC"; "SuccessIndicator"].

Definition continuous_tracking_header : list string :=
  ["MarketArea"; "DeliveryDate"; "TradingModality"; "Product(min)";
   "WebsiteAccessTimeUTC"; "SuccessIndicator"].

(** Lines 602-610: the ledger row and its header, unassigned when the
    type names none of the families. *)
Definition tracking_row (a : Args) (c : Combination) (current_utc_time : string)
    (success_indicator : indicator) : option (list string * list string) :=
  if contains "dayahead" (type_ a) || contains "intraday" (type_ a) then
    Some ([ market_area c; strftime (trading_date c); strftime (delivery_date c);
            trading_modality a; sub_modality a; str_value (product c);
            current_utc_time; str_indicator success_indicator ],
          tracking_header)
  else if contains "continuous" (type_ a) then
    Some ([ market_area c; strftime (delivery_date c); trading_modality a;
            str_value (product c); current_utc_time; str_indicator success_indicator ],
          continuous_tracking_header)
  else if contains "aggregated_curves" (type_ a) then
    Some ([ market_area c; strftime (trading_date c); strftime (delivery_date c);
            trading_modality a; sub_modality a; str_value (product c);
            current_utc_time; str_indicator success_indicator ],
          tracking_header)
  else None.

(** Lines 601-617 *)
Definition track_and_pace (a : Args) (c : Combination) (current_utc_time : string)
    (success_indicator : indicator) : M World unit :=
  let row := tracking_row a c current_utc_time success_indicator in
  let* _ :=
    if is_error success_indicator then
      let* present := os_path_exists (folder_path a) in
      if negb present then os_makedirs (folder_path a) else ret tt
    else ret tt in
  let* row := lift_res (bound row) in
  update_tracking_file (tracking_file_filepath a) (fst row) (snd row) >>
  time_sleep (backoff_time a).

(** Lines 145-617: an attempted combination.  Returns whether it ended
    in error. *)
Definition attempt (E : Env) (a : Args) (c : Combination) (clean : option string)
    : M World bool :=
  let* url := url_of a c clean in
  let* current_utc_time := now E in
  let* fetched := fetch E a url in
  let '(soup, success_indicator) := fetched in
  let '(last_update, success_indicator) := last_update_of E soup success_indicator in
  let* extracted := lift_res (extract E a c soup last_update success_indicator) in
  let '(success_indicator, found) := extracted in
  let* success_indicator := store E a c success_indicator found in
  track_and_pace a c current_utc_time success_indicator >>
  ret (is_error success_indicator).

(** The body of the innermost loop, lines 94-619. *)
Definition process (E : Env) (a : Args) (exsting_combinations : option DataFrame)
    (dates : datetime * datetime) (market_area : string) (value : value)
    (total_error_count : nat) : M World (string * nat) :=
  let c := mkCombination (clean_market_area a market_area) value (fst dates) (snd dates) in
  let* clean := value_clean a value in
  let* archive_check :=
    lift_res (archive_check exsting_combinations (combination_to_check a c)) in
  if archive_check then
    emit (EPrintAlready (combination_to_check a c)) >>
    ret (clean_market_area a market_area, total_error_count)
  else
    emit (EPrintMustAdd (combination_to_check a c)) >>
    let* failed := attempt E a c clean in
    ret (clean_market_area a market_area,
         if failed then S total_error_count else total_error_count).

Fixpoint for_values (E : Env) (a : Args) (exsting_combinations : option DataFrame)
    (dates : datetime * datetime) (market_area : string) (values : list value)
    (total_error_count : nat) : M World nat :=
  match values with
  | [] => ret total_error_count
  | value :: rest =>
      let* r := process E a exsting_combinations dates market_area value
                        total_error_count in
      for_values E a exsting_combinations dates (fst r) rest (snd r)
  end.

Fixpoint for_market_areas (E : Env) (a : Args) (exsting_combinations : option DataFrame)
    (dates : datetime * datetime) (market_areas : list (string * list value))
    (total_error_count : nat) : M World nat :=
  match market_areas with
  | [] => ret total_error_count
  | (market_area, values) :: rest =>
      let* n := for_values E a exsting_combinations dates market_area values
                           total_error_count in
      for_market_areas E a exsting_combinations dates rest n
  end.

Fixpoint for_dates (E : Env) (a : Args) (exsting_combinations : option DataFrame)
    (market_areas : list (string * list value))
    (date_combinations : list (datetime * datetime))
    (total_error_count : nat) : M World nat :=
  match date_combinations with
  | [] => ret total_error_count
  | dates :: rest =>
      let* n := for_market_areas E a exsting_combinations dates market_areas
                                 total_error_count in
      for_dates E a exsting_combinations market_areas rest n
  end.

Definition continuous_key_columns : list string :=
  ["MarketArea"; "DeliveryDate"; "TradingModality"; "Product(min)"].

Definition key_columns : list string :=
  ["MarketArea"; "TradingDate"; "DeliveryDate"; "TradingModality"; "SubModality";
   "AuctionName"].

(** Lines 57-68: the skip-set, loaded once before the loops. *)
Definition load_existing (E : Env) (a : Args) : M World (option DataFrame) :=
  let* existing_combinations_file := os_path_exists (tracking_file_filepath a) in
  if existing_combinations_file then
    if is_continuous a then
      let* df := import_exsting_combinations_file E (tracking_file_filepath a)
                   continuous_key_columns in
      ret (Some df)
    else
      let* df := import_exsting_combinations_file E (tracking_file_filepath a)
                   key_columns in
      let* df := lift_res (convert_column "TradingDate" (to_date E) df) in
      ret (Some df)
  else ret None.

(** The skip-set as a function of the ledger table that pandas read:
    what [load_existing] computes once the file is imported. *)
Definition skip_set (E : Env) (a : Args) (tracking : DataFrame) : Res DataFrame :=
  if is_continuous a then existing_combinations E tracking continuous_key_columns
  else res_bind (existing_combinations E tracking key_columns)
                (convert_column "TradingDate" (to_date E)).

(** The key of a ledger row as the skip-set holds it. *)
Definition ledger_key (E : Env) (a : Args) (cols : list string) (row : list cell)
    : Res (list cell) :=
  if is_continuous a then Ok (key_cells continuous_key_columns cols row)
  else convert_row "TradingDate" (to_date E)
                   (List.filter (fun c => in_list c key_columns) cols)
                   (key_cells key_columns cols row).

(** The five types that [download] documents. *)
Definition known_type (a : Args) : bool :=
  is_table a || is_continuous a
  || String.eqb (type_ a) "aggregated_curves_dayahead"
  || String.eqb (type_ a) "aggregated_curves_intraday".

(** [download]: the dates are walked from the last to the first. *)
Definition download (E : Env) (a : Args) (date_combinations : list (datetime * datetime))
    (market_areas : list (string * list value)) : M World nat :=
  let* exsting_combinations := load_existing E a in
  for_dates E a exsting_combinations market_areas (rev date_combinations) 0.

End Download.

(** ** Reading traces *)

(** The files after a sequence of events: only writes change them. *)
Definition replay (evs : list event) (files : gmap string file) : gmap string file :=
  foldl (fun m e => match e with
                    | EWrite p f => <[p := f]> m
                    | _ => m
                    end) files evs.

(** [w'] is [w] after more events, all of which pass [q]. *)
Definition extends (q : event -> bool) (w w' : World) : Prop :=
  exists evs, trace w' = trace w ++ evs /\ forallb q evs = true /\
              fs w' = replay evs (fs w).

(** States that hold a world: the world itself, or locals and a world. *)
Class HasWorld (S : Type) := world : S -> World.

#[global] Instance world_has_world : HasWorld World := fun w => w.

#[global] Instance locals_have_world : HasWorld DownloadData.St := snd.

(** Whatever the computation does and however it ends, the events it adds
    pass [q]. *)
Definition emits {S A} `{HasWorld S} (q : event -> bool) (m : M S A) : Prop :=
  forall s, extends q (world s) (world (snd (m s))).

Definition any_event (e : event) : bool := true.

Definition no_event (e : event) : bool := false.

(** File status tests and reads. *)
Definition observing (e : event) : bool :=
  match e with
  | EStat _ | ERead _ => true
  | _ => false
  end.

(** Everything but a write to [path]. *)
Definition not_writing (path : string) (e : event) : bool :=
  match e with
  | EWrite p _ => negb (String.eqb p path)
  | _ => true
  end.

(** Everything but writes to other files than [path], fetches, pauses and
    the skip messages. *)
Definition working_on (path : string) (e : event) : bool :=
  match e with
  | EWrite p _ => String.eqb p path
  | EStat _ | ERead _ | EMakedirs _ => true
  | _ => false
  end.

(** Everything but pauses and the skip messages. *)
Definition unpaced (e : event) : bool :=
  match e with
  | ESleep _ | EPrintAlready _ | EPrintMustAdd _ => false
  | _ => true
  end.

Definition is_write (e : event) : bool :=
  match e with
  | EWrite _ _ => true
  | _ => false
  end.

Definition is_fetch (e : event) : bool :=
  match e with
  | EFetch _ => true
  | _ => false
  end.

(** ** What a combination leaves in the trace *)

(** The events of one combination in [download]: the skip message alone,
    or the must-add message, the work, and the pause at the end. *)
Inductive paced (backoff_time : Z) : list event -> Prop :=
| paced_skip (combination : list value) :
    paced backoff_time [EPrintAlready combination]
| paced_attempt (combination : list value) (work : list event) :
    forallb unpaced work = true ->
    paced backoff_time (EPrintMustAdd combination :: work ++ [ESleep backoff_time]).

(** The events of one combination in [download_data]: status tests and
    reads, one of the two messages, the work, and the pause at the end
    in either case. *)
Inductive always_paced (backoff_time : Z) : list event -> Prop :=
| always_paced_skip (checks : list event) (combination : list value) :
    forallb observing checks = true ->
    always_paced backoff_time
      (checks ++ [EPrintAlready combination; ESleep backoff_time])
| always_paced_attempt (checks : list event) (combination : list value)
    (work : list event) :
    forallb observing checks = true ->
    forallb unpaced work = true ->
    always_paced backoff_time
      (checks ++ EPrintMustAdd combination :: work ++ [ESleep backoff_time]).

(** A page, an environment and a call of each driver for the examples. *)
Definition example_last_update : string := "13 January 2025 (10:33:43 CET/CEST)".

Definition d_2024_05_02 : date := mk_date 2024 5 2.

Definition example_env : Env :=
  mkEnv (fun _ _ => Ok example_page)
        (fun _ _ => Ok example_page)
        (fun _ => "2024-05-03T08:00:00+00:00")
        (fun _ _ => true)
        (fun rows =>
           match rows with
           | header :: entries =>
               Some (mkDF header
                          (map (map (fun field : string =>
                                       if String.eqb field "" then None
                                       else Some (VStr field))) entries))
           | [] => None
           end)
        (fun s => if String.eqb s "2024-05-01" then Some d_2024_05_01
                  else if String.eqb s "2024-05-02" then Some d_2024_05_02
                  else None)
        (fun _ => None)
        (fun _ => Ok example_last_update)
        (fun _ => Ok [numeric_row 10 20 30 40; numeric_row 11 21 31 41])
        (fun _ => Ok [numeric_row 10 20 30 40; numeric_row 11 21 31 41])
        (fun _ => Ok (Some (VNum 50), Some (VNum 60)))
        (fun _ => None)
        (fun _ _ => None).

Definition example_dates : datetime * datetime :=
  (mk_datetime d_2024_05_01 0, mk_datetime d_2024_05_02 0).

Definition dayahead_args : DownloadData.Args :=
  DownloadData.mkArgs "Dayahead" "Auction" "DayAhead"
    "epex_auction_dayahead_tracking.csv"
    "epex_auction_dayahead_hourly_data_archive.xlsx"
    "epex_auction_dayahead_basepeak_data_archive.xlsx"
    3.

Definition archived_hourly : DataFrame :=
  mkDF DownloadData.columns_hourly
       [ [ Some (VStr "DE-LU"); Some (VDate d_2024_05_01); Some (VDate d_2024_05_02);
           Some (VStr "Auction"); Some (VStr "DayAhead"); Some (VStr "SDAC");
           Some (VStr example_last_update); Some (VStr "00 - 01");
           Some (VNum 10); Some (VNum 20); Some (VNum 30); Some (VNum 40) ] ].

Definition archived_base_peak : DataFrame :=
  mkDF DownloadData.columns_base_peak
       [ [ Some (VStr "DE-LU"); Some (VDate d_2024_05_01); Some (VDate d_2024_05_02);
           Some (VStr "Auction"); Some (VStr "DayAhead"); Some (VStr "SDAC");
           Some (VStr example_last_update); Some (VNum 50); Some (VNum 60) ] ].

(** Only the hourly archive holds the combination. *)
Definition world_hourly_only : World :=
  world_of (<["epex_auction_dayahead_hourly_data_archive.xlsx" := FTable archived_hourly]> ∅).

(** Both archives hold the combination. *)
Definition world_both_archived : World :=
  world_of (<["epex_auction_dayahead_hourly_data_archive.xlsx" := FTable archived_hourly]>
            (<["epex_auction_dayahead_basepeak_data_archive.xlsx" :=
                 FTable archived_base_peak]> ∅)).

(** The combinations of a run in the order of the three loops. *)
Definition work_list {A} (days : list (datetime * datetime))
    (market_areas : list (string * list A)) : list (datetime * datetime * string * A) :=
  flat_map (fun dates =>
              flat_map (fun ma : string * list A =>
                          map (fun x => (dates, fst ma, x)) (snd ma))
                       market_areas)
           days.

(** A ledger, as pandas reads it, whose only entry for the combination of
    the examples records an error. *)
Definition ledger_with_error : DataFrame :=
  mkDF Download.tracking_header
       [ [ Some (VStr "DE-LU"); Some (VStr "2024-05-01"); Some (VStr "2024-05-02");
           Some (VStr "Auction"); Some (VStr "DayAhead"); Some (VStr "SDAC");
           Some (VStr "2024-05-03T08:00:00+00:00"); Some (VStr "Error") ];
         [ Some (VStr "FR"); Some (VStr "2024-05-01"); Some (VStr "2024-05-02");
           Some (VStr "Auction"); Some (VStr "DayAhead"); Some (VStr "SDAC");
           Some (VStr "2024-05-03T08:00:05+00:00"); Some (VStr "Success") ] ].

Definition download_args : Download.Args :=
  Download.mkArgs "dayahead" "root/epex_dayahead_tracking.csv" "Auction" "DayAhead"
                  "root" 1.

(** The same ledger once its delivery dates are dates, and its skip-set. *)
Definition ledger_with_error_dated : DataFrame :=
  mkDF Download.tracking_header
       [ [ Some (VStr "DE-LU"); Some (VStr "2024-05-01"); Some (VDate d_2024_05_02);
           Some (VStr "Auction"); Some (VStr "DayAhead"); Some (VStr "SDAC");
           Some (VStr "2024-05-03T08:00:00+00:00"); Some (VStr "Error") ];
         [ Some (VStr "FR"); Some (VStr "2024-05-01"); Some (VDate d_2024_05_02);
           Some (VStr "Auction"); Some (VStr "DayAhead"); Some (VStr "SDAC");
           Some (VStr "2024-05-03T08:00:05+00:00"); Some (VStr "Success") ] ].

Definition skip_set_with_error : DataFrame :=
  mkDF Download.key_columns
       [ [ Some (VStr "FR"); Some (VDate d_2024_05_01); Some (VDate d_2024_05_02);
           Some (VStr "Auction"); Some (VStr "DayAhead"); Some (VStr "SDAC") ] ].

Definition example_key : list value :=
  [ VStr "DE-LU"; VDate d_2024_05_01; VDate d_2024_05_02; VStr "Auction";
    VStr "DayAhead"; VStr "SDAC" ].

(** ** The page extractors *)

(** [s.replace(old, new)]: the occurrences of [old] are replaced from the
    left, none overlapping another; [skip] counts the characters of the
    occurrence at hand that are still to be passed over.  With an empty
    [old], [new] goes before every character and at the end. *)
Fixpoint replace_from (old new : string) (skip : nat) (s : string) : string :=
  match s with
  | EmptyString => EmptyString
  | String c s' =>
      match skip with
      | S k => replace_from old new k s'
      | O =>
          if String.prefix old s
          then new +:+ replace_from old new (String.length old - 1) s'
          else String c (replace_from old new 0 s')
      end
  end.

Definition replace (old new s : string) : string :=
  match old with
  | EmptyString =>
      new +:+ (fix between (s : string) : string :=
                 match s with
                 | EmptyString => EmptyString
                 | String c s' => String c (new +:+ between s')
                 end) s
  | _ => replace_from old new 0 s
  end.

(** [s.split()]: the maximal runs of characters that are no whitespace;
    [word] is the run being read. *)
Fixpoint split_from (word : string) (s : string) : list string :=
  match s with
  | EmptyString => if String.eqb word "" then [] else [word]
  | String c s' =>
      if is_space c then
        if String.eqb word "" then split_from "" s' else word :: split_from "" s'
      else split_from (word +:+ String c "") s'
  end.

Definition split_ws (s : string) : list string := split_from "" s.

Definition newline : string := String "010"%char "".

(** Lines 190-191 of [power_data_utils.py], the same at lines 347-348 and
    356-357 of [power_data_downloader_utils.py]: the cleaned text of the
    last-update element. *)
Definition cleaned_text (last_update_element : node) : string :=
  let last_update_text :=
    strip (replace newline " "
             (strip (replace "Last update:" ""
                       (Download.get_text_strip last_update_element)))) in
  String.concat " " (split_ws last_update_text).

(** [float(cell.text.strip().replace(",", ""))].  Which texts Python reads
    as a number is the parameter [float] of the extractors ([None] where
    [float()] raises its [ValueError]); the number read is kept as the [Z]
    that [VNum] stores. *)
Definition number_of (float : string -> option Z) (tag : node) : option Z :=
  float (replace "," "" (strip (get_text tag))).

(** The loop over the cells of one table row in
    [extract_volume_and_price_data]: blank cells and cells that are no
    number are passed over. *)
Fixpoint row_numbers (float : string -> option Z) (cells : list node) : list cell :=
  match cells with
  | [] => []
  | cell :: rest =>
      if String.eqb (strip (get_text cell)) "" then row_numbers float rest
      else
        match number_of float cell with
        | Some cell_data => Some (VNum cell_data) :: row_numbers float rest
        | None => row_numbers float rest
        end
  end.

(** The same loop in [extract_volume_and_price_data_continuous]: a cell
    that is no number leaves a [None] in its place. *)
Fixpoint row_numbers_continuous (float : string -> option Z) (cells : list node)
    : list cell :=
  match cells with
  | [] => []
  | cell :: rest =>
      if String.eqb (strip (get_text cell)) "" then row_numbers_continuous float rest
      else
        match number_of float cell with
        | Some cell_data => Some (VNum cell_data) :: row_numbers_continuous float rest
        | None => None :: row_numbers_continuous float rest
        end
  end.

(** The loop over the table rows: a row is kept when it has an entry. *)
Fixpoint table_rows (cells_of : list node -> list cell) (rows : list node)
    : list (list cell) :=
  match rows with
  | [] => []
  | row :: rest =>
      let row_data := cells_of (find_all "td" None row) in
      if (0 <? length row_data)%nat then row_data :: table_rows cells_of rest
      else table_rows cells_of rest
  end.

(** [row.find("th") and term in row.find("th").text] *)
Definition th_mentions (term : string) (row : node) : bool :=
  match find "th" None row with
  | Some th => contains term (get_text th)
  | None => false
  end.

(** [row.find("span").text.strip().replace(",", "")] *)
Definition span_text (row : node) : Res string :=
  res_bind (on (find "span" None row) get_text) (fun text =>
  Ok (replace "," "" (strip text))).

(** [float(...)] *)
Definition to_float (float : string -> option Z) (s : string) : Res Z :=
  match float s with
  | Some z => Ok z
  | None => Raise ValueError
  end.

(** The loop of [extract_baseload_peakload] over the table rows: a later
    row overwrites what an earlier one gave. *)
Fixpoint base_peak_rows (float : string -> option Z) (rows : list node)
    (baseload_value peakload_value : cell) : Res (cell * cell) :=
  match rows with
  | [] => Ok (baseload_value, peakload_value)
  | row :: rest =>
      res_bind
        (if th_mentions "Baseload" row then
           res_bind (span_text row) (fun s =>
           res_bind (to_float float s) (fun z => Ok (Some (VNum z))))
         else Ok baseload_value) (fun baseload_value =>
      res_bind
        (if th_mentions "Peakload" row then
           match res_bind (span_text row) (to_float float) with
           | Ok z => Ok (Some (VNum z))
           | Raise ValueError =>
               res_bind (span_text row) (fun s => Ok (Some (VStr s)))
           | Raise e => Raise e
           end
         else Ok peakload_value) (fun peakload_value =>
      base_peak_rows float rest baseload_value peakload_value))
  end.

(** The extractors of [power_data_utils.py]. *)
Module Utils.

Definition extract_last_update (soup : node) : Res string :=
  match find "span" (Some "last-update") soup with
  | Some last_update_span => Ok (cleaned_text last_update_span)
  | None => Raise ValueError
  end.

Definition extract_volume_and_price_data (float : string -> option Z) (soup : node)
    : Res (list (list cell)) :=
  let table := find "table" (Some "table-01") soup in
  res_bind (on table (find_all "tr" None)) (fun rows =>
  Ok (table_rows (row_numbers float) rows)).

Definition extract_baseload_peakload (float : string -> option Z) (soup : node)
    : Res (cell * cell) :=
  base_peak_rows float (find_all "tr" None soup) None None.

End Utils.

(** The extractors of [power_data_downloader_utils.py]; the table and the
    base and peak load are read as in [power_data_utils.py]. *)
Module DownloaderUtils.

Definition extract_last_update (soup : node) : Res string :=
  match find "span" (Some "last-update") soup with
  | Some last_update_span => Ok (cleaned_text last_update_span)
  | None =>
      match find "div" (Some "last-update") soup with
      | Some last_update_div => Ok (cleaned_text last_update_div)
      | None => Raise ValueError
      end
  end.

Definition extract_volume_and_price_data (float : string -> option Z) (soup : node)
    : Res (list (list cell)) :=
  let table := find "table" (Some "table-01") soup in
  res_bind (on table (find_all "tr" None)) (fun rows =>
  Ok (table_rows (row_numbers float) rows)).

Definition extract_volume_and_price_data_continuous (float : string -> option Z)
    (soup : node) : Res (list (list cell)) :=
  let table := find "table" (Some "table-01") soup in
  res_bind (on table (find_all "tr" None)) (fun rows =>
  Ok (table_rows (row_numbers_continuous float) rows)).

Definition extract_baseload_peakload (float : string -> option Z) (soup : node)
    : Res (cell * cell) :=
  base_peak_rows float (find_all "tr" None soup) None None.

End DownloaderUtils.

(** A word: not empty and without whitespace. *)
Fixpoint no_whitespace (s : string) : bool :=
  match s with
  | EmptyString => true
  | String c s' => negb (is_space c) && no_whitespace s'
  end.

Definition is_word (w : string) : bool :=
  negb (String.eqb w "") && no_whitespace w.

(** A text of ASCII characters only: on these the whitespace of
    [is_space] is the whitespace of Python's [strip] and [split], which
    count further characters beyond ASCII (the no-break space among them)
    as whitespace. *)
Fixpoint is_ascii (s : string) : bool :=
  match s with
  | EmptyString => true
  | String c s' => (nat_of_ascii c <? 128)%nat && is_ascii s'
  end.

(** Whitespace only. *)
Fixpoint is_blank (s : string) : bool :=
  match s with
  | EmptyString => true
  | String c s' => is_space c && is_blank s'
  end.

(** Whether a text starts with a character that is no whitespace (or is
    empty). *)
Definition starts_clean (s : string) : bool :=
  match s with
  | EmptyString => true
  | String c _ => negb (is_space c)
  end.

(** Whether a character is absent from a text. *)
Fixpoint lacks (c : ascii) (s : string) : bool :=
  match s with
  | EmptyString => true
  | String d s' => negb (Ascii.eqb c d) && lacks c s'
  end.

(** A last-update element as the page renders it, with the label, a
    nested tag and the text around it. *)
Definition example_last_update_span : node :=
  Tag "span" ["last-update"]
      [NavigableString "  Last update:  "; Tag "b" [] [NavigableString "13 January 2025 "];
       NavigableString "(10:33:43 CET/CEST)"].

(** A reader of numbers for the examples: the texts made of digits, read
    as the integer they write. *)
Fixpoint digits_value (acc : Z) (s : string) : option Z :=
  match s with
  | EmptyString => Some acc
  | String c s' =>
      let n := nat_of_ascii c in
      if ((48 <=? n) && (n <=? 57))%nat
      then digits_value (10 * acc + Z.of_nat (n - 48)) s'
      else None
  end.

Definition example_float (s : string) : option Z :=
  match s with
  | EmptyString => None
  | _ => digits_value 0 s
  end.

(** The page of the docstring of [extract_baseload_peakload], and one
    whose peak load is a dash. *)
Definition load_row (term text : string) : node :=
  Tag "tr" [] [ Tag "th" [] [NavigableString term];
                Tag "td" [] [Tag "span" [] [NavigableString text]] ].

Definition example_loads : node :=
  document [ load_row "Baseload" "5,000"; load_row "Peakload" "8,000" ].

Definition example_loads_dash : node :=
  document [ load_row "Baseload" "5,000"; load_row "Peakload" "-" ].

(** A combination of the examples for [download]. *)
Definition example_combination : Download.Combination :=
  Download.mkCombination "DE-LU" (VStr "SDAC") (fst example_dates) (snd example_dates).

(** The optional columns of the continuous table (ID Full, ID1, ID3), in
    the order of the column names: whether the page renders them.  On a
    page with the RPD columns these stand where ID1 and ID3 would. *)
Definition rendered_optional (f : Download.header_flags) : list bool :=
  [ Download.id_full_indicator f;
    Download.id_1_indicator f || Download.rpd_indicator f;
    Download.id_3_indicator f || Download.rpd_indicator f ].

(** The cells under the optional columns and after them: the next entry
    for a rendered column, a missing cell for another. *)
Fixpoint fill_optional (rendered : list bool) (entries : list cell) : list cell :=
  match rendered with
  | [] => entries
  | true :: more =>
      match entries with
      | entry :: rest => entry :: fill_optional more rest
      | [] => []
      end
  | false :: more => None :: fill_optional more entries
  end.

(** A row of the continuous table as the column names lay it out: the
    five leading cells, the hour, the four prices, the optional columns,
    the further entries, and the two RPD columns, missing outside GB. *)
Definition continuous_row (f : Download.header_flags) (lead : list cell) (hour : string)
    (entries : list cell) : list cell :=
  lead ++ [Some (VStr hour)] ++ take 4 entries
    ++ fill_optional (rendered_optional f) (drop 4 entries) ++ [None; None].

(** The hour list of a table page as the page source has it: list items
    of any class, each with its label in an [a], and the text [sep]
    between the tags. *)
Definition list_items (sep : string) (items : list (list string * string)) : list node :=
  flat_map (fun item => [li (fst item) (snd item); NavigableString sep]) items.

Definition hours_list (sep : string) (items : list (list string * string)) : node :=
  Tag "div" ["fixed-column"; "js-table-times"]
      [ NavigableString sep;
        Tag "ul" [] (NavigableString sep :: list_items sep items);
        NavigableString sep ].

(** The list items of an hour block. *)
Definition block_list_items (b : hour_block) : list (list string * string) :=
  (["child"], hb_label b)
    :: map (fun sub : granularity * string =>
              (match fst sub with
               | HalfHour => ["sub-child"; "lvl-1"]
               | Quarter => ["sub-child"; "lvl-2"]
               end, snd sub))
           (hb_subs b).

(** The loops over the auctions of a market area with the market area
    held fixed, for comparison with the loops of the drivers, which
    reassign their loop variable. *)
Fixpoint each_auction (E : Env) (a : DownloadData.Args) (dates : datetime * datetime)
    (market_area : string) (auctions : list string) : M DownloadData.St unit :=
  match auctions with
  | [] => ret tt
  | auction_name :: rest =>
      DownloadData.process E a dates market_area auction_name >>
      each_auction E a dates market_area rest
  end.

Fixpoint each_value (E : Env) (a : Download.Args) (exsting_combinations : option DataFrame)
    (dates : datetime * datetime) (market_area : string) (values : list value)
    (total_error_count : nat) : M World nat :=
  match values with
  | [] => ret total_error_count
  | value :: rest =>
      let* r := Download.process E a exsting_combinations dates market_area value
                                 total_error_count in
      each_value E a exsting_combinations dates market_area rest (snd r)
  end.

(** The entries of a run recorded one after the other. *)
Fixpoint record_entries (tracking_file_filepath : string) (header_row : list string)
    (entries : list (list string)) : M World unit :=
  match entries with
  | [] => ret tt
  | tracking_data :: rest =>
      update_tracking_file tracking_file_filepath tracking_data header_row >>
      record_entries tracking_file_filepath header_row rest
  end.

(** A page request that gives nothing to work on: the browser raised, or
    the last-update text cannot be extracted or is shorter than the ten
    characters the drivers ask for. *)
Definition unusable_page (E : Env) (outcome : Res node) : bool :=
  match outcome with
  | Raise _ => true
  | Ok document =>
      match extract_last_update E document with
      | Raise _ => true
      | Ok text => (String.length text <? 10)%nat
      end
  end.

(** An environment whose browser always fails. *)
Definition offline_env : Env :=
  mkEnv (fun _ _ => Raise WebDriverException) (fun _ _ => Raise WebDriverException)
        (utc_now example_env) (disk_ok example_env) (read_csv example_env)
        (parse_date example_env) (date_of_number example_env)
        (extract_last_update example_env)
        (extract_volume_and_price_data example_env)
        (extract_volume_and_price_data_continuous example_env)
        (extract_baseload_peakload example_env)
        (json_content example_env) (decode_curves example_env).

(** A write of the ledger whose newest entry, the row after the header,
    ends in [Error]. *)
Definition records_error (e : event) : bool :=
  match e with
  | EWrite _ (FCsv (_ :: entry :: _)) => bool_decide (last entry = Some "Error")
  | _ => false
  end.

(** Everything but a write through the [csv] module. *)
Definition no_ledger_write (e : event) : bool :=
  match e with
  | EWrite _ (FCsv _) => false
  | _ => true
  end.

Definition errors_recorded (events : list event) : nat :=
  length (List.filter records_error events).

(** One row of the loop of [extract_baseload_peakload] can be read: its
    [span] is there when the header names a load, and holds a number when
    it names the base load. *)
Definition row_readable (float : string -> option Z) (row : node) : Prop :=
  (th_mentions "Baseload" row = true ->
   exists span z, find "span" None row = Some span /\ number_of float span = Some z)
  /\ (th_mentions "Peakload" row = true ->
      exists span, find "span" None row = Some span).

(** The events after [before] hold the must-add message of the
    combination [key], followed at once by a page request. *)
Definition attempted (key : list value) (before after : list event) : Prop :=
  exists work url rest,
    after = before ++ work ++ EPrintMustAdd key :: EFetch url :: rest.

(** A world whose ledger holds the two entries of [ledger_with_error]. *)
Definition world_with_error_ledger : World :=
  world_of (<["root/epex_dayahead_tracking.csv" :=
               FCsv [ Download.tracking_header;
                      [ "DE-LU"; "2024-05-01"; "2024-05-02"; "Auction"; "DayAhead";
                        "SDAC"; "2024-05-03T08:00:00+00:00"; "Error" ];
                      [ "FR"; "2024-05-01"; "2024-05-02"; "Auction"; "DayAhead";
                        "SDAC"; "2024-05-03T08:00:05+00:00"; "Success" ] ]]> ∅).

(** The container with a list that holds no item. *)
Definition page_with_empty_list : node :=
  document [ Tag "div" ["fixed-column"; "js-table-times"] [Tag "ul" [] []] ].



(* ================================================================== *)
(** * Properties *)
(* ================================================================== *)

Lemma keep_first_elem (l seen : list (list cell)) (r : list cell) :
  r ∈ keep_first seen l <-> r ∈ l /\ r ∉ seen.
Proof.
  revert seen. induction l as [|x t IH]; intros seen; simpl.
  - split; [intros H; inversion H | intros [H _]; inversion H].
  - case_bool_decide as Hx.
    + split.
      * intros Hin. apply IH in Hin as [Ht Hs]. split; [by apply list_elem_of_further | done].
      * intros [Hin Hs]. apply IH. split; [|done].
        apply elem_of_cons in Hin as [->|Hin]; done.
    + split.
      * intros Hin. apply elem_of_cons in Hin as [-> | Hin].
        -- split; [apply list_elem_of_here | done].
        -- apply IH in Hin as [Ht Hs]. split; [by apply list_elem_of_further |].
           intros Hin'. apply Hs. by apply list_elem_of_further.
      * intros [Hin Hs].
        apply elem_of_cons in Hin as [-> | Hin]; [apply list_elem_of_here |].
        destruct (decide (r = x)) as [->|Hne]; [apply list_elem_of_here |].
        apply list_elem_of_further, IH. split; [done |].
        intros Hin'. apply elem_of_cons in Hin' as [?|?]; done.
Qed.

Lemma keep_first_NoDup (l seen : list (list cell)) : NoDup (keep_first seen l).
Proof.
  revert seen. induction l as [|x t IH]; intros seen; simpl; [constructor |].
  case_bool_decide; [apply IH |]. constructor; [|apply IH].
  intros Hin. apply keep_first_elem in Hin as [_ Hn]. apply Hn, list_elem_of_here.
Qed.

Lemma row_eqb_Forall2 (r : list cell) (key : list value) :
  row_eqb r key = true <-> Forall2 (fun c k => c = Some k) r key.
Proof.
  revert key. induction r as [|c r IH]; intros [|k key]; simpl.
  - split; [constructor | done].
  - split; [done | intros H; inversion H].
  - split; [done | intros H; inversion H].
  - unfold cell_eqb. split.
    + intros H. apply andb_true_iff in H as [H1 H2].
      apply bool_decide_eq_true in H1. constructor; [done | by apply IH].
    + intros H. inversion H; subst. apply andb_true_iff. split.
      * by apply bool_decide_eq_true.
      * by apply IH.
Qed.

Lemma eq_all_any_true (df : DataFrame) (key : list value) :
  eq_all_any df key = Ok true <->
  exists r, r ∈ data df /\
    Forall2 (fun c k => c = Some k) (normalize (length (columns df)) r) key.
Proof.
  unfold eq_all_any. case_bool_decide as Hlen.
  - split.
    + intros [= H]. apply existsb_exists in H as (r & Hin & Hr).
      exists r. split; [by apply list_elem_of_In | by apply row_eqb_Forall2].
    + intros (r & Hin & Hr). f_equal. apply existsb_exists.
      exists r. split; [by apply list_elem_of_In | by apply row_eqb_Forall2].
  - split; [done |]. intros (r & _ & Hr). exfalso. apply Hlen.
    apply Forall2_length in Hr. unfold normalize in Hr.
    rewrite length_map, length_seq in Hr. lia.
Qed.

Lemma positions_length (keep : string -> bool) (cols : list string) (j : nat) :
  length (positions keep cols j) = length (List.filter keep cols).
Proof.
  revert j. induction cols as [|c cs IH]; intros j; simpl; [done |].
  destruct (keep c); simpl; by rewrite IH.
Qed.

Lemma normalize_id (r : list cell) : normalize (length r) r = r.
Proof.
  unfold normalize. apply list_eq. intros i.
  rewrite list_lookup_fmap.
  destruct (decide (i < length r)) as [Hlt|Hge].
  - rewrite lookup_seq_lt by done. simpl. unfold cell_of.
    destruct (lookup_lt_is_Some_2 r i Hlt) as [c Hc]. by rewrite Hc.
  - rewrite lookup_seq_ge by lia. simpl. symmetry. apply lookup_ge_None. lia.
Qed.

Lemma filter_ext_in_list (f g : string -> bool) (l : list string) :
  (forall c, In c l -> f c = g c) -> List.filter f l = List.filter g l.
Proof.
  induction l as [|c l IH]; intros H; simpl; [done |].
  rewrite (H c) by (by left). rewrite IH; [done |]. intros c' Hc'. apply H. by right.
Qed.

Lemma positions_ext_in (f g : string -> bool) (l : list string) (j : nat) :
  (forall c, In c l -> f c = g c) -> positions f l j = positions g l j.
Proof.
  revert j. induction l as [|c l IH]; intros j H; simpl; [done |].
  rewrite (H c) by (by left). rewrite IH; [done |]. intros c' Hc'. apply H. by right.
Qed.

Lemma in_list_true (c : string) (l : list string) : in_list c l = true <-> In c l.
Proof.
  unfold in_list. split.
  - intros H. apply existsb_exists in H as (x & Hin & Hx).
    apply String.eqb_eq in Hx. by subst.
  - intros H. apply existsb_exists. exists c. split; [done | apply String.eqb_refl].
Qed.

(** Dropping every column that is not a match column is the projection. *)
Lemma drop_others_is_project (df : DataFrame) (cols : list string) :
  drop_columns df (List.filter (fun c => negb (in_list c cols)) (columns df)) = project df cols.
Proof.
  unfold drop_columns, project, select_columns.
  assert (Hk : forall c, In c (columns df) ->
     negb (in_list c (List.filter (fun c => negb (in_list c cols)) (columns df)))
     = in_list c cols).
  { intros c Hc. destruct (in_list c cols) eqn:E.
    - apply negb_true_iff. apply not_true_is_false. intros H.
      apply in_list_true, filter_In in H as [_ H]. by rewrite E in H.
    - apply negb_false_iff. apply in_list_true, filter_In. by rewrite E. }
  f_equal.
  - by apply filter_ext_in_list.
  - apply map_ext. intros r. f_equal. by apply positions_ext_in.
Qed.

Lemma project_row_length (df : DataFrame) (cols : list string) (r : list cell) :
  r ∈ data (project df cols) -> length r = length (columns (project df cols)).
Proof.
  unfold project, select_columns. simpl. intros H.
  apply list_elem_of_fmap in H as (r0 & -> & _).
  by rewrite length_map, positions_length.
Qed.

Lemma check_archive_unfold (df : DataFrame) (key : list value) (cols : list string) :
  check_archive df key cols = eq_all_any (drop_duplicates (project df cols)) key.
Proof. unfold check_archive. by rewrite drop_others_is_project. Qed.

(** C2. [check_archive] (and [check_existing_combinations], run on the
    projected, duplicate-free table) returns true exactly when, after the
    archive is projected onto the match columns and duplicate rows are
    removed, some row equals the key in every projected column.  The rows of
    the example yield true for DE and false for BE.  The call returns a
    boolean whenever the key is as long as the projection is wide. *)
Theorem check_archive_exists_iff (archive_df : DataFrame) (key : list value)
    (columns_to_check : list string) :
  let unique := drop_duplicates (project archive_df columns_to_check) in
  (check_archive archive_df key columns_to_check = Ok true <->
     exists r, r ∈ data unique /\ Forall2 (fun c k => c = Some k) r key) /\
  NoDup (data unique) /\
  (forall r, r ∈ data unique <-> r ∈ data (project archive_df columns_to_check)) /\
  check_existing_combinations unique key
    = check_archive archive_df key columns_to_check /\
  (length key = length (columns unique) ->
     exists b, check_archive archive_df key columns_to_check = Ok b) /\
  check_archive example_archive [VStr "DE"; VDate d_2024_05_01] ["A"; "B"] = Ok true /\
  check_archive example_archive [VStr "BE"; VDate d_2024_05_01] ["A"; "B"] = Ok false.
Proof.
  intros unique.
  assert (Hmem : forall r, r ∈ data unique <-> r ∈ data (project archive_df columns_to_check)).
  { intros r. unfold unique, drop_duplicates. simpl. split.
    - intros H. by apply keep_first_elem in H as [H _].
    - intros H. apply keep_first_elem. split; [done |]. intros Hn. inversion Hn. }
  split; [|split; [|split; [|split; [|split; [|split]]]]].
  - rewrite check_archive_unfold. fold unique. split.
    + intros H. apply eq_all_any_true in H as (r & Hin & Hr). exists r. split; [done |].
      assert (Hl : length r = length (columns unique)).
      { apply Hmem in Hin. by apply project_row_length in Hin. }
      rewrite <- Hl, normalize_id in Hr. done.
    + intros (r & Hin & Hr). apply eq_all_any_true. exists r. split; [done |].
      assert (Hl : length r = length (columns unique)).
      { apply Hmem in Hin. by apply project_row_length in Hin. }
      by rewrite <- Hl, normalize_id.
  - apply keep_first_NoDup.
  - exact Hmem.
  - by rewrite check_archive_unfold.
  - intros Hlen. rewrite check_archive_unfold. fold unique. unfold eq_all_any.
    rewrite bool_decide_eq_true_2 by done. eauto.
  - reflexivity.
  - reflexivity.
Qed.

(** A key of the right length for the example archive. *)
Lemma check_archive_exists_iff_witness :
  exists b, check_archive example_archive [VStr "DE"; VDate d_2024_05_01] ["A"; "B"] = Ok b.
Proof.
  apply (check_archive_exists_iff example_archive [VStr "DE"; VDate d_2024_05_01] ["A"; "B"]).
  reflexivity.
Defined.

Lemma isna_all_axis0_lookup (df : DataFrame) (j : nat) :
  (j < length (columns df))%nat ->
  isna_all_axis0 df !! j = Some (forallb (fun r => isna (cell_of r j)) (data df)).
Proof.
  intros H. unfold isna_all_axis0. rewrite list_lookup_fmap.
  by rewrite lookup_seq_lt.
Qed.

Lemma column_all_missing (df : DataFrame) (j : nat) :
  forallb (fun r => isna (cell_of r j)) (data df) = true <->
  forall i, (i < length (data df))%nat -> cell_at df i j = None.
Proof.
  unfold cell_at. split.
  - intros H i Hi. destruct (lookup_lt_is_Some_2 _ _ Hi) as [r Hr]. rewrite Hr.
    rewrite forallb_forall in H.
    specialize (H r). destruct (cell_of r j); [|done].
    discriminate H. apply list_elem_of_In. by eapply list_elem_of_lookup_2.
  - intros H. apply forallb_forall. intros r Hr.
    apply list_elem_of_In, list_elem_of_lookup in Hr as [i Hi].
    specialize (H i (lookup_lt_Some _ _ _ Hi)). rewrite Hi in H. by rewrite H.
Qed.

Lemma all_nan_iff (df : DataFrame) :
  forallb id (isna_all_axis0 df) = true <->
  forall i j, (i < length (data df))%nat -> (j < length (columns df))%nat ->
    cell_at df i j = None.
Proof.
  split.
  - intros H i j Hi Hj. rewrite forallb_forall in H.
    pose proof (isna_all_axis0_lookup df j Hj) as Hl.
    apply list_elem_of_lookup_2, list_elem_of_In, H in Hl. unfold id in Hl.
    by apply column_all_missing.
  - intros H. apply forallb_forall. intros b Hb.
    apply list_elem_of_In, list_elem_of_lookup in Hb as [j Hj].
    assert (Hlt : (j < length (columns df))%nat).
    { apply lookup_lt_Some in Hj. unfold isna_all_axis0 in Hj.
      by rewrite length_map, length_seq in Hj. }
    rewrite isna_all_axis0_lookup in Hj by done. injection Hj as <-. unfold id.
    apply column_all_missing. intros i Hi. by apply H.
Qed.

Lemma some_nan_column_iff (df : DataFrame) :
  (0 <? length (map fst (List.filter (fun cv : string * bool => bool_decide (snd cv = true))
                   (zip (columns df) (isna_all_axis0 df)))))%nat = true <->
  exists j, (j < length (columns df))%nat /\
    forall i, (i < length (data df))%nat -> cell_at df i j = None.
Proof.
  rewrite length_map. split.
  - intros H. apply Nat.ltb_lt in H.
    destruct (List.filter _ _) as [|[c b] l] eqn:E; [simpl in H; lia |].
    assert (Hin : In (c, b) (List.filter (fun cv : string * bool => bool_decide (snd cv = true))
                   (zip (columns df) (isna_all_axis0 df)))) by (rewrite E; by left).
    apply filter_In in Hin as [Hin Hb]. simpl in Hb. apply bool_decide_eq_true in Hb. subst b.
    apply list_elem_of_In, list_elem_of_lookup in Hin as [j Hj].
    apply lookup_zip_with_Some in Hj as (c' & b' & [= <- <-] & Hc & Hb).
    exists j. split; [by eapply lookup_lt_Some |].
    rewrite isna_all_axis0_lookup in Hb by (by eapply lookup_lt_Some).
    injection Hb as Hb. by apply column_all_missing.
  - intros (j & Hj & Hcol). apply Nat.ltb_lt.
    destruct (lookup_lt_is_Some_2 _ _ Hj) as [c Hc].
    assert (Hin : In (c, true) (List.filter (fun cv : string * bool => bool_decide (snd cv = true))
                   (zip (columns df) (isna_all_axis0 df)))).
    { apply filter_In. split; [|done]. apply list_elem_of_In.
      apply list_elem_of_lookup. exists j. apply lookup_zip_with_Some.
      exists c, true. split; [done |]. split; [done |].
      rewrite isna_all_axis0_lookup by done. f_equal. by apply column_all_missing. }
    destruct (List.filter _ _); [destruct Hin | simpl; lia].
Qed.

(** C5. [plausibility_checks] returns false exactly when the table has no
    rows, or every cell is missing, or some column is missing in every row;
    [[1,None],[2,None]] under columns A, B is rejected, [[1,2],[3,4]] is
    accepted, and a table without rows is rejected. *)
Theorem plausibility_checks_false_iff (df : DataFrame) :
  (plausibility_checks df = false <->
     data df = [] \/
     (forall i j, (i < length (data df))%nat -> (j < length (columns df))%nat ->
        cell_at df i j = None) \/
     (exists j, (j < length (columns df))%nat /\
        forall i, (i < length (data df))%nat -> cell_at df i j = None)) /\
  plausibility_checks example_b_missing = false /\
  plausibility_checks example_full = true /\
  plausibility_checks (mkDF ["A"; "B"] []) = false /\
  plausibility_checks empty_frame = false.
Proof.
  split; [|repeat split; reflexivity].
  unfold plausibility_checks.
  destruct (forallb id (isna_all_axis0 df)) eqn:Hall.
  - split; [|done]. intros _. right. left. by apply all_nan_iff.
  - destruct (0 <? _)%nat eqn:Hsome.
    + split; [|done]. intros _. right. right. by apply some_nan_column_iff.
    + split; [done |]. intros [Hnil | [Hevery | Hcol]]; exfalso.
      * assert (forallb id (isna_all_axis0 df) = true); [|congruence].
        apply all_nan_iff. intros i j Hi. rewrite Hnil in Hi. simpl in Hi. lia.
      * assert (forallb id (isna_all_axis0 df) = true); [|congruence].
        by apply all_nan_iff.
      * apply some_nan_column_iff in Hcol. congruence.
Qed.

Lemma plausibility_checks_false_iff_witness :
  plausibility_checks example_b_missing = false.
Proof.
  apply (proj1 (plausibility_checks_false_iff example_b_missing)).
  right. right. exists 1%nat. split; [simpl; lia |].
  intros i Hi. destruct i as [|[|i]]; [reflexivity | reflexivity | simpl in Hi; lia].
Defined.

(** ** The tracking ledger *)

(** C10. When the tracking row and the header row differ in length,
    [update_tracking_file] raises [AssertionError] and has touched no
    file: nothing was tested, read or written, whether or not the file
    exists. *)
Theorem update_tracking_file_length_mismatch (path : string)
    (tracking_data header_row : list string) (w : World) :
  length tracking_data <> length header_row ->
  update_tracking_file path tracking_data header_row w = (Raise AssertionError, w).
Proof.
  intros H. unfold update_tracking_file, bind, assert_.
  apply Nat.eqb_neq in H. rewrite H. reflexivity.
Qed.

Lemma update_tracking_file_length_mismatch_witness :
  update_tracking_file "tracking.csv" ["DE-LU"; "2025-01-13"]
      ["MarketArea"; "DeliveryDate"; "SuccessIndicator"] example_world
  = (Raise AssertionError, example_world).
Proof.
  apply update_tracking_file_length_mismatch. simpl. lia.
Defined.

(** What [csv_write] does by the state of the world: it replaces a file
    that is there, creates one where that can be done, and otherwise raises
    before anything is written. *)
Lemma csv_write_existing (path : string) (rows : list (list string)) (w : World) (f : file) :
  fs w !! path = Some f ->
  csv_write path rows w
  = (Ok tt, mkWorld (<[path := FCsv rows]> (fs w)) (dirs w) (clock w)
                    (trace w ++ [EWrite path (FCsv rows)])).
Proof.
  intros Hf. unfold csv_write, bind, open_for_writing. rewrite Hf.
  reflexivity.
Qed.

Lemma csv_write_new (path : string) (rows : list (list string)) (w : World) :
  fs w !! path = None -> can_create w path = true ->
  csv_write path rows w
  = (Ok tt, mkWorld (<[path := FCsv rows]> (fs w)) (dirs w) (clock w)
                    (trace w ++ [EWrite path (FCsv rows)])).
Proof.
  intros Hf Hc. unfold csv_write, bind, open_for_writing. rewrite Hf, Hc.
  reflexivity.
Qed.

Lemma csv_write_fails (path : string) (rows : list (list string)) (w : World) :
  fs w !! path = None -> can_create w path = false ->
  csv_write path rows w = (Raise OSError, w).
Proof.
  intros Hf Hc. unfold csv_write, bind, open_for_writing. by rewrite Hf, Hc.
Qed.

(** Whether a file can be created depends on the files and directories
    only. *)
Lemma can_create_observed (w : World) (clock' : nat) (trace' : list event) (path : string) :
  can_create (mkWorld (fs w) (dirs w) clock' trace') path = can_create w path.
Proof. reflexivity. Qed.

(** A call on a ledger that is there. *)
Lemma update_existing_file (path : string) (tracking_data header_row header : list string)
    (data_rows : list (list string)) (w : World) :
  length tracking_data = length header_row ->
  fs w !! path = Some (FCsv (header :: data_rows)) ->
  update_tracking_file path tracking_data header_row w
  = (Ok tt,
     mkWorld (<[path := FCsv (header :: tracking_data :: data_rows)]> (fs w))
             (dirs w) (clock w)
             (trace w ++ [EStat path; ERead path;
                          EWrite path (FCsv (header :: tracking_data :: data_rows))])).
Proof.
  intros Hl Hf.
  unfold update_tracking_file, bind, assert_.
  apply Nat.eqb_eq in Hl. rewrite Hl. simpl.
  unfold os_path_isfile, bind, emit, get_file, ret. simpl. rewrite Hf.
  unfold csv_read, bind, emit, get_file, ret. simpl. rewrite Hf. simpl.
  rewrite (csv_write_existing _ _ _ (FCsv (header :: data_rows))) by exact Hf.
  simpl. by rewrite <- !app_assoc.
Qed.

(** A call where there is no ledger. *)
Lemma update_missing_file (path : string) (tracking_data header_row : list string)
    (w : World) :
  length tracking_data = length header_row ->
  fs w !! path = None ->
  update_tracking_file path tracking_data header_row w
  = if can_create w path
    then (Ok tt,
          mkWorld (<[path := FCsv [header_row; tracking_data]]> (fs w))
                  (dirs w) (clock w)
                  (trace w ++ [EStat path;
                               EWrite path (FCsv [header_row; tracking_data])]))
    else (Raise OSError,
          mkWorld (fs w) (dirs w) (clock w) (trace w ++ [EStat path])).
Proof.
  intros Hl Hf.
  unfold update_tracking_file, bind, assert_.
  apply Nat.eqb_eq in Hl. rewrite Hl. simpl.
  unfold os_path_isfile, bind, emit, get_file, ret. simpl. rewrite Hf.
  unfold csv_append, bind, get_file. simpl. rewrite Hf.
  destruct (can_create w path) eqn:Hc.
  - rewrite csv_write_new by done. simpl. by rewrite <- !app_assoc.
  - by rewrite csv_write_fails.
Qed.

(** C4, as the code has it.  For a call whose tracking row and header row
    have the same length: when the file exists and has a header line, the
    file afterwards is that header, the new entry, then the old data rows
    in their order, whatever the header argument holds; when there is no
    file and one can be created at the path, the file afterwards is the
    header argument followed by the entry; when there is no file and none
    can be created, because the directory of the path is missing or the
    path names a directory, the call raises [OSError] and no file is
    written. *)
Theorem update_tracking_file_prepends (path : string)
    (tracking_data header_row : list string) (w : World) :
  length tracking_data = length header_row ->
  (forall header data_rows,
     fs w !! path = Some (FCsv (header :: data_rows)) ->
     update_tracking_file path tracking_data header_row w
     = (Ok tt,
        mkWorld (<[path := FCsv (header :: tracking_data :: data_rows)]> (fs w))
                (dirs w) (clock w)
                (trace w ++ [EStat path; ERead path;
                             EWrite path (FCsv (header :: tracking_data :: data_rows))]))) /\
  (forall header data_rows other_header,
     fs w !! path = Some (FCsv (header :: data_rows)) ->
     length other_header = length tracking_data ->
     update_tracking_file path tracking_data other_header w
     = update_tracking_file path tracking_data header_row w) /\
  (fs w !! path = None -> can_create w path = true ->
     update_tracking_file path tracking_data header_row w
     = (Ok tt,
        mkWorld (<[path := FCsv [header_row; tracking_data]]> (fs w))
                (dirs w) (clock w)
                (trace w ++ [EStat path;
                             EWrite path (FCsv [header_row; tracking_data])]))) /\
  (fs w !! path = None -> can_create w path = false ->
     update_tracking_file path tracking_data header_row w
     = (Raise OSError,
        mkWorld (fs w) (dirs w) (clock w) (trace w ++ [EStat path]))).
Proof.
  intros Hlen. split; [|split; [|split]].
  - intros header data_rows Hf. by apply update_existing_file.
  - intros header data_rows other Hf Hother.
    rewrite (update_existing_file path tracking_data other header data_rows) by done.
    by rewrite (update_existing_file path tracking_data header_row header data_rows).
  - intros Hf Hc. rewrite update_missing_file by done. by rewrite Hc.
  - intros Hf Hc. rewrite update_missing_file by done. by rewrite Hc.
Qed.

(** An entry for a ledger that is there, one for a ledger that is created
    in the working directory, and one for a ledger in a directory that is
    not there. *)
Lemma update_tracking_file_prepends_witness :
  update_tracking_file "tracking.csv" ["BE"; "2025-01-14"; "Success"]
      ["a"; "b"; "c"] example_world
  = (Ok tt,
     mkWorld (<["tracking.csv" :=
                 FCsv [ ["MarketArea"; "DeliveryDate"; "SuccessIndicator"];
                        ["BE"; "2025-01-14"; "Success"];
                        ["DE-LU"; "2025-01-13"; "Success"];
                        ["FR"; "2025-01-12"; "Error"] ]]> (fs example_world))
             ∅ 0
             [EStat "tracking.csv"; ERead "tracking.csv";
              EWrite "tracking.csv"
                (FCsv [ ["MarketArea"; "DeliveryDate"; "SuccessIndicator"];
                        ["BE"; "2025-01-14"; "Success"];
                        ["DE-LU"; "2025-01-13"; "Success"];
                        ["FR"; "2025-01-12"; "Error"] ])])
  /\ update_tracking_file "tracking.csv" ["BE"; "2025-01-14"; "Success"]
        ["MarketArea"; "DeliveryDate"; "SuccessIndicator"] (world_of ∅)
     = (Ok tt,
        mkWorld (<["tracking.csv" :=
                    FCsv [ ["MarketArea"; "DeliveryDate"; "SuccessIndicator"];
                           ["BE"; "2025-01-14"; "Success"] ]]> ∅)
                ∅ 0
                [EStat "tracking.csv";
                 EWrite "tracking.csv"
                   (FCsv [ ["MarketArea"; "DeliveryDate"; "SuccessIndicator"];
                           ["BE"; "2025-01-14"; "Success"] ])])
  /\ update_tracking_file "nodir/tracking.csv" ["BE"; "2025-01-14"; "Success"]
        ["MarketArea"; "DeliveryDate"; "SuccessIndicator"] (world_of ∅)
     = (Raise OSError, mkWorld ∅ ∅ 0 [EStat "nodir/tracking.csv"]).
Proof.
  split; [|split].
  - refine (proj1 (update_tracking_file_prepends "tracking.csv"
              ["BE"; "2025-01-14"; "Success"] ["a"; "b"; "c"] example_world _) _ _ _).
    + reflexivity.
    + reflexivity.
  - refine (proj1 (proj2 (proj2 (update_tracking_file_prepends "tracking.csv"
              ["BE"; "2025-01-14"; "Success"]
              ["MarketArea"; "DeliveryDate"; "SuccessIndicator"] (world_of ∅) _))) _ _).
    + reflexivity.
    + reflexivity.
    + vm_compute. reflexivity.
  - refine (proj2 (proj2 (proj2 (update_tracking_file_prepends "nodir/tracking.csv"
              ["BE"; "2025-01-14"; "Success"]
              ["MarketArea"; "DeliveryDate"; "SuccessIndicator"] (world_of ∅) _))) _ _).
    + reflexivity.
    + reflexivity.
    + vm_compute. reflexivity.
Defined.

(** C4 as stated fails for some calls: with an existing ledger and a
    header argument of another length than the entry, the call raises and
    the entry is not inserted; the header argument is not without effect. *)
Lemma update_tracking_file_not_for_every_call :
  ~ (forall (path : string) (tracking_data header_row : list string) (w : World)
            (header : list string) (data_rows : list (list string)),
       fs w !! path = Some (FCsv (header :: data_rows)) ->
       fs (snd (update_tracking_file path tracking_data header_row w)) !! path
       = Some (FCsv (header :: tracking_data :: data_rows))).
Proof.
  intros H.
  specialize (H "tracking.csv" ["BE"; "2025-01-14"; "Success"]
                ["MarketArea"; "DeliveryDate"] example_world
                ["MarketArea"; "DeliveryDate"; "SuccessIndicator"]
                [ ["DE-LU"; "2025-01-13"; "Success"]; ["FR"; "2025-01-12"; "Error"] ]
                eq_refl).
  vm_compute in H. discriminate H.
Qed.

(** ** Hour extraction *)

(** The labels of a list of items are returned exactly when every item has
    its [a]; nothing but [AttributeError] is raised. *)
Lemma res_mapM_a_text (items : list node) :
  ((exists hours, res_mapM a_text items = Ok hours)
   <-> forall item, item ∈ items -> find "a" None item <> None)
  /\ (forall e, res_mapM a_text items = Raise e -> e = AttributeError).
Proof.
  induction items as [|item rest [IH IHe]]; simpl.
  { split; [|discriminate]. split; [intros _ item H; inversion H | eauto]. }
  unfold a_text at 1 3. unfold on.
  destruct (find "a" None item) as [anchor|] eqn:Ha; simpl.
  - destruct (res_mapM a_text rest) as [hours|e] eqn:Hrest; simpl.
    + split; [|discriminate]. split; [|eauto]. intros _ x Hx.
      apply elem_of_cons in Hx as [-> | Hx]; [by rewrite Ha |].
      apply (proj1 IH); eauto.
    + split; [|intros e' [= <-]; by apply IHe].
      split; [by intros [? [=]] |]. intros Hall.
      destruct (proj2 IH) as [? [=]]. intros x Hx. apply Hall.
      by apply list_elem_of_further.
  - split; [|by intros e [= <-]]. split; [by intros [? [=]] |].
    intros Hall. exfalso. apply (Hall item); [apply list_elem_of_here | done].
Qed.

(** C7, as the code has it.  Without the hour-list container
    [extract_hours] raises and [extract_hours_continous] returns the empty
    list.  With the container but without hour blocks below it,
    [extract_hours_continous] returns the empty list.  With the container,
    [extract_hours] raises when there is no list below it; when there is
    one, it returns exactly when every item of the list has its [a], so
    that a list without items gives the empty list and no error.  Whatever
    [extract_hours] raises is an [AttributeError]. *)
Theorem extract_hours_missing_structure (soup : node) :
  (find "div" (Some hours_container) soup = None ->
     extract_hours soup = Raise AttributeError /\
     extract_hours_continous soup = Ok []) /\
  (forall hours_div,
     find "div" (Some hours_container) soup = Some hours_div ->
     find_all "li" (Some "child") hours_div = [] ->
     extract_hours_continous soup = Ok []) /\
  (forall hours_div,
     find "div" (Some hours_container) soup = Some hours_div ->
     find "ul" None hours_div = None ->
     extract_hours soup = Raise AttributeError) /\
  (forall hours_div ul,
     find "div" (Some hours_container) soup = Some hours_div ->
     find "ul" None hours_div = Some ul ->
     ((exists hours, extract_hours soup = Ok hours)
      <-> forall item, item ∈ find_all "li" None ul -> find "a" None item <> None) /\
     (find_all "li" None ul = [] -> extract_hours soup = Ok [])) /\
  (forall e, extract_hours soup = Raise e -> e = AttributeError).
Proof.
  split; [|split; [|split; [|split]]].
  - intros H. split.
    + unfold extract_hours. by rewrite H.
    + unfold extract_hours_continous. by rewrite H.
  - intros hours_div Hdiv Hnone. unfold extract_hours_continous. rewrite Hdiv.
    unfold find_all in Hnone. apply fmap_nil_inv in Hnone. by rewrite Hnone.
  - intros hours_div Hdiv Hul. unfold extract_hours. rewrite Hdiv. simpl.
    by rewrite Hul.
  - intros hours_div ul Hdiv Hul.
    assert (Hrun : extract_hours soup = res_mapM a_text (find_all "li" None ul)).
    { unfold extract_hours. rewrite Hdiv. simpl. by rewrite Hul. }
    rewrite Hrun. split; [apply res_mapM_a_text |].
    by intros ->.
  - intros e. unfold extract_hours.
    destruct (find "div" (Some hours_container) soup) as [hours_div|]; simpl;
      [|by intros [= <-]].
    destruct (find "ul" None hours_div) as [ul|]; simpl; [|by intros [= <-]].
    apply res_mapM_a_text.
Qed.

(** A page without the container, one whose container is empty, and one
    whose container holds a list without items. *)
Lemma extract_hours_missing_structure_witness :
  (extract_hours page_without_container = Raise AttributeError /\
   extract_hours_continous page_without_container = Ok []) /\
  extract_hours_continous page_with_empty_container = Ok [] /\
  extract_hours page_with_empty_container = Raise AttributeError /\
  extract_hours page_with_empty_list = Ok [].
Proof.
  split; [|split; [|split]].
  - apply (extract_hours_missing_structure page_without_container). reflexivity.
  - apply (proj1 (proj2 (extract_hours_missing_structure page_with_empty_container))
             (Tag "div" ["fixed-column"; "js-table-times"] [])); reflexivity.
  - apply (proj1 (proj2 (proj2 (extract_hours_missing_structure
                                  page_with_empty_container)))
             (Tag "div" ["fixed-column"; "js-table-times"] [])); reflexivity.
  - apply (proj1 (proj2 (proj2 (proj2 (extract_hours_missing_structure
                                         page_with_empty_list))))
             (Tag "div" ["fixed-column"; "js-table-times"] [Tag "ul" [] []])
             (Tag "ul" [] [])); reflexivity.
Defined.

(** C7 as stated fails: with the container but without the nested hour
    blocks, [extract_hours] need not raise.  For a container whose list
    holds no item both variants return the empty list. *)
Lemma extract_hours_returns_without_blocks :
  ~ (forall (soup hours_div : node),
       find "div" (Some hours_container) soup = Some hours_div ->
       find_all "li" (Some "child") hours_div = [] ->
       exists e, extract_hours soup = Raise e).
Proof.
  intros H.
  destruct (H page_with_empty_list
              (Tag "div" ["fixed-column"; "js-table-times"] [Tag "ul" [] []])
              eq_refl eq_refl) as [e He].
  discriminate He.
Qed.

(** Where the two variants part when the container is absent. *)
Lemma extract_hours_continous_no_container (soup : node) :
  find "div" (Some hours_container) soup = None ->
  extract_hours_continous soup = Ok [].
Proof. intros H. unfold extract_hours_continous. by rewrite H. Qed.

Lemma walk_subs (sep : string) (subs : list (granularity * string)) (rest : list node) :
  List.filter (fun p => tag_matches "li" (Some "child") (fst p))
              (walk (spaced_subs sep subs ++ rest))
  = List.filter (fun p => tag_matches "li" (Some "child") (fst p)) (walk rest).
Proof.
  induction subs as [|[g s] subs IH]; [done |].
  change (walk (spaced_subs sep ((g, s) :: subs) ++ rest))
    with ((sub_li (g, s), NavigableString sep :: spaced_subs sep subs ++ rest)
            :: descendants (sub_li (g, s))
               ++ (NavigableString sep, spaced_subs sep subs ++ rest)
                  :: walk (spaced_subs sep subs ++ rest)).
  destruct g; simpl; exact IH.
Qed.

Lemma walk_blocks (sep : string) (blocks : list hour_block) :
  List.filter (fun p => tag_matches "li" (Some "child") (fst p))
              (walk (flat_map (block_items sep) blocks))
  = block_pairs sep blocks.
Proof.
  induction blocks as [|b bs IH]; [done |].
  change (walk (flat_map (block_items sep) (b :: bs)))
    with ((li ["child"] (hb_label b),
           NavigableString sep :: spaced_subs sep (hb_subs b)
             ++ flat_map (block_items sep) bs)
            :: descendants (li ["child"] (hb_label b))
               ++ (NavigableString sep,
                   spaced_subs sep (hb_subs b) ++ flat_map (block_items sep) bs)
                  :: walk (spaced_subs sep (hb_subs b) ++ flat_map (block_items sep) bs)).
  simpl. f_equal. rewrite walk_subs. exact IH.
Qed.

Lemma append_empty_r (s : string) : s +:+ "" = s.
Proof.
  induction s as [|c s IH]; [done |].
  change (String c s +:+ "") with (String c (s +:+ "")). by rewrite IH.
Qed.

Lemma a_text_li (classes : list string) (label : string) :
  a_text (li classes label) = Ok (strip label).
Proof.
  unfold a_text, li, find, find_all, find_all_ctx. simpl.
  by rewrite append_empty_r.
Qed.

Lemma following_intervals_subs (sep : string) (subs : list (granularity * string))
    (blocks : list hour_block) :
  following_intervals (spaced_subs sep subs ++ flat_map (block_items sep) blocks)
  = Ok (map (fun sub => strip (snd sub)) subs).
Proof.
  induction subs as [|[g s] subs IH].
  - simpl. destruct blocks; reflexivity.
  - change (spaced_subs sep ((g, s) :: subs) ++ flat_map (block_items sep) blocks)
      with (sub_li (g, s) :: NavigableString sep
              :: (spaced_subs sep subs ++ flat_map (block_items sep) blocks)).
    destruct g.
    + change (sub_li (HalfHour, s))
        with (Tag "li" ["sub-child"; "lvl-1"] [Tag "a" [] [NavigableString s]]).
      cbn [following_intervals].
      pose proof (a_text_li ["sub-child"; "lvl-1"] s) as Ha. unfold li in Ha.
      rewrite Ha, IH. reflexivity.
    + change (sub_li (Quarter, s))
        with (Tag "li" ["sub-child"; "lvl-2"] [Tag "a" [] [NavigableString s]]).
      cbn [following_intervals].
      pose proof (a_text_li ["sub-child"; "lvl-2"] s) as Ha. unfold li in Ha.
      rewrite Ha, IH. reflexivity.
Qed.

Lemma block_pairs_labels (sep : string) (blocks : list hour_block) :
  res_mapM (fun block : node * list node =>
              res_bind (a_text (fst block)) (fun hour_range =>
              res_bind (following_intervals (snd block)) (fun rest =>
              Ok (hour_range :: rest))))
           (block_pairs sep blocks)
  = Ok (map block_labels blocks).
Proof.
  induction blocks as [|b bs IH]; [reflexivity |].
  cbn [block_pairs res_mapM fst snd following_intervals].
  rewrite a_text_li, following_intervals_subs, IH. reflexivity.
Qed.

Lemma find_all_ctx_container (sep : string) (blocks : list hour_block) :
  find_all_ctx "li" (Some "child") (container sep blocks) = block_pairs sep blocks.
Proof.
  unfold find_all_ctx, container.
  change (descendants (Tag "div" ["fixed-column"; "js-table-times"]
                         [ NavigableString sep;
                           Tag "ul" [] (NavigableString sep
                                          :: flat_map (block_items sep) blocks);
                           NavigableString sep ]))
    with ((NavigableString sep,
           [Tag "ul" [] (NavigableString sep :: flat_map (block_items sep) blocks);
            NavigableString sep])
            :: (Tag "ul" [] (NavigableString sep :: flat_map (block_items sep) blocks),
                [NavigableString sep])
            :: (NavigableString sep, flat_map (block_items sep) blocks)
            :: (walk (flat_map (block_items sep) blocks)
                  ++ [(NavigableString sep, [])])).
  match goal with
  | |- List.filter ?P (_ :: _ :: _ :: ?l) = _ =>
      change (List.filter P l = block_pairs sep blocks)
  end.
  rewrite List.filter_app, walk_blocks. simpl. apply app_nil_r.
Qed.

(** C8. When the hour-list container holds hour blocks, each followed by
    its sub-interval blocks, [extract_hours_continous] returns, block after
    block in document order, the label of the hour block and then the
    labels of its half-hour and quarter-hour blocks in document order,
    whatever text separates the tags; the two quarter-hour blocks of the
    example give the ten labels listed. *)
Theorem extract_hours_continous_interleaves (soup : node) (sep : string)
    (blocks : list hour_block) :
  find "div" (Some hours_container) soup = Some (container sep blocks) ->
  extract_hours_continous soup = Ok (flat_map block_labels blocks).
Proof.
  intros Hdiv. unfold extract_hours_continous. rewrite Hdiv.
  rewrite find_all_ctx_container, block_pairs_labels. unfold res_map. simpl. f_equal.
  clear Hdiv. induction blocks as [|b bs IH]; [done |]. simpl. by rewrite IH.
Qed.

Lemma extract_hours_continous_interleaves_witness :
  extract_hours_continous example_page
  = Ok [ "00 - 01"; "00:00 - 00:15"; "00:15 - 00:30"; "00:30 - 00:45"; "00:45 - 01:00";
         "01 - 02"; "01:00 - 01:15"; "01:15 - 01:30"; "01:30 - 01:45"; "01:45 - 02:00" ].
Proof.
  apply (extract_hours_continous_interleaves example_page " " quarter_hours_00_02).
  reflexivity.
Defined.

(** ** Row assembly *)

Lemma assemble_rows_enough_hours (metadata : list cell) (hours : list string)
    (numeric : list (list cell)) (index : nat) :
  (index + length numeric <= length hours)%nat ->
  assemble_rows metadata hours numeric index
  = Ok (zip_with (assembled metadata) (drop index hours) numeric).
Proof.
  revert index. induction numeric as [|row rest IH]; intros index Hlen; simpl in *.
  - by destruct (drop index hours).
  - destruct (lookup_lt_is_Some_2 hours index ltac:(lia)) as [hour Hhour].
    rewrite Hhour, IH by lia. simpl.
    by rewrite (drop_S _ _ _ Hhour).
Qed.








(** ** Traces of monadic code *)

Lemma extends_refl (q : event -> bool) (w : World) : extends q w w.
Proof. exists []. by rewrite app_nil_r. Qed.

Lemma replay_app (evs1 evs2 : list event) (files : gmap string file) :
  replay (evs1 ++ evs2) files = replay evs2 (replay evs1 files).
Proof. unfold replay. by rewrite foldl_app. Qed.

Lemma extends_trans (q : event -> bool) (w1 w2 w3 : World) :
  extends q w1 w2 -> extends q w2 w3 -> extends q w1 w3.
Proof.
  intros (e1 & Ht1 & Hq1 & Hf1) (e2 & Ht2 & Hq2 & Hf2). exists (e1 ++ e2).
  split; [|split].
  - by rewrite Ht2, Ht1, app_assoc.
  - by rewrite forallb_app, Hq1, Hq2.
  - by rewrite Hf2, Hf1, replay_app.
Qed.

Lemma extends_weaken (q q' : event -> bool) (w w' : World) :
  (forall e, q e = true -> q' e = true) -> extends q w w' -> extends q' w w'.
Proof.
  intros Hqq (evs & Ht & Hq & Hf). exists evs. split; [done | split; [|done]].
  rewrite forallb_forall in *. intros e He. apply Hqq, Hq, He.
Qed.

Lemma emits_weaken {S A} `{HasWorld S} (q q' : event -> bool) (m : M S A) :
  (forall e, q e = true -> q' e = true) -> emits q m -> emits q' m.
Proof. intros Hqq Hm s. eapply extends_weaken; [exact Hqq | apply Hm]. Qed.

Lemma emits_ret {S A} `{HasWorld S} (q : event -> bool) (a : A) : emits q (ret a).
Proof. intros s. apply extends_refl. Qed.

Lemma emits_raise {S A} `{HasWorld S} (q : event -> bool) (e : exn) :
  emits q (raise e : M S A).
Proof. intros s. apply extends_refl. Qed.

Lemma emits_lift_res {S A} `{HasWorld S} (q : event -> bool) (r : Res A) :
  emits q (lift_res r : M S A).
Proof. intros s. apply extends_refl. Qed.

Lemma emits_bind {S A B} `{HasWorld S} (q : event -> bool) (m : M S A) (k : A -> M S B) :
  emits q m -> (forall a, emits q (k a)) -> emits q (bind m k).
Proof.
  intros Hm Hk s. unfold bind. specialize (Hm s).
  destruct (m s) as [[a|e] s1]; simpl in *; [|done].
  eapply extends_trans; [exact Hm | apply Hk].
Qed.

Lemma emits_try_except {S A} `{HasWorld S} (q : event -> bool) (m : M S A)
    (handler : exn -> M S A) :
  emits q m -> (forall e, emits q (handler e)) -> emits q (try_except m handler).
Proof.
  intros Hm Hh s. unfold try_except. specialize (Hm s).
  destruct (m s) as [[a|e] s1]; simpl in *; [done |].
  eapply extends_trans; [exact Hm | apply Hh].
Qed.

Lemma emits_assert {S} `{HasWorld S} (q : event -> bool) (b : bool) :
  emits q (assert_ b : M S unit).
Proof. destruct b; [apply emits_ret | apply emits_raise]. Qed.

Lemma emits_subscript {S A} `{HasWorld S} (q : event -> bool) (o : option A) :
  emits q (subscript o : M S A).
Proof. destruct o; [apply emits_ret | apply emits_raise]. Qed.

Lemma emits_item0 {S A} `{HasWorld S} (q : event -> bool) (l : list A) :
  emits q (item0 l : M S A).
Proof. destruct l; [apply emits_raise | apply emits_ret]. Qed.

Lemma emits_item_last {S A} `{HasWorld S} (q : event -> bool) (l : list A) :
  emits q (item_last l : M S A).
Proof. unfold item_last. destruct (last l); [apply emits_ret | apply emits_raise]. Qed.

Lemma emits_first_row {S} `{HasWorld S} (q : event -> bool) (rows : list (list string)) :
  emits q (first_row rows : M S (list string)).
Proof. destruct rows; [apply emits_raise | apply emits_ret]. Qed.

Lemma emits_emit (q : event -> bool) (e : event) :
  q e = true -> is_write e = false -> emits q (emit e).
Proof.
  intros Hq Hw w. exists [e]. unfold world, world_has_world. simpl. rewrite Hq.
  split; [done | split; [done |]]. by destruct e.
Qed.

Lemma emits_get_file (q : event -> bool) (path : string) : emits q (get_file path).
Proof. intros w. apply extends_refl. Qed.

Lemma emits_tick (q : event -> bool) : emits q tick.
Proof.
  intros w. exists []. unfold world, world_has_world. simpl. by rewrite app_nil_r.
Qed.

Create HintDb traces.

#[global] Hint Resolve emits_ret emits_raise emits_lift_res emits_assert emits_subscript
  emits_item0 emits_item_last emits_first_row emits_get_file emits_tick : traces.

(** Breaks a goal [emits q m] along the structure of [m]. *)
Ltac trace_step :=
  match goal with
  | |- emits _ (bind _ _) => apply emits_bind; [|intros ?]
  | |- emits _ (try_except _ _) => apply emits_try_except; [|intros ?]
  | |- emits _ (emit _) => apply emits_emit; reflexivity
  | |- emits _ (if ?b then _ else _) => destruct b
  | |- emits _ (match ?x with _ => _ end) => destruct x
  | |- emits _ (let '(_, _) := ?x in _) => destruct x
  | |- emits _ _ => solve [eauto with traces]
  end.

Ltac traces := repeat trace_step.

Lemma emits_os_path_isfile (q : event -> bool) (path : string) :
  q (EStat path) = true -> emits q (os_path_isfile path).
Proof.
  intros Hq. unfold os_path_isfile. apply emits_bind; [by apply emits_emit |].
  intros _. traces.
Qed.

Lemma emits_os_path_exists (q : event -> bool) (path : string) :
  q (EStat path) = true -> emits q (os_path_exists path).
Proof.
  intros Hq. unfold os_path_exists. apply emits_bind; [by apply emits_emit |].
  intros _ w. apply extends_refl.
Qed.

Lemma emits_os_makedirs (q : event -> bool) (path : string) :
  q (EMakedirs path) = true -> emits q (os_makedirs path).
Proof.
  intros Hq. unfold os_makedirs. apply emits_bind; [by apply emits_emit |].
  intros _ w. destruct (fs w !! path); simpl; [apply extends_refl |].
  destruct (_ || _); simpl; [apply extends_refl |].
  exists []. unfold world, world_has_world. simpl. by rewrite app_nil_r.
Qed.

Lemma emits_csv_read (q : event -> bool) (path : string) :
  q (ERead path) = true -> emits q (csv_read path).
Proof.
  intros Hq. unfold csv_read. apply emits_bind; [by apply emits_emit |].
  intros _. traces.
Qed.

Lemma emits_write (q : event -> bool) (path : string) (f : file) :
  q (EWrite path f) = true -> emits q (emit (EWrite path f) >> set_file path f).
Proof.
  intros Hq w. exists [EWrite path f]. unfold world, world_has_world. simpl.
  by rewrite Hq.
Qed.

Lemma emits_open_for_writing (q : event -> bool) (path : string) :
  emits q (open_for_writing path).
Proof.
  intros w. unfold open_for_writing. destruct (fs w !! path); [apply extends_refl |].
  destruct (can_create w path); apply extends_refl.
Qed.

Lemma emits_csv_write (q : event -> bool) (path : string) (rows : list (list string)) :
  q (EWrite path (FCsv rows)) = true -> emits q (csv_write path rows).
Proof.
  intros Hq. unfold csv_write. apply emits_bind; [apply emits_open_for_writing |].
  intros _. by apply emits_write.
Qed.

Lemma emits_csv_append (q : event -> bool) (path : string) (rows : list (list string)) :
  (forall f, q (EWrite path f) = true) -> emits q (csv_append path rows).
Proof.
  intros Hq. unfold csv_append. apply emits_bind; [traces |].
  intros [[old|df]|]; [by apply emits_csv_write | traces | by apply emits_csv_write].
Qed.

Lemma emits_write_table (q : event -> bool) (E : Env) (path : string) (df : DataFrame) :
  q (EWrite path (FTable df)) = true -> emits q (write_table E path df).
Proof.
  intros Hq. unfold write_table. apply emits_bind; [traces |].
  intros t. destruct (disk_ok E path t); [by apply emits_write | traces].
Qed.

Lemma emits_import_xlsx (q : event -> bool) (path : string) :
  q (EStat path) = true -> q (ERead path) = true -> emits q (import_xlsx path).
Proof.
  intros Hs Hr. unfold import_xlsx. apply emits_bind; [by apply emits_os_path_exists |].
  intros present. destruct (negb present); [traces |].
  apply emits_bind; [by apply emits_emit |]. intros _. traces.
Qed.

Lemma emits_import_csv (q : event -> bool) (E : Env) (path : string) :
  q (EStat path) = true -> q (ERead path) = true -> emits q (import_csv E path).
Proof.
  intros Hs Hr. unfold import_csv. apply emits_bind; [by apply emits_os_path_exists |].
  intros present. destruct (negb present); [traces |].
  apply emits_bind; [by apply emits_emit |]. intros _. traces.
Qed.

Lemma emits_now (q : event -> bool) (E : Env) : emits q (now E).
Proof. unfold now. traces. Qed.

Lemma emits_extract_soup (q : event -> bool) (E : Env) (url : string) :
  q (EFetch url) = true -> emits q (extract_soup E url).
Proof.
  intros Hq. unfold extract_soup. apply emits_bind; [by apply emits_emit |].
  intros _. traces.
Qed.

Lemma emits_extract_soup_aggregated_curves (q : event -> bool) (E : Env) (url : string) :
  q (EFetch url) = true -> emits q (extract_soup_aggregated_curves E url).
Proof.
  intros Hq. unfold extract_soup_aggregated_curves.
  apply emits_bind; [by apply emits_emit |]. intros _. traces.
Qed.

Lemma emits_update_tracking_file (q : event -> bool) (path : string)
    (tracking_data header_row : list string) :
  q (EStat path) = true -> q (ERead path) = true ->
  (forall f, q (EWrite path f) = true) ->
  emits q (update_tracking_file path tracking_data header_row).
Proof.
  intros Hs Hr Hw. unfold update_tracking_file.
  apply emits_bind; [traces |]. intros _.
  apply emits_bind; [by apply emits_os_path_isfile |]. intros [|].
  - apply emits_bind; [by apply emits_csv_read |]. intros rows.
    apply emits_bind; [traces |]. intros header. by apply emits_csv_write.
  - by apply emits_csv_append.
Qed.

(** A file that no event writes is as before. *)
Lemma replay_not_writing (path : string) (evs : list event) (files : gmap string file) :
  forallb (not_writing path) evs = true -> replay evs files !! path = files !! path.
Proof.
  revert files. induction evs as [|e evs IH]; intros files Hq; [done |].
  simpl in Hq. apply andb_true_iff in Hq as [He Hq].
  change (replay (e :: evs) files)
    with (replay evs (match e with EWrite p f => <[p := f]> files | _ => files end)).
  rewrite IH by done. destruct e; try done.
  simpl in He. apply negb_true_iff, String.eqb_neq in He.
  by rewrite lookup_insert_ne.
Qed.

Lemma extends_not_writing (path : string) (w w' : World) :
  extends (not_writing path) w w' ->
  fs w' !! path = fs w !! path /\
  forall f, EWrite path f ∉ drop (length (trace w)) (trace w').
Proof.
  intros (evs & Ht & Hq & Hf). split.
  - rewrite Hf. by apply replay_not_writing.
  - intros f Hin. rewrite Ht, drop_app_length in Hin.
    rewrite forallb_forall in Hq. apply list_elem_of_In, Hq in Hin.
    simpl in Hin. by rewrite String.eqb_refl in Hin.
Qed.

(** ** The spreadsheet driver *)

Lemma emits_io {A} (q : event -> bool) (m : M World A) :
  emits q m -> emits q (DownloadData.io m).
Proof. intros Hm s. apply (Hm (snd s)). Qed.

Lemma emits_assign (q : event -> bool) (f : DownloadData.Locals -> DownloadData.Locals) :
  emits q (DownloadData.assign f).
Proof. intros s. apply extends_refl. Qed.

Lemma emits_var {A} (q : event -> bool) (x : DownloadData.Locals -> option A) :
  emits q (DownloadData.var x).
Proof.
  intros s. unfold DownloadData.var. destruct (x (fst s)); apply extends_refl.
Qed.

#[global] Hint Resolve emits_assign emits_var : traces.

Lemma observing_working_on (path : string) (e : event) :
  observing e = true -> working_on path e = true.
Proof. by destruct e. Qed.

Lemma observing_not_writing (path : string) (e : event) :
  observing e = true -> not_writing path e = true.
Proof. by destruct e. Qed.

Lemma working_on_not_writing (path other : string) (e : event) :
  path <> other -> working_on path e = true -> not_writing other e = true.
Proof.
  intros Hne. destruct e; try done. simpl. intros Hp.
  apply String.eqb_eq in Hp. subst. by apply negb_true_iff, String.eqb_neq.
Qed.

Lemma emits_load_archive (E : Env) (path : string) :
  emits observing (DownloadData.load_archive E path).
Proof.
  unfold DownloadData.load_archive.
  apply emits_bind; [by apply emits_os_path_exists |]. intros [|]; [|traces].
  apply emits_bind; [by apply emits_import_xlsx |]. intros imported. traces.
Qed.

Lemma emits_archive_check (path : string) (df : DataFrame) (key : list value) :
  emits observing (DownloadData.archive_check path df key).
Proof.
  unfold DownloadData.archive_check.
  apply emits_bind; [by apply emits_os_path_exists |]. intros [|]; traces.
Qed.

Lemma emits_archive_checks (E : Env) (a : DownloadData.Args) (c : DownloadData.Combination) :
  emits observing (DownloadData.archive_checks E a c).
Proof.
  unfold DownloadData.archive_checks.
  apply emits_bind; [apply emits_load_archive |]. intros dfh.
  apply emits_bind; [apply emits_load_archive |]. intros dfb.
  apply emits_bind; [apply emits_archive_check |]. intros h.
  apply emits_bind; [apply emits_archive_check |]. intros b. traces.
Qed.

Lemma emits_fetch (E : Env) (a : DownloadData.Args) (c : DownloadData.Combination)
    (clean : option string) (h b : bool) :
  emits (fun e => negb (is_write e)) (DownloadData.fetch E a c clean h b).
Proof.
  unfold DownloadData.fetch. destruct (h && b).
  - apply emits_bind; [apply emits_io; by apply emits_emit | intros _; traces].
  - apply emits_bind; [apply emits_io; by apply emits_emit |]. intros _.
    apply emits_bind; [traces |]. intros auction.
    apply emits_bind; [apply emits_io, emits_now |]. intros t.
    apply emits_bind.
    { apply emits_try_except; [|intros ?; traces].
      apply emits_bind; [apply emits_io; by apply emits_extract_soup | intros ?; traces]. }
    intros outcome. traces.
Qed.

Lemma emits_hours_block (E : Env) (a : DownloadData.Args) (c : DownloadData.Combination)
    (dfh : DataFrame) (h : bool) (num : indicator) :
  emits (working_on (DownloadData.archive_hourly_data_filepath a))
        (DownloadData.hours_block E a c dfh h num).
Proof.
  unfold DownloadData.hours_block.
  destruct (negb h && negb (is_error num)); [|traces].
  do 6 (apply emits_bind; [traces | intros ?]).
  destruct (negb (is_error _)); [|traces].
  do 2 (apply emits_bind; [traces | intros ?]).
  destruct (plausibility_checks _ && _); [|traces].
  apply emits_bind; [|intros ?; traces].
  apply emits_io, emits_write_table. simpl. apply String.eqb_refl.
Qed.

Lemma emits_base_peak_block (E : Env) (a : DownloadData.Args) (c : DownloadData.Combination)
    (dfb : DataFrame) (b : bool) (ok : indicator) :
  emits (working_on (DownloadData.archive_base_peak_data_filepath a))
        (DownloadData.base_peak_block E a c dfb b ok).
Proof.
  unfold DownloadData.base_peak_block.
  destruct (negb b && negb (is_error ok)); [|traces].
  do 4 (apply emits_bind; [traces | intros ?]).
  destruct (negb (is_error _)); [|traces].
  do 2 (apply emits_bind; [traces | intros ?]).
  destruct (plausibility_checks _ && _); [|traces].
  apply emits_bind; [|intros ?; traces].
  apply emits_io, emits_write_table. simpl. apply String.eqb_refl.
Qed.

Lemma emits_track (a : DownloadData.Args) (c : DownloadData.Combination) (h b : bool)
    (t : option string) (num ok : indicator) :
  emits (working_on (DownloadData.tracking_file_filepath a))
        (DownloadData.track a c h b t num ok).
Proof.
  unfold DownloadData.track. destruct (negb h || negb b); [|traces].
  apply emits_bind; [traces |]. intros accessed.
  apply emits_bind; [by apply emits_os_path_isfile |]. intros [|].
  - apply emits_bind; [by apply emits_csv_read |]. intros rows.
    apply emits_bind; [traces |]. intros header.
    apply emits_csv_write. simpl. apply String.eqb_refl.
  - apply emits_csv_append. intros f. simpl. apply String.eqb_refl.
Qed.

Lemma emits_time_sleep (q : event -> bool) (backoff_time : Z) :
  q (ESleep backoff_time) = true -> emits q (time_sleep backoff_time).
Proof. intros Hq. by apply emits_emit. Qed.

(** What follows a fetch adds no write to an archive whose check was
    true. *)
Lemma emits_after_fetch (E : Env) (a : DownloadData.Args) (c : DownloadData.Combination)
    (dfh dfb : DataFrame) (h b : bool) (q : event -> bool)
    (fetched : indicator * indicator * option string) :
  (forall e, working_on (DownloadData.tracking_file_filepath a) e = true -> q e = true) ->
  (h = false ->
   forall e, working_on (DownloadData.archive_hourly_data_filepath a) e = true -> q e = true) ->
  (b = false ->
   forall e, working_on (DownloadData.archive_base_peak_data_filepath a) e = true ->
             q e = true) ->
  q (ESleep (DownloadData.backoff_time a)) = true ->
  emits q
    (let '(num_hours_records, base_peak_sucess, current_utc_time) := fetched in
     let* num_hours_records :=
       DownloadData.hours_block E a c dfh h num_hours_records in
     let* base_peak_sucess :=
       DownloadData.base_peak_block E a c dfb b base_peak_sucess in
     DownloadData.io (DownloadData.track a c h b current_utc_time
                        num_hours_records base_peak_sucess) >>
     DownloadData.io (time_sleep (DownloadData.backoff_time a))).
Proof.
  intros Ht Hh Hb Hs. destruct fetched as [[num ok] t].
  apply emits_bind.
  { destruct h.
    - unfold DownloadData.hours_block. simpl. traces.
    - eapply emits_weaken; [apply Hh; reflexivity | apply emits_hours_block]. }
  intros num'. apply emits_bind.
  { destruct b.
    - unfold DownloadData.base_peak_block. simpl. traces.
    - eapply emits_weaken; [apply Hb; reflexivity | apply emits_base_peak_block]. }
  intros ok'. apply emits_bind.
  { apply emits_io. eapply emits_weaken; [exact Ht | apply emits_track]. }
  intros _. apply emits_io. by apply emits_time_sleep.
Qed.

Lemma emits_after_checks (E : Env) (a : DownloadData.Args) (c : DownloadData.Combination)
    (clean : option string) (dfh dfb : DataFrame) (h b : bool) (q : event -> bool) :
  (forall e, is_write e = false -> q e = true) ->
  (forall e, working_on (DownloadData.tracking_file_filepath a) e = true -> q e = true) ->
  (h = false ->
   forall e, working_on (DownloadData.archive_hourly_data_filepath a) e = true -> q e = true) ->
  (b = false ->
   forall e, working_on (DownloadData.archive_base_peak_data_filepath a) e = true ->
             q e = true) ->
  emits q (DownloadData.after_checks E a c clean (dfh, dfb, h, b)).
Proof.
  intros Hn Ht Hh Hb. unfold DownloadData.after_checks.
  apply emits_bind.
  - eapply emits_weaken; [|apply emits_fetch].
    intros e He. apply Hn. by apply negb_true_iff.
  - intros fetched. apply emits_after_fetch; try done. by apply Hn.
Qed.

Lemma snd_bind_ret {S A B} (m : M S A) (b : B) (s : S) :
  snd (bind m (fun _ => ret b) s) = snd (m s).
Proof. unfold bind, ret. by destruct (m s) as [[x|e] s']. Qed.

Lemma process_after_checks (E : Env) (a : DownloadData.Args) (dates : datetime * datetime)
    (area auction : string) (s : DownloadData.St)
    (checked : DataFrame * DataFrame * bool * bool) (w1 : World) :
  DownloadData.archive_checks E a
    (DownloadData.mkCombination (DownloadData.clean_market_area a area) auction
                                (fst dates) (snd dates)) (snd s) = (Ok checked, w1) ->
  snd (DownloadData.process E a dates area auction s)
  = snd (DownloadData.after_checks E a
           (DownloadData.mkCombination (DownloadData.clean_market_area a area) auction
                                       (fst dates) (snd dates))
           (DownloadData.auction_name_clean a auction) checked (fst s, w1)).
Proof.
  intros Hc. unfold DownloadData.process.
  unfold bind at 1. unfold DownloadData.io at 1. rewrite Hc. simpl.
  apply snd_bind_ret.
Qed.

(** A skipped combination: the message, then the pause, and nothing else. *)
Lemma after_checks_skip (E : Env) (a : DownloadData.Args) (c : DownloadData.Combination)
    (clean : option string) (dfh dfb : DataFrame) (s : DownloadData.St) :
  DownloadData.after_checks E a c clean (dfh, dfb, true, true) s
  = (Ok tt,
     (fst s,
      mkWorld (fs (snd s)) (dirs (snd s)) (clock (snd s))
              (trace (snd s) ++ [EPrintAlready (DownloadData.combination_to_check a c);
                                 ESleep (DownloadData.backoff_time a)]))).
Proof.
  unfold DownloadData.after_checks, DownloadData.fetch, DownloadData.hours_block,
    DownloadData.base_peak_block, DownloadData.track, DownloadData.io, bind, ret,
    emit, time_sleep. simpl.
  by rewrite <- app_assoc.
Qed.

(** An attempted combination: the message and the page request come
    first, whatever follows. *)
Lemma fetch_requests_page (E : Env) (a : DownloadData.Args) (c : DownloadData.Combination)
    (auction : string) (h b : bool) (s : DownloadData.St) :
  h && b = false ->
  trace (snd (snd (DownloadData.fetch E a c (Some auction) h b s)))
  = trace (snd s)
    ++ [ EPrintMustAdd (DownloadData.combination_to_check a c);
         EFetch (table_url (DownloadData.market_area c) auction
                   (strftime (DownloadData.trading_date c))
                   (strftime (DownloadData.delivery_date c))
                   (DownloadData.sub_modality a)) ].
Proof.
  intros Hhb. unfold DownloadData.fetch. rewrite Hhb.
  unfold bind, DownloadData.io, emit, now, tick, bind, ret, lift_res, bound,
    try_except, extract_soup, bind, emit, tick, lift_res, DownloadData.assign,
    DownloadData.var. simpl.
  destruct (page E _ _) as [document|e]; simpl.
  - destruct (extract_last_update E document) as [text|e]; simpl.
    + by rewrite <- app_assoc.
    + destruct (DownloadData.last_update (fst s)); simpl; by rewrite <- app_assoc.
  - destruct (DownloadData.soup (fst s)) as [stale|]; simpl.
    + destruct (extract_last_update E stale) as [text|e']; simpl.
      * by rewrite <- app_assoc.
      * destruct (DownloadData.last_update (fst s)); simpl; by rewrite <- app_assoc.
    + destruct (DownloadData.last_update (fst s)); simpl; by rewrite <- app_assoc.
Qed.

Lemma extends_trace (q : event -> bool) (w w' : World) :
  extends q w w' ->
  trace w' = trace w ++ drop (length (trace w)) (trace w') /\
  forallb q (drop (length (trace w)) (trace w')) = true.
Proof.
  intros (evs & Ht & Hq & _). by rewrite Ht, drop_app_length.
Qed.

(** C1. In [download_data], once the two existence checks of a
    combination have returned, the page is requested exactly when they are
    not both true; and whatever the outcome, an archive whose own check
    was true is neither written nor changed, also when the fetch was made
    because the sibling archive lacked the combination. *)
Theorem download_data_archive_guards (E : Env) (a : DownloadData.Args)
    (dates : datetime * datetime) (area auction : string) (s : DownloadData.St)
    (dfh dfb : DataFrame) (h b : bool) (w1 : World) :
  let c := DownloadData.mkCombination (DownloadData.clean_market_area a area) auction
                                      (fst dates) (snd dates) in
  let hourly := DownloadData.archive_hourly_data_filepath a in
  let base_peak := DownloadData.archive_base_peak_data_filepath a in
  let s' := snd (DownloadData.process E a dates area auction s) in
  let delta := drop (length (trace (snd s))) (trace (snd s')) in
  DownloadData.auction_name_clean a auction <> None ->
  DownloadData.archive_checks E a c (snd s) = (Ok (dfh, dfb, h, b), w1) ->
  trace (snd s') = trace (snd s) ++ delta /\
  ((exists url, EFetch url ∈ delta) <-> ~ (h = true /\ b = true)) /\
  (h = true ->
   hourly <> base_peak -> hourly <> DownloadData.tracking_file_filepath a ->
   (forall f, EWrite hourly f ∉ delta) /\
   fs (snd s') !! hourly = fs (snd s) !! hourly) /\
  (b = true ->
   base_peak <> hourly -> base_peak <> DownloadData.tracking_file_filepath a ->
   (forall f, EWrite base_peak f ∉ delta) /\
   fs (snd s') !! base_peak = fs (snd s) !! base_peak).
Proof.
  intros c hourly base_peak s' delta Hclean Hchk. subst s' delta.
  rewrite (process_after_checks E a dates area auction s _ w1 Hchk). fold c.
  set (s' := snd (DownloadData.after_checks E a c
                    (DownloadData.auction_name_clean a auction)
                    (dfh, dfb, h, b) (fst s, w1))).
  assert (Hobs : extends observing (snd s) w1).
  { pose proof (emits_archive_checks E a c (snd s)) as H.
    unfold world, world_has_world in H. by rewrite Hchk in H. }
  assert (Hwhole : forall q,
     (forall e, observing e = true -> q e = true) ->
     emits q (DownloadData.after_checks E a c (DownloadData.auction_name_clean a auction)
                (dfh, dfb, h, b)) ->
     extends q (snd s) (snd s')).
  { intros q Hq Hafter. eapply extends_trans.
    - eapply extends_weaken; [exact Hq | exact Hobs].
    - apply (Hafter (fst s, w1)). }
  split; [|split; [|split]].
  - eapply extends_trace, (Hwhole any_event); [done |].
    by apply emits_after_checks.
  - split.
    + intros [url Hin] [-> ->].
      unfold s' in Hin. rewrite after_checks_skip in Hin. simpl in Hin.
      destruct Hobs as (obs & Ht & Hq & _).
      rewrite Ht, <- app_assoc, drop_app_length in Hin.
      apply elem_of_app in Hin as [Hin|Hin].
      * rewrite forallb_forall in Hq. by apply list_elem_of_In, Hq in Hin.
      * apply elem_of_cons in Hin as [?|Hin]; [done |].
        apply elem_of_cons in Hin as [?|Hin]; [done | inversion Hin].
    + intros Hnot.
      assert (Hhb : h && b = false).
      { destruct h, b; try done. by destruct Hnot. }
      destruct (DownloadData.auction_name_clean a auction) as [name|] eqn:Hname; [|done].
      exists (table_url (DownloadData.market_area c) name
                (strftime (DownloadData.trading_date c))
                (strftime (DownloadData.delivery_date c))
                (DownloadData.sub_modality a)).
      pose proof (fetch_requests_page E a c name h b (fst s, w1) Hhb) as Hfetch.
      assert (Hrest : extends any_event
                (snd (snd (DownloadData.fetch E a c (Some name) h b (fst s, w1))))
                (snd s')).
      { unfold s', DownloadData.after_checks, bind at 1.
        destruct (DownloadData.fetch E a c (Some name) h b (fst s, w1))
          as [[fetched|e] s2]; simpl; [|apply extends_refl].
        apply (emits_after_fetch E a c dfh dfb h b any_event fetched); done. }
      destruct Hrest as (evs & Ht & _ & _). destruct Hobs as (obs & Ht1 & _ & _).
      rewrite Ht, Hfetch. simpl. rewrite Ht1.
      rewrite <- !app_assoc, drop_app_length.
      apply elem_of_app. right. simpl. apply list_elem_of_further, list_elem_of_here.
  - intros -> Hne1 Hne2.
    assert (Hext : extends (not_writing hourly) (snd s) (snd s')).
    { apply Hwhole; [apply observing_not_writing |].
      apply emits_after_checks.
      - intros e He. by destruct e.
      - intros e. by apply working_on_not_writing.
      - done.
      - intros _ e. by apply working_on_not_writing. }
    apply extends_not_writing in Hext as [Hfs Hev]. by split.
  - intros -> Hne1 Hne2.
    assert (Hext : extends (not_writing base_peak) (snd s) (snd s')).
    { apply Hwhole; [apply observing_not_writing |].
      apply emits_after_checks.
      - intros e He. by destruct e.
      - intros e. by apply working_on_not_writing.
      - intros _ e. by apply working_on_not_writing.
      - done. }
    apply extends_not_writing in Hext as [Hfs Hev]. by split.
Qed.

Lemma download_data_archive_guards_witness :
  let s' := snd (DownloadData.process example_env dayahead_args example_dates
                   "DE-LU" "SDAC" (DownloadData.unbound, world_hourly_only)) in
  (exists url, EFetch url ∈ drop (length (trace world_hourly_only)) (trace (snd s'))) /\
  fs (snd s') !! "epex_auction_dayahead_hourly_data_archive.xlsx"
    = Some (FTable archived_hourly) /\
  exists added, fs (snd s') !! "epex_auction_dayahead_basepeak_data_archive.xlsx"
                  = Some (FTable added).
Proof.
  intros s'.
  edestruct (download_data_archive_guards example_env dayahead_args example_dates
               "DE-LU" "SDAC" (DownloadData.unbound, world_hourly_only))
    as (_ & Hfetch & Hhourly & _).
  - vm_compute. discriminate.
  - vm_compute. reflexivity.
  - split; [|split].
    + apply Hfetch. intros [_ Hb]. discriminate Hb.
    + destruct Hhourly as [_ Hfs]; [reflexivity | vm_compute; discriminate
                                   | vm_compute; discriminate |].
      unfold s'. etransitivity; [exact Hfs | reflexivity].
    + eexists. vm_compute. reflexivity.
Defined.

(** ** Pacing *)

Lemma bind_ok_inv {S A B} (m : M S A) (k : A -> M S B) (s s' : S) (b : B) :
  bind m k s = (Ok b, s') ->
  exists a s1, m s = (Ok a, s1) /\ k a s1 = (Ok b, s').
Proof.
  unfold bind. destruct (m s) as [[a|e] s1]; [eauto | discriminate].
Qed.

Lemma emits_run {S A} `{HasWorld S} (q : event -> bool) (m : M S A) (s s' : S) (r : Res A) :
  emits q m -> m s = (r, s') -> extends q (world s) (world s').
Proof. intros Hm Hr. specialize (Hm s). by rewrite Hr in Hm. Qed.

Lemma run_extends {A} (q : event -> bool) (m : M World A) (w w' : World) (r : Res A) :
  emits q m -> m w = (r, w') -> extends q w w'.
Proof. intros Hm Hr. exact (emits_run q m w w' r Hm Hr). Qed.

Lemma unpaced_working_on (path : string) (e : event) :
  working_on path e = true -> unpaced e = true.
Proof. by destruct e. Qed.

Lemma emits_value_clean (q : event -> bool) (a : Download.Args) (v : value) :
  emits q (Download.value_clean a v).
Proof.
  unfold Download.value_clean, Download.value_contains.
  destruct (Download.is_dayahead a); [traces |].
  destruct (Download.is_intraday a); [|traces].
  destruct v; traces.
Qed.

Lemma emits_url_of (q : event -> bool) (a : Download.Args) (c : Download.Combination)
    (clean : option string) :
  emits q (Download.url_of a c clean).
Proof. unfold Download.url_of. traces. Qed.

Lemma emits_download_fetch (E : Env) (a : Download.Args) (url : option string) :
  emits unpaced (Download.fetch E a url).
Proof.
  unfold Download.fetch. apply emits_try_except; [|intros ?; traces].
  destruct (Download.is_table a).
  - apply emits_bind; [traces |]. intros u.
    apply emits_bind; [by apply emits_extract_soup |]. intros ?. traces.
  - destruct (_ || _); [|traces].
    apply emits_bind; [traces |]. intros u.
    apply emits_bind; [by apply emits_extract_soup_aggregated_curves |]. intros ?. traces.
Qed.

Lemma emits_append_to_archive (E : Env) (a : Download.Args) (c : Download.Combination)
    (suffix : string) (with_trading_date : bool) (new_rows : DataFrame) :
  emits unpaced (Download.append_to_archive E a c suffix with_trading_date new_rows).
Proof.
  unfold Download.append_to_archive.
  apply emits_bind; [by apply emits_os_path_exists |]. intros folder.
  apply emits_bind; [|intros ?; by apply emits_write_table].
  destruct folder.
  - apply emits_bind; [by apply emits_os_path_exists |]. intros [|]; [|traces].
    apply emits_bind; [by apply emits_import_csv |]. intros imported. traces.
  - apply emits_bind; [by apply emits_os_makedirs |]. intros ?. traces.
Qed.

Lemma emits_store (E : Env) (a : Download.Args) (c : Download.Combination)
    (success_indicator : indicator) (extracted : Download.payload) :
  emits unpaced (Download.store E a c success_indicator extracted).
Proof.
  unfold Download.store.
  destruct (negb (is_error success_indicator)); [|traces].
  destruct (Download.is_table a).
  - destruct extracted; [|traces|traces].
    destruct (Download.frame_of _ _); [|traces].
    destruct (Download.frame_of _ _); [|traces].
    destruct (_ || _); [traces |].
    apply emits_bind.
    + apply emits_try_except; [|intros ?; traces].
      apply emits_bind; [apply emits_append_to_archive | intros ?; traces].
    + intros ok. destruct (negb (is_error ok)); [|traces].
      apply emits_try_except; [|intros ?; traces].
      apply emits_bind; [apply emits_append_to_archive | intros ?; traces].
  - destruct (_ || _); [|traces].
    destruct extracted; [traces| |traces].
    destruct (Download.frame_of _ _); [|traces].
    destruct (Download.unusable _); [traces |].
    apply emits_try_except; [|intros ?; traces].
    apply emits_bind; [apply emits_append_to_archive | intros ?; traces].
Qed.

(** An attempt that returns ends with the pause, and nothing before it
    is a pause or a skip message. *)
Lemma attempt_ends_with_pause (E : Env) (a : Download.Args) (c : Download.Combination)
    (clean : option string) (w w' : World) (failed : bool) :
  Download.attempt E a c clean w = (Ok failed, w') ->
  exists work, trace w' = trace w ++ work ++ [ESleep (Download.backoff_time a)] /\
               forallb unpaced work = true.
Proof.
  intros H. unfold Download.attempt in H.
  apply bind_ok_inv in H as (url & w1 & H1 & H).
  apply bind_ok_inv in H as (t & w2 & H2 & H).
  apply bind_ok_inv in H as ([soup ok] & w3 & H3 & H).
  destruct (Download.last_update_of E soup ok) as [text ok'].
  apply bind_ok_inv in H as ([ok'' found] & w4 & H4 & H).
  apply bind_ok_inv in H as (final & w5 & H5 & H).
  apply bind_ok_inv in H as ([] & w6 & H6 & H).
  injection H as _ <-.
  unfold Download.track_and_pace in H6.
  apply bind_ok_inv in H6 as (? & w7 & H7 & H6).
  apply bind_ok_inv in H6 as (row & w8 & H8 & H6).
  apply bind_ok_inv in H6 as ([] & w9 & H9 & H6).
  assert (Hext : extends unpaced w w9).
  { eapply extends_trans; [exact (run_extends _ _ _ _ _ (emits_url_of _ a c clean) H1) |].
    eapply extends_trans; [exact (run_extends _ _ _ _ _ (emits_now _ E) H2) |].
    eapply extends_trans; [exact (run_extends _ _ _ _ _ (emits_download_fetch E a url) H3) |].
    eapply extends_trans; [exact (run_extends _ _ _ _ _ (emits_lift_res _ _) H4) |].
    eapply extends_trans; [exact (run_extends _ _ _ _ _ (emits_store E a c ok'' found) H5) |].
    eapply extends_trans; [eapply run_extends; [|exact H7] |].
    { destruct (is_error final); [|traces].
      apply emits_bind; [by apply emits_os_path_exists |].
      intros present. destruct (negb present); [by apply emits_os_makedirs | traces]. }
    eapply extends_trans; [exact (run_extends _ _ _ _ _ (emits_lift_res _ _) H8) |].
    eapply run_extends; [|exact H9].
    eapply emits_weaken; [apply (unpaced_working_on (Download.tracking_file_filepath a)) |].
    apply emits_update_tracking_file; [done | done |].
    intros f. simpl. apply String.eqb_refl. }
  destruct Hext as (work & Ht & Hq & _). exists work. split; [|done].
  unfold time_sleep, emit in H6. injection H6 as <-. simpl.
  by rewrite Ht, app_assoc.
Qed.

(** One combination of [download]. *)
Lemma download_process_paced (E : Env) (a : Download.Args) (ex : option DataFrame)
    (dates : datetime * datetime) (area : string) (v : value) (n : nat)
    (w w' : World) (r : string * nat) :
  Download.process E a ex dates area v n w = (Ok r, w') ->
  exists delta, trace w' = trace w ++ delta /\ paced (Download.backoff_time a) delta.
Proof.
  intros H. unfold Download.process in H.
  apply bind_ok_inv in H as (clean & w1 & H1 & H).
  apply bind_ok_inv in H as (chk & w2 & H2 & H).
  assert (Hw : trace w2 = trace w).
  { pose proof (run_extends no_event _ _ _ _ (emits_value_clean _ a v) H1)
      as (e1 & T1 & Q1 & _).
    pose proof (run_extends no_event _ _ _ _ (emits_lift_res _ _) H2)
      as (e2 & T2 & Q2 & _).
    destruct e1; [|done]. destruct e2; [|done].
    by rewrite T2, T1, !app_nil_r. }
  destruct chk.
  - apply bind_ok_inv in H as ([] & w3 & H3 & H). injection H as _ <-.
    unfold emit in H3. injection H3 as <-. simpl. rewrite Hw.
    eexists. split; [done | constructor].
  - apply bind_ok_inv in H as ([] & w3 & H3 & H).
    apply bind_ok_inv in H as (failed & w4 & H4 & H). injection H as _ <-.
    apply attempt_ends_with_pause in H4 as (work & Ht & Hq).
    unfold emit in H3. injection H3 as <-. simpl in Ht. rewrite Ht, Hw.
    eexists. split; [by rewrite <- app_assoc | by constructor].
Qed.

Lemma download_for_values_paced (E : Env) (a : Download.Args) (ex : option DataFrame)
    (dates : datetime * datetime) (values : list value) (area : string) (n m : nat)
    (w w' : World) :
  Download.for_values E a ex dates area values n w = (Ok m, w') ->
  exists deltas, trace w' = trace w ++ concat deltas /\
                 Forall (paced (Download.backoff_time a)) deltas /\
                 length deltas = length values.
Proof.
  revert area n w. induction values as [|v rest IH]; intros area n w H; simpl in H.
  - injection H as _ <-. exists []. by rewrite app_nil_r.
  - apply bind_ok_inv in H as (r & w1 & H1 & H).
    apply download_process_paced in H1 as (delta & Ht & Hp).
    apply IH in H as (deltas & Ht' & Hps & Hl).
    exists (delta :: deltas). split; [|split].
    + simpl. by rewrite Ht', Ht, app_assoc.
    + by constructor.
    + simpl. by rewrite Hl.
Qed.

Lemma download_for_market_areas_paced (E : Env) (a : Download.Args) (ex : option DataFrame)
    (dates : datetime * datetime) (market_areas : list (string * list value)) (n m : nat)
    (w w' : World) :
  Download.for_market_areas E a ex dates market_areas n w = (Ok m, w') ->
  exists deltas, trace w' = trace w ++ concat deltas /\
                 Forall (paced (Download.backoff_time a)) deltas /\
                 length deltas = length (work_list [dates] market_areas).
Proof.
  revert n w. induction market_areas as [|[area values] rest IH]; intros n w H; simpl in H.
  - injection H as _ <-. exists []. by rewrite app_nil_r.
  - apply bind_ok_inv in H as (k & w1 & H1 & H).
    apply download_for_values_paced in H1 as (d1 & Ht1 & Hp1 & Hl1).
    apply IH in H as (d2 & Ht2 & Hp2 & Hl2).
    exists (d1 ++ d2). split; [|split].
    + by rewrite concat_app, Ht2, Ht1, app_assoc.
    + by apply Forall_app.
    + unfold work_list in *. simpl in *. rewrite app_nil_r in *.
      by rewrite !length_app, length_map, Hl1, Hl2.
Qed.

Lemma work_list_cons {A} (dates : datetime * datetime) (days : list (datetime * datetime))
    (market_areas : list (string * list A)) :
  length (work_list (dates :: days) market_areas)
  = (length (work_list [dates] market_areas) + length (work_list days market_areas))%nat.
Proof. unfold work_list. simpl. by rewrite app_nil_r, length_app. Qed.

Lemma download_for_dates_paced (E : Env) (a : Download.Args) (ex : option DataFrame)
    (market_areas : list (string * list value)) (days : list (datetime * datetime))
    (n m : nat) (w w' : World) :
  Download.for_dates E a ex market_areas days n w = (Ok m, w') ->
  exists deltas, trace w' = trace w ++ concat deltas /\
                 Forall (paced (Download.backoff_time a)) deltas /\
                 length deltas = length (work_list days market_areas).
Proof.
  revert n w. induction days as [|dates rest IH]; intros n w H; simpl in H.
  - injection H as _ <-. exists []. by rewrite app_nil_r.
  - apply bind_ok_inv in H as (k & w1 & H1 & H).
    apply download_for_market_areas_paced in H1 as (d1 & Ht1 & Hp1 & Hl1).
    apply IH in H as (d2 & Ht2 & Hp2 & Hl2).
    exists (d1 ++ d2). split; [|split].
    + by rewrite concat_app, Ht2, Ht1, app_assoc.
    + by apply Forall_app.
    + by rewrite work_list_cons, length_app, Hl1, Hl2.
Qed.

Lemma run_extends_locals {A} (q : event -> bool) (m : M DownloadData.St A)
    (s s' : DownloadData.St) (r : Res A) :
  emits q m -> m s = (r, s') -> extends q (snd s) (snd s').
Proof. intros Hm Hr. exact (emits_run q m s s' r Hm Hr). Qed.

Lemma fetch_ok_requests_page (E : Env) (a : DownloadData.Args)
    (c : DownloadData.Combination) (clean : option string) (h b : bool)
    (s s' : DownloadData.St) (fetched : indicator * indicator * option string) :
  h && b = false ->
  DownloadData.fetch E a c clean h b s = (Ok fetched, s') ->
  exists url, trace (snd s')
              = trace (snd s) ++ [EPrintMustAdd (DownloadData.combination_to_check a c);
                                  EFetch url].
Proof.
  intros Hhb H. destruct clean as [auction|].
  - eexists. pose proof (fetch_requests_page E a c auction h b s Hhb) as Ht.
    by rewrite H in Ht.
  - unfold DownloadData.fetch in H. rewrite Hhb in H.
    unfold bind, DownloadData.io, emit, lift_res, bound in H. simpl in H. discriminate H.
Qed.

(** One combination of [download_data]. *)
Lemma download_data_process_paced (E : Env) (a : DownloadData.Args)
    (dates : datetime * datetime) (area auction : string) (s s' : DownloadData.St)
    (r : string) :
  DownloadData.process E a dates area auction s = (Ok r, s') ->
  exists delta, trace (snd s') = trace (snd s) ++ delta /\
                always_paced (DownloadData.backoff_time a) delta.
Proof.
  intros H. unfold DownloadData.process in H.
  apply bind_ok_inv in H as ([[[dfh dfb] h] b] & s1 & H1 & H).
  apply bind_ok_inv in H as ([] & s2 & H2 & H). injection H as _ <-.
  pose proof (run_extends_locals observing _ _ _ _
                (emits_io _ _ (emits_archive_checks E a _)) H1) as (obs & Ht1 & Hq1 & _).
  destruct (h && b) eqn:Hhb.
  - apply andb_true_iff in Hhb as [-> ->].
    rewrite after_checks_skip in H2. injection H2 as <-. simpl.
    exists (obs ++ [EPrintAlready (DownloadData.combination_to_check a
                      (DownloadData.mkCombination (DownloadData.clean_market_area a area)
                         auction (fst dates) (snd dates)));
                    ESleep (DownloadData.backoff_time a)]).
    split; [by rewrite Ht1, app_assoc | by constructor].
  - unfold DownloadData.after_checks in H2.
    apply bind_ok_inv in H2 as ([[num ok] t] & s3 & H3 & H2).
    apply (fetch_ok_requests_page _ _ _ _ _ _ _ _ _ Hhb) in H3 as [url Ht3].
    apply bind_ok_inv in H2 as (num' & s4 & H4 & H2).
    apply bind_ok_inv in H2 as (ok' & s5 & H5 & H2).
    apply bind_ok_inv in H2 as ([] & s6 & H6 & H2).
    assert (Hext : extends unpaced (snd s3) (snd s6)).
    { eapply extends_trans; [eapply run_extends_locals; [|exact H4] |].
      { eapply emits_weaken; [apply unpaced_working_on | apply emits_hours_block]. }
      eapply extends_trans; [eapply run_extends_locals; [|exact H5] |].
      { eapply emits_weaken; [apply unpaced_working_on | apply emits_base_peak_block]. }
      eapply run_extends_locals; [|exact H6].
      apply emits_io. eapply emits_weaken; [apply unpaced_working_on | apply emits_track]. }
    destruct Hext as (work & Ht & Hq & _).
    unfold DownloadData.io, time_sleep, emit in H2. injection H2 as <-. simpl.
    exists (obs ++ EPrintMustAdd (DownloadData.combination_to_check a
                     (DownloadData.mkCombination (DownloadData.clean_market_area a area)
                        auction (fst dates) (snd dates)))
                :: (EFetch url :: work) ++ [ESleep (DownloadData.backoff_time a)]).
    split.
    + rewrite Ht, Ht3, Ht1. simpl. by rewrite <- !app_assoc.
    + by constructor.
Qed.

Lemma download_data_for_auctions_paced (E : Env) (a : DownloadData.Args)
    (dates : datetime * datetime) (auctions : list string) (area : string)
    (s s' : DownloadData.St) :
  DownloadData.for_auctions E a dates area auctions s = (Ok tt, s') ->
  exists deltas, trace (snd s') = trace (snd s) ++ concat deltas /\
                 Forall (always_paced (DownloadData.backoff_time a)) deltas /\
                 length deltas = length auctions.
Proof.
  revert area s. induction auctions as [|x rest IH]; intros area s H; simpl in H.
  - injection H as <-. exists []. by rewrite app_nil_r.
  - apply bind_ok_inv in H as (r & s1 & H1 & H).
    apply download_data_process_paced in H1 as (delta & Ht & Hp).
    apply IH in H as (deltas & Ht' & Hps & Hl).
    exists (delta :: deltas). split; [|split].
    + simpl. by rewrite Ht', Ht, app_assoc.
    + by constructor.
    + simpl. by rewrite Hl.
Qed.

Lemma download_data_for_market_areas_paced (E : Env) (a : DownloadData.Args)
    (dates : datetime * datetime) (market_areas : list (string * list string))
    (s s' : DownloadData.St) :
  DownloadData.for_market_areas E a dates market_areas s = (Ok tt, s') ->
  exists deltas, trace (snd s') = trace (snd s) ++ concat deltas /\
                 Forall (always_paced (DownloadData.backoff_time a)) deltas /\
                 length deltas = length (work_list [dates] market_areas).
Proof.
  revert s. induction market_areas as [|[area auctions] rest IH]; intros s H; simpl in H.
  - injection H as <-. exists []. by rewrite app_nil_r.
  - apply bind_ok_inv in H as ([] & s1 & H1 & H).
    apply download_data_for_auctions_paced in H1 as (d1 & Ht1 & Hp1 & Hl1).
    apply IH in H as (d2 & Ht2 & Hp2 & Hl2).
    exists (d1 ++ d2). split; [|split].
    + by rewrite concat_app, Ht2, Ht1, app_assoc.
    + by apply Forall_app.
    + unfold work_list in *. simpl in *. rewrite app_nil_r in *.
      by rewrite !length_app, length_map, Hl1, Hl2.
Qed.

Lemma download_data_for_days_paced (E : Env) (a : DownloadData.Args)
    (market_areas : list (string * list string)) (days : list (datetime * datetime))
    (s s' : DownloadData.St) :
  DownloadData.for_days E a market_areas days s = (Ok tt, s') ->
  exists deltas, trace (snd s') = trace (snd s) ++ concat deltas /\
                 Forall (always_paced (DownloadData.backoff_time a)) deltas /\
                 length deltas = length (work_list days market_areas).
Proof.
  revert s. induction days as [|dates rest IH]; intros s H; simpl in H.
  - injection H as <-. exists []. by rewrite app_nil_r.
  - apply bind_ok_inv in H as ([] & s1 & H1 & H).
    apply download_data_for_market_areas_paced in H1 as (d1 & Ht1 & Hp1 & Hl1).
    apply IH in H as (d2 & Ht2 & Hp2 & Hl2).
    exists (d1 ++ d2). split; [|split].
    + by rewrite concat_app, Ht2, Ht1, app_assoc.
    + by apply Forall_app.
    + by rewrite work_list_cons, length_app, Hl1, Hl2.
Qed.

Lemma check_names_state (a : DownloadData.Args) (s s' : DownloadData.St) (r : Res unit) :
  DownloadData.check_names a s = (r, s') -> s' = s.
Proof.
  unfold DownloadData.check_names.
  repeat (match goal with
          | |- context [if ?b then _ else _] => destruct b
          end); unfold raise, assert_, ret; simpl; try (intros [= _ <-]; reflexivity).
  all: destruct (_ || _); intros [= _ <-]; reflexivity.
Qed.

Lemma emits_load_existing (E : Env) (a : Download.Args) :
  emits observing (Download.load_existing E a).
Proof.
  unfold Download.load_existing, import_exsting_combinations_file.
  apply emits_bind; [by apply emits_os_path_exists |]. intros [|]; [|traces].
  destruct (Download.is_continuous a).
  - apply emits_bind; [|intros ?; traces].
    apply emits_bind; [by apply emits_import_csv |]. intros ?. traces.
  - apply emits_bind; [|intros ?; traces].
    apply emits_bind; [by apply emits_import_csv |]. intros ?. traces.
Qed.

(** C9, as the code has it.  In a run of [download] that returns, after
    the ledger has been loaded, every combination leaves either the skip
    message alone, with no pause, or the must-add message, its work and
    the pause as the last event, whatever outcome the ledger records.  In
    a run of [download_data] that returns, every combination, skipped or
    attempted, ends with the pause. *)
Theorem pacing_of_completed_runs :
  (forall (E : Env) (a : Download.Args) (date_combinations : list (datetime * datetime))
          (market_areas : list (string * list value)) (w w' : World) (n : nat),
     Download.download E a date_combinations market_areas w = (Ok n, w') ->
     exists loading deltas,
       trace w' = trace w ++ loading ++ concat deltas /\
       forallb observing loading = true /\
       Forall (paced (Download.backoff_time a)) deltas /\
       length deltas = length (work_list (rev date_combinations) market_areas)) /\
  (forall (E : Env) (a : DownloadData.Args) (market_areas : list (string * list string))
          (relevant_days : list (datetime * datetime)) (s s' : DownloadData.St),
     DownloadData.download_data E a market_areas relevant_days s = (Ok tt, s') ->
     exists deltas,
       trace (snd s') = trace (snd s) ++ concat deltas /\
       Forall (always_paced (DownloadData.backoff_time a)) deltas /\
       length deltas = length (work_list relevant_days market_areas)).
Proof.
  split.
  - intros E a days mas w w' n H. unfold Download.download in H.
    apply bind_ok_inv in H as (ex & w1 & H1 & H).
    pose proof (run_extends observing _ _ _ _ (emits_load_existing E a) H1)
      as (loading & Ht1 & Hq1 & _).
    apply download_for_dates_paced in H as (deltas & Ht & Hp & Hl).
    exists loading, deltas. split; [|done]. by rewrite Ht, Ht1, app_assoc.
  - intros E a mas days s s' H. unfold DownloadData.download_data in H.
    apply bind_ok_inv in H as ([] & s1 & H1 & H).
    apply check_names_state in H1 as ->.
    exact (download_data_for_days_paced E a mas days s s' H).
Qed.

(** C9 as stated fails on [download_data]: with the combination in both
    archives the run requests no page, prints the skip message, and still
    pauses. *)
Lemma download_data_pauses_after_skip :
  let run := DownloadData.download_data example_env dayahead_args
               [("DE-LU", ["SDAC"])] [example_dates]
               (DownloadData.unbound, world_both_archived) in
  fst run = Ok tt /\
  forallb (fun e => negb (is_fetch e)) (trace (snd (snd run))) = true /\
  exists checks,
    trace (snd (snd run))
    = checks ++ [ EPrintAlready [ VStr "DE-LU"; VDate d_2024_05_01; VDate d_2024_05_02;
                                  VStr "Auction"; VStr "DayAhead"; VStr "SDAC" ];
                  ESleep 3 ].
Proof.
  split; [vm_compute; reflexivity |]. split; [vm_compute; reflexivity |].
  eexists. vm_compute. 
  match goal with
  | |- ?l = _ => instantiate (1 := take 8 l)
  end.
  reflexivity.
Qed.

Lemma pacing_of_completed_runs_witness :
  (exists loading deltas,
     trace (snd (Download.download example_env download_args [example_dates]
                   [("DE-LU", [VStr "SDAC"])] (world_of ∅)))
     = trace (world_of ∅) ++ loading ++ concat deltas /\
     forallb observing loading = true /\
     Forall (paced (Download.backoff_time download_args)) deltas /\
     length deltas = length (work_list (rev [example_dates]) [("DE-LU", [VStr "SDAC"])])) /\
  (exists deltas,
     trace (snd (snd (DownloadData.download_data example_env dayahead_args
                        [("DE-LU", ["SDAC"])] [example_dates]
                        (DownloadData.unbound, world_both_archived))))
     = trace (snd (DownloadData.unbound, world_both_archived)) ++ concat deltas /\
     Forall (always_paced (DownloadData.backoff_time dayahead_args)) deltas /\
     length deltas = length (work_list [example_dates] [("DE-LU", ["SDAC"])])).
Proof.
  split.
  - eapply (proj1 pacing_of_completed_runs example_env download_args [example_dates]
              [("DE-LU", [VStr "SDAC"])] (world_of ∅)).
    vm_compute. reflexivity.
  - eapply (proj2 pacing_of_completed_runs example_env dayahead_args
              [("DE-LU", ["SDAC"])] [example_dates]
              (DownloadData.unbound, world_both_archived)).
    vm_compute. reflexivity.
Defined.

(** ** The skip-set and the retry of error entries *)

Lemma res_mapM_Ok {A B} (f : A -> Res B) (l : list A) (l' : list B) :
  res_mapM f l = Ok l' -> Forall2 (fun a b => f a = Ok b) l l'.
Proof.
  revert l'. induction l as [|a l IH]; intros l' H; simpl in H.
  - injection H as <-. constructor.
  - destruct (f a) as [b|e] eqn:Hfa; [|discriminate].
    simpl in H. destruct (res_mapM f l) as [bs|e]; [|discriminate].
    simpl in H. injection H as <-. constructor; [done | by apply IH].
Qed.

Lemma res_mapM_length {A B} (f : A -> Res B) (l : list A) (l' : list B) :
  res_mapM f l = Ok l' -> length l' = length l.
Proof. intros H. apply res_mapM_Ok, Forall2_length in H. done. Qed.

Lemma convert_column_Ok (name : string) (f : cell -> Res cell) (df df' : DataFrame) :
  convert_column name f df = Ok df' ->
  columns df' = columns df /\
  Forall2 (fun r r' => convert_row name f (columns df) r = Ok r') (data df) (data df').
Proof.
  unfold convert_column. destruct (in_list name (columns df)); [|discriminate].
  unfold res_map. destruct (res_mapM _ (data df)) as [rows|e] eqn:Hrows; [|discriminate].
  simpl. intros [= <-]. simpl. split; [done | by apply res_mapM_Ok].
Qed.

Lemma convert_row_length (name : string) (f : cell -> Res cell) (cols : list string)
    (r r' : list cell) :
  convert_row name f cols r = Ok r' -> length r' = length cols.
Proof.
  unfold convert_row. intros H. apply res_mapM_length in H.
  rewrite H, length_zip_with. unfold normalize. rewrite length_map, length_seq. lia.
Qed.

Lemma key_cells_length (columns_to_check cols : list string) (row : list cell) :
  length (key_cells columns_to_check cols row)
  = length (List.filter (fun c => in_list c columns_to_check) cols).
Proof. unfold key_cells. by rewrite length_map, positions_length. Qed.

Lemma normalize_key_cells (columns_to_check cols : list string) (row : list cell) :
  normalize (length (List.filter (fun c => in_list c columns_to_check) cols))
            (key_cells columns_to_check cols row)
  = key_cells columns_to_check cols row.
Proof. rewrite <- (key_cells_length columns_to_check cols row). apply normalize_id. Qed.

Lemma existing_combinations_unfold (E : Env) (tracking T1 : DataFrame) (j : nat)
    (columns_to_check : list string) :
  convert_column "DeliveryDate" (to_date E) tracking = Ok T1 ->
  index_of "SuccessIndicator" (columns T1) 0 = Some j ->
  existing_combinations E tracking columns_to_check
  = Ok (drop_duplicates
          (project (mkDF (columns T1)
                         (List.filter (fun r => negb (cell_eqb (cell_of r j) (VStr "Error")))
                                      (data T1)))
                   columns_to_check)).
Proof.
  intros Hc Hj. unfold existing_combinations. rewrite Hc. simpl.
  unfold not_error_rows. rewrite Hj. simpl.
  by rewrite (drop_others_is_project (mkDF (columns T1) _)).
Qed.

Lemma existing_rows (T1 : DataFrame) (j : nat) (columns_to_check : list string)
    (r : list cell) :
  r ∈ data (drop_duplicates
              (project (mkDF (columns T1)
                          (List.filter (fun r => negb (cell_eqb (cell_of r j) (VStr "Error")))
                                       (data T1)))
                       columns_to_check))
  <-> exists row, row ∈ data T1 /\ cell_of row j <> Some (VStr "Error") /\
                  r = key_cells columns_to_check (columns T1) row.
Proof.
  unfold drop_duplicates, project, select_columns. simpl. split.
  - intros H. apply keep_first_elem in H as [H _].
    apply list_elem_of_fmap in H as (row & -> & Hrow).
    apply list_elem_of_In, filter_In in Hrow as [Hin Hne].
    exists row. split; [by apply list_elem_of_In |]. split; [|done].
    apply negb_true_iff in Hne. unfold cell_eqb in Hne.
    by apply bool_decide_eq_false in Hne.
  - intros (row & Hin & Hne & ->). apply keep_first_elem. split; [|intros H; inversion H].
    apply list_elem_of_fmap. exists row. split; [done |].
    apply list_elem_of_In, filter_In. split; [by apply list_elem_of_In |].
    apply negb_true_iff. unfold cell_eqb. by apply bool_decide_eq_false.
Qed.

Lemma eq_all_any_false (df : DataFrame) (key : list value) :
  length key = length (columns df) ->
  (forall r, r ∈ data df ->
     ~ Forall2 (fun c k => c = Some k) (normalize (length (columns df)) r) key) ->
  eq_all_any df key = Ok false.
Proof.
  intros Hlen Hnone. unfold eq_all_any. rewrite bool_decide_eq_true_2 by done.
  f_equal. apply not_true_is_false. intros H.
  apply existsb_exists in H as (r & Hin & Hr).
  apply (Hnone r); [by apply list_elem_of_In | by apply row_eqb_Forall2].
Qed.

(** A combination whose ledger entries all record an error is not in the
    skip-set. *)
Lemma skip_set_without_errors (E : Env) (a : Download.Args) (tracking T1 skip : DataFrame)
    (j : nat) (key : list value) :
  convert_column "DeliveryDate" (to_date E) tracking = Ok T1 ->
  index_of "SuccessIndicator" (columns T1) 0 = Some j ->
  Download.skip_set E a tracking = Ok skip ->
  length key = length (columns skip) ->
  (forall row r, row ∈ data T1 ->
     Download.ledger_key E a (columns T1) row = Ok r ->
     Forall2 (fun c k => c = Some k) r key ->
     cell_of row j = Some (VStr "Error")) ->
  Download.archive_check (Some skip) key = Ok false.
Proof.
  intros Hc Hj Hskip Hlen Honly. unfold Download.archive_check, check_existing_combinations.
  apply eq_all_any_false; [done |]. intros r' Hin Hmatch.
  unfold Download.skip_set in Hskip. unfold Download.ledger_key in Honly.
  destruct (Download.is_continuous a).
  - rewrite (existing_combinations_unfold E tracking T1 j _ Hc Hj) in Hskip.
    injection Hskip as <-. apply existing_rows in Hin as (row & Hrow & Hne & ->).
    apply Hne, (Honly row _ Hrow eq_refl).
    pose proof (normalize_key_cells Download.continuous_key_columns (columns T1) row)
      as Hn.
    unfold drop_duplicates, project, select_columns in Hmatch. cbn [columns] in Hmatch.
    by rewrite Hn in Hmatch.
  - rewrite (existing_combinations_unfold E tracking T1 j _ Hc Hj) in Hskip.
    simpl in Hskip. apply convert_column_Ok in Hskip as [Hcols Hrows].
    apply list_elem_of_lookup in Hin as [i Hi].
    destruct (Forall2_lookup_r _ _ _ _ _ Hrows Hi) as (r & Hr & Hconv).
    apply list_elem_of_lookup_2, existing_rows in Hr as (row & Hrow & Hne & ->).
    apply Hne, (Honly row r' Hrow).
    + exact Hconv.
    + revert Hmatch. rewrite Hcols.
      rewrite <- (convert_row_length _ _ _ _ _ Hconv). by rewrite normalize_id.
Qed.

Lemma value_clean_world (a : Download.Args) (v : value) (w w1 : World)
    (r : Res (option string)) :
  Download.value_clean a v w = (r, w1) -> w1 = w.
Proof.
  unfold Download.value_clean, Download.value_contains.
  destruct (Download.is_dayahead a); [by intros [= _ <-] |].
  destruct (Download.is_intraday a); [|by intros [= _ <-]].
  destruct v as [s|z|d]; simpl.
  - repeat (match goal with |- context [if ?b then _ else _] => destruct b end);
      unfold bind, ret; simpl;
      repeat (match goal with |- context [if ?b then _ else _] => destruct b end);
      by intros [= _ <-].
  - unfold bind, raise. simpl. by intros [= _ <-].
  - unfold bind, raise. simpl. by intros [= _ <-].
Qed.

Lemma value_clean_some (a : Download.Args) (v : value) (w w1 : World)
    (clean : option string) :
  Download.is_dayahead a || Download.is_intraday a = true ->
  Download.value_clean a v w = (Ok clean, w1) ->
  exists x, clean = Some x.
Proof.
  unfold Download.value_clean, Download.value_contains. intros Ht.
  destruct (Download.is_dayahead a); [intros [= <- _]; eauto |].
  destruct (Download.is_intraday a); [|discriminate].
  destruct v as [s|z|d]; simpl.
  - repeat (match goal with |- context [if ?b then _ else _] => destruct b end);
      unfold bind, ret; simpl;
      repeat (match goal with |- context [if ?b then _ else _] => destruct b end);
      intros [= <- _]; eauto.
  - unfold bind, raise. simpl. discriminate.
  - unfold bind, raise. simpl. discriminate.
Qed.

Lemma snd_bind_ret_fun {S A B} (m : M S A) (f : A -> B) (s : S) :
  snd (bind m (fun a => ret (f a)) s) = snd (m s).
Proof. unfold bind, ret. by destruct (m s) as [[x|e] s']. Qed.

Lemma bind_tail {A B} (q : event -> bool) (m : M World A) (k : A -> M World B) (w : World) :
  (forall a, emits q (k a)) -> extends q (snd (m w)) (snd (bind m k w)).
Proof.
  intros Hk. unfold bind. destruct (m w) as [[a|e] w1]; simpl; [|apply extends_refl].
  apply (Hk a w1).
Qed.

Lemma emits_track_and_pace (a : Download.Args) (c : Download.Combination) (t : string)
    (final : indicator) :
  emits any_event (Download.track_and_pace a c t final).
Proof.
  unfold Download.track_and_pace.
  apply emits_bind.
  { destruct (is_error final); [|traces].
    apply emits_bind; [by apply emits_os_path_exists |].
    intros present. destruct (negb present); [by apply emits_os_makedirs | traces]. }
  intros _. apply emits_bind; [traces |]. intros row.
  apply emits_bind; [by apply emits_update_tracking_file |].
  intros _. by apply emits_time_sleep.
Qed.

(** The types [download] documents have a branch for the URL and one for
    the request. *)
Lemma known_type_branches (a : Download.Args) :
  Download.known_type a = true ->
  Download.is_table a = true \/
  (Download.is_table a = false /\ Download.is_continuous a = true) \/
  (Download.is_table a = false /\ Download.is_continuous a = false /\
   Download.is_aggregated a = true /\
   Download.is_dayahead a || Download.is_intraday a = true).
Proof.
  unfold Download.known_type, Download.is_table, Download.is_continuous,
    Download.is_aggregated, Download.is_dayahead, Download.is_intraday.
  destruct (String.eqb (Download.type_ a) "dayahead") eqn:E1; [by left |].
  destruct (String.eqb (Download.type_ a) "intraday") eqn:E2; [by left |].
  destruct (String.eqb (Download.type_ a) "continuous") eqn:E3; [right; by left |].
  simpl. intros H. right. right.
  apply orb_true_iff in H as [H|H]; apply String.eqb_eq in H; rewrite H; by vm_compute.
Qed.

Lemma table_is_dayahead_or_intraday (a : Download.Args) :
  Download.is_table a = true -> Download.is_dayahead a || Download.is_intraday a = true.
Proof.
  unfold Download.is_table, Download.is_dayahead, Download.is_intraday.
  destruct (String.eqb (Download.type_ a) "dayahead"); [done |].
  destruct (String.eqb (Download.type_ a) "intraday"); [|done].
  intros _. by rewrite orb_true_r.
Qed.

(** An attempt of a documented type requests the page first. *)
Lemma attempt_requests_page (E : Env) (a : Download.Args) (c : Download.Combination)
    (v : value) (clean : option string) (w0 w0' w : World) :
  Download.known_type a = true ->
  Download.value_clean a v w0 = (Ok clean, w0') ->
  exists url rest,
    trace (snd (Download.attempt E a c clean w)) = trace w ++ EFetch url :: rest.
Proof.
  intros Hknown Hclean.
  assert (Hurl : exists url,
            Download.url_of a c clean w = (Ok (Some url), w) /\
            trace (snd (Download.fetch E a (Some url)
                          (mkWorld (fs w) (dirs w) (S (clock w)) (trace w))))
            = trace w ++ [EFetch url]).
  { unfold Download.url_of, Download.fetch.
    destruct (known_type_branches a Hknown) as [Ht | [[Ht Hc] | (Ht & Hc & Ha & Hd)]].
    - rewrite Ht.
      destruct (value_clean_some a v w0 w0' clean
                  (table_is_dayahead_or_intraday a Ht) Hclean) as [x ->].
      eexists. split; [reflexivity |].
      unfold try_except, bind, lift_res, bound, extract_soup, bind, emit, tick,
        lift_res, ret. simpl.
      by destruct (page E _ _).
    - rewrite Ht, Hc. eexists. split; [reflexivity |].
      rewrite orb_true_r.
      unfold try_except, bind, lift_res, bound, extract_soup_aggregated_curves, bind,
        emit, tick, lift_res, ret. simpl.
      by destruct (page_aggregated E _ _).
    - rewrite Ht, Hc, Ha.
      destruct (value_clean_some a v w0 w0' clean Hd Hclean) as [x ->].
      eexists. split; [reflexivity |]. simpl.
      unfold try_except, bind, lift_res, bound, extract_soup_aggregated_curves, bind,
        emit, tick, lift_res, ret. simpl.
      by destruct (page_aggregated E _ _). }
  destruct Hurl as (url & Hurl & Hfetch).
  exists url. unfold Download.attempt. unfold bind at 1. rewrite Hurl.
  unfold bind at 1. unfold now at 1, bind at 1, tick at 1, ret at 1.
  cbn [fst snd].
  match goal with
  | |- context [bind (Download.fetch E a (Some url)) ?k ?w1] =>
      pose proof (bind_tail any_event (Download.fetch E a (Some url)) k w1) as Htail
  end.
  destruct Htail as (rest & Ht & _ & _).
  - intros [soup ok]. destruct (Download.last_update_of E soup ok) as [text ok'].
    apply emits_bind; [traces |]. intros [ok'' found].
    apply emits_bind.
    { eapply emits_weaken; [|apply emits_store]. done. }
    intros final. apply emits_bind; [apply emits_track_and_pace | intros ?; traces].
  - exists rest. rewrite Ht, Hfetch. by rewrite <- app_assoc.
Qed.

(** ** The page extractors *)

Lemma filter_cons_eq {A} (f : A -> bool) (x : A) (l : list A) :
  List.filter f (x :: l) = if f x then x :: List.filter f l else List.filter f l.
Proof. reflexivity. Qed.

Lemma row_numbers_filter (float : string -> option Z) (cells : list node) :
  row_numbers float cells
  = List.filter (fun c : cell => negb (isna c)) (row_numbers_continuous float cells).
Proof.
  induction cells as [|cell rest IH]; [done |]. simpl.
  destruct (String.eqb _ _); [done |].
  destruct (number_of float cell); simpl; by rewrite IH.
Qed.

Lemma table_rows_filter (float : string -> option Z) (rows : list node) :
  table_rows (row_numbers float) rows
  = List.filter (fun r : list cell => (0 <? length r)%nat)
      (map (List.filter (fun c : cell => negb (isna c)))
           (table_rows (row_numbers_continuous float) rows)).
Proof.
  induction rows as [|row rest IH]; [done |]. simpl.
  rewrite row_numbers_filter.
  destruct (row_numbers_continuous float (find_all "td" None row)) as [|c r] eqn:Hc.
  - simpl. exact IH.
  - change (0 <? length (c :: r))%nat with true. cbv iota.
    rewrite map_cons, IH.
    set (kept := List.filter (fun c0 : cell => negb (isna c0)) (c :: r)).
    by rewrite (filter_cons_eq (fun r0 : list cell => (0 <? length r0)%nat)).
Qed.

(** X1. What [extract_volume_and_price_data] returns is what
    [extract_volume_and_price_data_continuous] returns for the same page
    with the missing cells left out and the rows that are then empty
    dropped; the two raise on the same pages. *)
Theorem extract_volume_and_price_data_of_continuous (float : string -> option Z)
    (soup : node) :
  DownloaderUtils.extract_volume_and_price_data float soup
  = res_map (fun data =>
               List.filter (fun r : list cell => (0 <? length r)%nat)
                 (map (List.filter (fun c : cell => negb (isna c))) data))
            (DownloaderUtils.extract_volume_and_price_data_continuous float soup).
Proof.
  unfold DownloaderUtils.extract_volume_and_price_data,
    DownloaderUtils.extract_volume_and_price_data_continuous.
  destruct (find "table" (Some "table-01") soup) as [table|]; simpl; [|done].
  by rewrite table_rows_filter.
Qed.

Lemma row_numbers_present (float : string -> option Z) (cells : list node) :
  Forall (fun c : cell => isna c = false) (row_numbers float cells).
Proof.
  induction cells as [|cell rest IH]; simpl; [constructor |].
  destruct (String.eqb _ _); [done |].
  destruct (number_of float cell); [by constructor | done].
Qed.

Lemma table_rows_nonempty (cells_of : list node -> list cell) (rows : list node) :
  Forall (fun r : list cell => r <> []) (table_rows cells_of rows)
  /\ length (table_rows cells_of rows) <= length rows.
Proof.
  induction rows as [|row rest [IH1 IH2]]; simpl; [split; [constructor | lia] |].
  destruct (cells_of _) as [|c r] eqn:Hc; simpl.
  - split; [done | lia].
  - split; [by constructor | lia].
Qed.

Lemma table_rows_Forall (P : list cell -> Prop) (cells_of : list node -> list cell)
    (rows : list node) :
  (forall cells, P (cells_of cells)) -> Forall P (table_rows cells_of rows).
Proof.
  intros HP. induction rows as [|row rest IH]; simpl; [constructor |].
  destruct (0 <? _)%nat; [by constructor | done].
Qed.

(** Every entry of a row is the number that [float] gave for one of the
    cells, and there is at most one entry per cell. *)
Lemma row_numbers_from_cells (float : string -> option Z) (cells : list node) :
  Forall (fun c : cell =>
            exists td z, td ∈ cells /\ number_of float td = Some z /\ c = Some (VNum z))
         (row_numbers float cells)
  /\ length (row_numbers float cells) <= length cells.
Proof.
  induction cells as [|td0 rest [IH Hlen]]; simpl; [split; [constructor | lia] |].
  assert (Hrest : Forall (fun c : cell =>
                     exists td z, td ∈ td0 :: rest /\ number_of float td = Some z /\
                                  c = Some (VNum z))
                    (row_numbers float rest)).
  { eapply Forall_impl; [exact IH |]. intros c (td & z & Hin & Hz & ->).
    exists td, z. split; [by apply list_elem_of_further | done]. }
  destruct (String.eqb _ _); [split; [done | lia] |].
  destruct (number_of float td0) as [z|] eqn:Hz; [|split; [done | lia]].
  split; [|simpl; lia]. constructor; [|done].
  exists td0, z. split; [apply list_elem_of_here | done].
Qed.

(** Every row that is kept is what the cells of one table row gave. *)
Lemma table_rows_from_rows (cells_of : list node -> list cell) (rows : list node) :
  Forall (fun r : list cell =>
            exists row, row ∈ rows /\ r = cells_of (find_all "td" None row))
         (table_rows cells_of rows).
Proof.
  induction rows as [|row rest IH]; simpl; [constructor |].
  assert (Hrest : Forall (fun r : list cell =>
                     exists row', row' ∈ row :: rest /\
                                  r = cells_of (find_all "td" None row'))
                    (table_rows cells_of rest)).
  { eapply Forall_impl; [exact IH |]. intros r (row' & Hin & ->).
    exists row'. split; [by apply list_elem_of_further | done]. }
  destruct (0 <? _)%nat; [|done].
  constructor; [|done]. exists row. split; [apply list_elem_of_here | done].
Qed.

(** X2. [extract_volume_and_price_data] raises exactly when the page has
    no [table] of class [table-01]; otherwise it returns at most one row
    per [tr] of the table, none of them empty.  Each row comes from one
    [tr] and holds nothing but numbers that [float] returned for [td]
    cells of that [tr], at most one for each cell: never [None] and never
    a text, whatever the cells hold. *)
Theorem extract_volume_and_price_data_rows (float : string -> option Z) (soup : node) :
  match find "table" (Some "table-01") soup with
  | None => Utils.extract_volume_and_price_data float soup = Raise AttributeError
  | Some table =>
      exists data,
        Utils.extract_volume_and_price_data float soup = Ok data
        /\ length data <= length (find_all "tr" None table)
        /\ Forall (fun r : list cell =>
                     r <> []
                     /\ exists row,
                          row ∈ find_all "tr" None table
                          /\ length r <= length (find_all "td" None row)
                          /\ Forall (fun c : cell =>
                                       exists td z,
                                         td ∈ find_all "td" None row
                                         /\ number_of float td = Some z
                                         /\ c = Some (VNum z)) r)
                  data
  end.
Proof.
  unfold Utils.extract_volume_and_price_data.
  destruct (find "table" (Some "table-01") soup) as [table|]; simpl; [|done].
  eexists. split; [done |].
  pose proof (table_rows_nonempty (row_numbers float) (find_all "tr" None table))
    as [Hne Hlen].
  split; [exact Hlen |].
  apply Forall_and. split; [exact Hne |].
  eapply Forall_impl; [apply table_rows_from_rows |].
  intros r (row & Hin & ->). exists row. split; [done |].
  destruct (row_numbers_from_cells float (find_all "td" None row)) as [Hall Hl].
  split; [exact Hl | exact Hall].
Qed.

Lemma span_text_find (row : node) :
  span_text row
  = match find "span" None row with
    | Some span => Ok (replace "," "" (strip (get_text span)))
    | None => Raise AttributeError
    end.
Proof. unfold span_text. by destruct (find "span" None row). Qed.

Lemma base_peak_rows_returns (float : string -> option Z) (rows : list node)
    (b0 p0 : cell) :
  (exists bp, base_peak_rows float rows b0 p0 = Ok bp)
  <-> Forall (row_readable float) rows.
Proof.
  revert b0 p0. induction rows as [|row rest IH]; intros b0 p0; simpl.
  { split; [constructor | eauto]. }
  rewrite !span_text_find. split.
  - intros [bp H]. unfold row_readable, number_of.
    destruct (th_mentions "Baseload" row) eqn:HB, (th_mentions "Peakload" row) eqn:HP,
      (find "span" None row) as [span|] eqn:Hs; simpl in H; unfold to_float in H;
      try destruct (float _) as [z|] eqn:Hz; simpl in H; try discriminate H.
    all: constructor; [|eapply IH; eexists; exact H].
    all: split; intros ?; try congruence; eauto.
  - intros HF. apply Forall_cons in HF as [[Hb Hp] HF]. unfold number_of, replace in Hb.
    destruct (th_mentions "Baseload" row) eqn:HB.
    + destruct (Hb eq_refl) as (span & z & Hs & Hz). rewrite Hs. simpl.
      unfold to_float. rewrite Hz. simpl.
      destruct (th_mentions "Peakload" row); by apply IH.
    + destruct (th_mentions "Peakload" row) eqn:HP; [|by apply IH].
      destruct (Hp eq_refl) as (span & Hs). rewrite Hs. simpl. unfold to_float.
      destruct (float _); simpl; by apply IH.
Qed.

(** X3. [extract_baseload_peakload] returns exactly when every table row
    whose header names the base load has a [span] that holds a number, and
    every row whose header names the peak load has a [span]: a base load
    that is no number raises, a peak load that is no number does
    not. *)
Theorem extract_baseload_peakload_returns (float : string -> option Z) (soup : node) :
  (exists base_peak, Utils.extract_baseload_peakload float soup = Ok base_peak)
  <-> forall row, row ∈ find_all "tr" None soup ->
        (th_mentions "Baseload" row = true ->
         exists span z, find "span" None row = Some span
                        /\ number_of float span = Some z)
        /\ (th_mentions "Peakload" row = true ->
            exists span, find "span" None row = Some span).
Proof.
  unfold Utils.extract_baseload_peakload.
  rewrite base_peak_rows_returns, Forall_forall. reflexivity.
Qed.

Lemma base_peak_rows_missing (float : string -> option Z) (rows : list node)
    (b0 p0 b p : cell) :
  base_peak_rows float rows b0 p0 = Ok (b, p) ->
  (b = None <-> b0 = None /\ Forall (fun row => th_mentions "Baseload" row = false) rows)
  /\ (p = None <-> p0 = None /\ Forall (fun row => th_mentions "Peakload" row = false) rows)
  /\ (forall s, b0 <> Some (VStr s) -> b <> Some (VStr s)).
Proof.
  revert b0 p0. induction rows as [|row rest IH]; intros b0 p0; simpl.
  { intros [= <- <-]. repeat split; try tauto; intros; by try constructor. }
  rewrite !span_text_find. intros H.
  destruct (th_mentions "Baseload" row) eqn:HB, (th_mentions "Peakload" row) eqn:HP,
    (find "span" None row) as [span|] eqn:Hs; simpl in H; unfold to_float in H;
    try destruct (float _) as [z|] eqn:Hz; simpl in H; try discriminate H.
  all: apply IH in H as (Hb & Hp & Hstr).
  all: rewrite !Forall_cons, HB, HP.
  all: split; [|split]; [rewrite Hb | rewrite Hp | ]; try (intuition congruence).
  all: intros s Hs0; apply Hstr; congruence.
Qed.

(** X4. In what [extract_baseload_peakload] returns, the base load is
    missing exactly when no table row names it in its header, and so is
    the peak load; the base load is never a text. *)
Theorem extract_baseload_peakload_missing (float : string -> option Z) (soup : node)
    (baseload peakload : cell) :
  Utils.extract_baseload_peakload float soup = Ok (baseload, peakload) ->
  (baseload = None
   <-> forall row, row ∈ find_all "tr" None soup -> th_mentions "Baseload" row = false)
  /\ (peakload = None
      <-> forall row, row ∈ find_all "tr" None soup -> th_mentions "Peakload" row = false)
  /\ (forall s, baseload <> Some (VStr s)).
Proof.
  unfold Utils.extract_baseload_peakload. intros H.
  apply base_peak_rows_missing in H as (Hb & Hp & Hs).
  rewrite Hb, Hp, !Forall_forall. repeat split; try tauto.
  intros s. by apply Hs.
Qed.

Lemma extract_baseload_peakload_missing_witness :
  (Some (VNum 5000) = None
   <-> forall row, row ∈ find_all "tr" None example_loads_dash ->
                   th_mentions "Baseload" row = false)
  /\ (Some (VStr "-") = None
      <-> forall row, row ∈ find_all "tr" None example_loads_dash ->
                      th_mentions "Peakload" row = false)
  /\ (forall s, Some (VNum 5000) <> Some (VStr s)).
Proof.
  apply (extract_baseload_peakload_missing example_float example_loads_dash).
  reflexivity.
Defined.

(** ** Strings *)

Lemma app_cons (c : ascii) (s t : string) : String c s +:+ t = String c (s +:+ t).
Proof. reflexivity. Qed.

Lemma app_empty_l (t : string) : "" +:+ t = t.
Proof. reflexivity. Qed.

Lemma string_app_assoc (s t u : string) : (s +:+ t) +:+ u = s +:+ (t +:+ u).
Proof. induction s as [|c s IH]; [done |]. by rewrite !app_cons, IH. Qed.

Lemma no_whitespace_app (s t : string) :
  no_whitespace (s +:+ t) = no_whitespace s && no_whitespace t.
Proof.
  induction s as [|c s IH]; [done |]. rewrite app_cons. simpl.
  by rewrite IH, andb_assoc.
Qed.

Lemma app_not_empty (s : string) (c : ascii) : String.eqb (s +:+ String c "") "" = false.
Proof. by destruct s. Qed.

Lemma split_from_words (word s : string) :
  no_whitespace word = true -> forallb is_word (split_from word s) = true.
Proof.
  revert word. induction s as [|c s IH]; intros word Hw; simpl.
  - unfold is_word. destruct (String.eqb word "") eqn:He; simpl; [done |].
    by rewrite He, Hw.
  - destruct (is_space c) eqn:Hc.
    + destruct (String.eqb word "") eqn:He; simpl; [by apply IH |].
      unfold is_word at 1. rewrite He, Hw. simpl. by apply IH.
    + apply IH. rewrite no_whitespace_app, Hw. simpl. by rewrite Hc.
Qed.

(** X5. The text that [extract_last_update] returns is made of words
    separated by single blanks: it has no line break, no tab, no blank at
    either end and no two blanks in a row, whatever the page holds. *)
Theorem extract_last_update_words (soup : node) (text : string) :
  Utils.extract_last_update soup = Ok text
  \/ DownloaderUtils.extract_last_update soup = Ok text ->
  exists words, text = String.concat " " words /\ forallb is_word words = true.
Proof.
  assert (H : forall element,
             exists words, cleaned_text element = String.concat " " words
                           /\ forallb is_word words = true).
  { intros element. unfold cleaned_text. eexists. split; [reflexivity |].
    by apply split_from_words. }
  unfold Utils.extract_last_update, DownloaderUtils.extract_last_update.
  destruct (find "span" (Some "last-update") soup) as [span|].
  - intros [[= <-]|[= <-]]; apply H.
  - destruct (find "div" (Some "last-update") soup) as [div|].
    + intros [[=]|[= <-]]. apply H.
    + by intros [[=]|[=]].
Qed.

Lemma extract_last_update_words_witness :
  exists words, "13 January 2025" = String.concat " " words
                /\ forallb is_word words = true.
Proof.
  apply (extract_last_update_words example_page). left. reflexivity.
Defined.

Lemma rev_app_app (s t u : string) :
  String.rev_app s t +:+ u = String.rev_app s (t +:+ u).
Proof. revert t. induction s as [|c s IH]; intros t; [done |]. simpl. by rewrite IH. Qed.

Lemma rev_app_of_app (s t u : string) :
  String.rev_app (s +:+ t) u = String.rev_app t (String.rev_app s u).
Proof.
  revert u. induction s as [|c s IH]; intros u; [done |].
  rewrite app_cons. simpl. apply IH.
Qed.

Lemma rev_app_distr (s t : string) : String.rev (s +:+ t) = String.rev t +:+ String.rev s.
Proof. unfold String.rev. by rewrite rev_app_of_app, rev_app_app. Qed.

Lemma rev_app_rev_app (s t u : string) :
  String.rev_app (String.rev_app s t) u = String.rev_app t (s +:+ u).
Proof.
  revert t u. induction s as [|c s IH]; intros t u; [done |]. simpl. rewrite IH. done.
Qed.

Lemma rev_involutive (s : string) : String.rev (String.rev s) = s.
Proof. unfold String.rev. rewrite rev_app_rev_app. simpl. apply append_empty_r. Qed.

Lemma lstrip_clean (s : string) : starts_clean s = true -> lstrip s = s.
Proof. destruct s as [|c s]; [done |]. simpl. by intros ->%negb_true_iff. Qed.

Lemma lstrip_starts_clean (s : string) : starts_clean (lstrip s) = true.
Proof.
  induction s as [|c s IH]; [done |]. simpl.
  destruct (is_space c) eqn:Hc; [done |]. simpl. by rewrite Hc.
Qed.

Lemma lstrip_blank (b s : string) : is_blank b = true -> lstrip (b +:+ s) = lstrip s.
Proof.
  induction b as [|c b IH]; [done |]. simpl. intros [Hc Hb]%andb_true_iff.
  rewrite Hc. by apply IH.
Qed.

Lemma starts_clean_app (s t : string) :
  starts_clean s = true -> s <> "" -> starts_clean (s +:+ t) = true.
Proof. by destruct s. Qed.

Lemma app_not_empty_l (s t : string) : s <> "" -> s +:+ t <> "".
Proof. by destruct s. Qed.

Lemma rev_not_empty (s : string) : s <> "" -> String.rev s <> "".
Proof.
  intros Hs Hr. apply Hs. rewrite <- (rev_involutive s), Hr. done.
Qed.

Lemma no_whitespace_rev (s : string) : no_whitespace (String.rev s) = no_whitespace s.
Proof.
  induction s as [|c s IH]; [done |].
  change (String c s) with (String c "" +:+ s) at 1.
  rewrite rev_app_distr, no_whitespace_app, IH. simpl.
  by rewrite andb_true_r, andb_comm.
Qed.

Lemma no_whitespace_starts_clean (s : string) :
  no_whitespace s = true -> starts_clean s = true.
Proof. destruct s as [|c s]; [done |]. simpl. by intros [? _]%andb_true_iff. Qed.

Lemma is_word_inv (w : string) :
  is_word w = true -> w <> "" /\ no_whitespace w = true.
Proof.
  unfold is_word. intros [Hne Hw]%andb_true_iff. split; [|done].
  intros ->. done.
Qed.

Lemma concat_cons2 (sep x y : string) (l : list string) :
  String.concat sep (x :: y :: l) = x +:+ sep +:+ String.concat sep (y :: l).
Proof. reflexivity. Qed.

(** Words joined by single blanks start and end with a character that is
    no whitespace. *)
Lemma joined_words_clean (words : list string) :
  forallb is_word words = true -> words <> [] ->
  let joined := String.concat " " words in
  joined <> "" /\ starts_clean joined = true /\ starts_clean (String.rev joined) = true.
Proof.
  induction words as [|w rest IH]; [done |]. intros Hws _.
  simpl in Hws. apply andb_true_iff in Hws as [Hw Hrest].
  apply is_word_inv in Hw as [Hne Hw].
  destruct rest as [|w2 rest].
  - simpl. split; [done |]. split; [by apply no_whitespace_starts_clean |].
    apply no_whitespace_starts_clean. by rewrite no_whitespace_rev.
  - destruct (IH Hrest) as (Hj & _ & Hr); [done |].
    rewrite concat_cons2. cbv zeta. split; [by apply app_not_empty_l |].
    split; [apply starts_clean_app; [by apply no_whitespace_starts_clean | done] |].
    rewrite !rev_app_distr, string_app_assoc.
    apply starts_clean_app; [done | by apply rev_not_empty].
Qed.

Lemma strip_joined_words (words : list string) :
  forallb is_word words = true ->
  strip (String.concat " " words) = String.concat " " words.
Proof.
  intros Hws. destruct words as [|w rest]; [done |].
  destruct (joined_words_clean (w :: rest) Hws) as (_ & Hs & Hr); [done |].
  unfold strip. rewrite (lstrip_clean _ Hs), (lstrip_clean _ Hr).
  apply rev_involutive.
Qed.

Lemma lstrip_rev_blank (s b : string) :
  is_blank b = true -> lstrip (String.rev (s +:+ b)) = lstrip (String.rev s).
Proof.
  intros Hb. rewrite rev_app_distr. apply lstrip_blank.
  clear s. induction b as [|c b IH]; [done |].
  simpl in Hb. apply andb_true_iff in Hb as [Hc Hb].
  change (String c b) with (String c "" +:+ b).
  rewrite rev_app_distr.
  assert (Happ : forall x y, is_blank x = true -> is_blank y = true ->
                             is_blank (x +:+ y) = true).
  { intros x y Hx Hy. induction x as [|d x IHx]; [done |].
    simpl in Hx. apply andb_true_iff in Hx as [Hd Hx].
    rewrite app_cons. simpl. by rewrite Hd, IHx. }
  apply Happ; [by apply IH |]. simpl. by rewrite Hc.
Qed.

(** [strip] removes the whitespace around words joined by blanks. *)
Lemma strip_around (b1 b2 : string) (words : list string) :
  is_blank b1 = true -> is_blank b2 = true -> forallb is_word words = true ->
  strip (b1 +:+ String.concat " " words +:+ b2) = String.concat " " words.
Proof.
  intros H1 H2 Hws. unfold strip. rewrite lstrip_blank by done.
  destruct words as [|w rest].
  - simpl.
    assert (Hl : lstrip b2 = "").
    { clear H1. induction b2 as [|c b IH]; [done |]. simpl in *.
      apply andb_true_iff in H2 as [-> Hb]. by apply IH. }
    by rewrite app_empty_l, Hl.
  - destruct (joined_words_clean (w :: rest) Hws) as (Hne & Hs & Hr); [done |].
    rewrite (lstrip_clean (String.concat " " (w :: rest) +:+ b2))
      by (by apply starts_clean_app).
    rewrite lstrip_rev_blank by done.
    rewrite (lstrip_clean _ Hr). apply rev_involutive.
Qed.

Lemma replace_from_skip (old new s t : string) :
  replace_from old new (String.length s) (s +:+ t) = replace_from old new 0 t.
Proof. induction s as [|c s IH]; [by destruct t |]. rewrite app_cons. simpl. exact IH. Qed.

Lemma prefix_app (s t : string) : String.prefix s (s +:+ t) = true.
Proof.
  induction s as [|c s IH]; [by destruct t |]. rewrite app_cons. simpl.
  by destruct (ascii_dec c c).
Qed.

Lemma replace_from_prefix (c : ascii) (old new t : string) :
  replace_from (String c old) new 0 (String c old +:+ t)
  = new +:+ replace_from (String c old) new 0 t.
Proof.
  rewrite app_cons. cbn [replace_from].
  rewrite <- app_cons, prefix_app. f_equal.
  assert (Hl : String.length (String c old) - 1 = String.length old)
    by (simpl; lia).
  rewrite Hl. apply replace_from_skip.
Qed.

Lemma replace_from_absent (old new s : string) :
  contains old s = false -> replace_from old new 0 s = s.
Proof.
  induction s as [|c s IH]; [done |]. cbn [contains replace_from].
  intros [-> Hs]%orb_false_iff. by rewrite IH.
Qed.

Lemma replace_from_blank (c : ascii) (old new b t : string) :
  is_space c = false -> is_blank b = true ->
  replace_from (String c old) new 0 (b +:+ t) = b +:+ replace_from (String c old) new 0 t.
Proof.
  intros Hc. induction b as [|d b IH]; [done |]. simpl is_blank.
  intros [Hd Hb]%andb_true_iff. rewrite !app_cons. cbn [replace_from String.prefix].
  destruct (ascii_dec c d) as [->|_]; [congruence |]. by rewrite IH.
Qed.

Lemma replace_from_lacks (c : ascii) (new s : string) :
  lacks c s = true -> replace_from (String c "") new 0 s = s.
Proof.
  induction s as [|d s IH]; [done |]. simpl lacks.
  intros [Hd Hs]%andb_true_iff. cbn [replace_from String.prefix].
  apply negb_true_iff, Ascii.eqb_neq in Hd.
  destruct (ascii_dec c d); [done |]. by rewrite IH.
Qed.

Lemma lacks_app (c : ascii) (s t : string) : lacks c (s +:+ t) = lacks c s && lacks c t.
Proof.
  induction s as [|d s IH]; [done |]. rewrite app_cons. simpl.
  by rewrite IH, andb_assoc.
Qed.

Lemma no_whitespace_lacks (c : ascii) (s : string) :
  is_space c = true -> no_whitespace s = true -> lacks c s = true.
Proof.
  intros Hc. induction s as [|d s IH]; [done |]. simpl.
  intros [Hd Hs]%andb_true_iff. rewrite IH by done. rewrite andb_true_r.
  apply negb_true_iff, Ascii.eqb_neq. intros ->. by rewrite Hc in Hd.
Qed.

Lemma joined_words_lack_newline (words : list string) :
  forallb is_word words = true -> lacks "010"%char (String.concat " " words) = true.
Proof.
  induction words as [|w rest IH]; [done |]. simpl forallb.
  intros [[_ Hw]%is_word_inv Hrest]%andb_true_iff.
  destruct rest as [|w2 rest]; [by apply no_whitespace_lacks |].
  rewrite concat_cons2, !lacks_app, IH by done.
  by rewrite no_whitespace_lacks.
Qed.

Lemma split_from_word (acc w s : string) :
  no_whitespace w = true -> split_from acc (w +:+ s) = split_from (acc +:+ w) s.
Proof.
  revert acc. induction w as [|c w IH]; intros acc; [by rewrite append_empty_r |].
  simpl no_whitespace. intros [Hc Hw]%andb_true_iff. apply negb_true_iff in Hc.
  rewrite app_cons. cbn [split_from]. rewrite Hc, IH by done.
  by rewrite string_app_assoc.
Qed.

(** [split] undoes the joining of words by single blanks. *)
Lemma split_joined_words (words : list string) :
  forallb is_word words = true -> split_ws (String.concat " " words) = words.
Proof.
  unfold split_ws. induction words as [|w rest IH]; [done |]. simpl forallb.
  intros [[Hne Hw]%is_word_inv Hrest]%andb_true_iff.
  assert (He : String.eqb w "" = false) by (by apply String.eqb_neq).
  destruct rest as [|w2 rest].
  - simpl String.concat. rewrite <- (append_empty_r w) at 1.
    rewrite split_from_word by done. rewrite app_empty_l. simpl. by rewrite He.
  - rewrite concat_cons2, split_from_word by done. rewrite app_empty_l.
    rewrite app_cons. cbn [split_from]. simpl is_space. rewrite He, app_empty_l.
    by rewrite IH.
Qed.

(** X6. For a last-update element whose text is the label [Last update:],
    whitespace, and words of ASCII characters separated by single blanks,
    [extract_last_update] returns exactly those words: the label and the
    whitespace around the words are removed and nothing else is changed.
    The words are ASCII so that they hold none of the whitespace that
    Python knows beyond ASCII, at which [split] would break them. *)
Theorem extract_last_update_removes_label (soup last_update_span : node)
    (blank : string) (words : list string) :
  find "span" (Some "last-update") soup = Some last_update_span ->
  Download.get_text_strip last_update_span
  = "Last update:" +:+ blank +:+ String.concat " " words ->
  is_blank blank = true ->
  forallb is_word words = true ->
  forallb is_ascii words = true ->
  contains "Last update:" (String.concat " " words) = false ->
  Utils.extract_last_update soup = Ok (String.concat " " words)
  /\ DownloaderUtils.extract_last_update soup = Ok (String.concat " " words).
Proof.
  intros Hfind Htext Hblank Hwords _ Hlabel.
  unfold Utils.extract_last_update, DownloaderUtils.extract_last_update.
  rewrite Hfind.
  assert (H : cleaned_text last_update_span = String.concat " " words); [|by rewrite H].
  unfold cleaned_text, replace, newline. rewrite Htext.
  rewrite replace_from_prefix, app_empty_l.
  rewrite replace_from_blank; [|reflexivity | done].
  rewrite (replace_from_absent "Last update:") by done.
  rewrite <- (append_empty_r (String.concat " " words)) at 1.
  rewrite strip_around by done.
  rewrite replace_from_lacks by (by apply joined_words_lack_newline).
  rewrite strip_joined_words by done.
  by rewrite split_joined_words.
Qed.

Lemma extract_last_update_removes_label_witness :
  Utils.extract_last_update (document [example_last_update_span])
  = Ok "13 January 2025(10:33:43 CET/CEST)"
  /\ DownloaderUtils.extract_last_update (document [example_last_update_span])
     = Ok "13 January 2025(10:33:43 CET/CEST)".
Proof.
  apply (extract_last_update_removes_label (document [example_last_update_span])
           example_last_update_span ""
           ["13"; "January"; "2025(10:33:43"; "CET/CEST)"]); reflexivity.
Defined.

Lemma find_is_Some (name : string) (class_ : option string) (soup : node) :
  (exists tag, find name class_ soup = Some tag)
  <-> exists tag, tag ∈ map fst (descendants soup) /\ tag_matches name class_ tag = true.
Proof.
  unfold find, find_all, find_all_ctx.
  induction (descendants soup) as [|[n sibs] l IH]; simpl.
  - split; [by intros [? ?] | intros (? & Hin & _); inversion Hin].
  - destruct (tag_matches name class_ n) eqn:Hn; simpl.
    + split; [|eauto]. intros _. exists n. split; [constructor | done].
    + rewrite IH. split.
      * intros (tag & Hin & Ht). exists tag. split; [by constructor | done].
      * intros (tag & Hin & Ht). exists tag. split; [|done].
        apply elem_of_cons in Hin as [->|Hin]; [congruence | done].
Qed.

(** X7. [extract_last_update] of [power_data_utils.py] returns exactly when
    the page holds a [span] of class [last-update]; the one of
    [power_data_downloader_utils.py] returns exactly when the page holds
    such a [span] or such a [div], and returns the same text wherever the
    former returns.  Neither raises anything but [ValueError]. *)
Theorem extract_last_update_found (soup : node) :
  let holds name :=
    exists tag, tag ∈ map fst (descendants soup)
                /\ tag_matches name (Some "last-update") tag = true in
  ((exists text, Utils.extract_last_update soup = Ok text) <-> holds "span")
  /\ ((exists text, DownloaderUtils.extract_last_update soup = Ok text)
      <-> holds "span" \/ holds "div")
  /\ (forall text, Utils.extract_last_update soup = Ok text ->
                   DownloaderUtils.extract_last_update soup = Ok text)
  /\ (forall e, Utils.extract_last_update soup = Raise e
                \/ DownloaderUtils.extract_last_update soup = Raise e ->
                e = ValueError).
Proof.
  intros holds. unfold holds.
  rewrite <- !find_is_Some.
  unfold Utils.extract_last_update, DownloaderUtils.extract_last_update.
  destruct (find "span" (Some "last-update") soup) as [span|];
    [|destruct (find "div" (Some "last-update") soup) as [div|]].
  all: repeat split; eauto; try (by intros [? [=]]); try (by intros [[? [=]]|[? [=]]]);
    try (by intros ? [=]); try (by intros ? [[=]|[=]]).
Qed.


(** ** Tables *)

Lemma existsb_same_elements {A} (f : A -> bool) (l l' : list A) :
  (forall x, x ∈ l <-> x ∈ l') -> existsb f l = existsb f l'.
Proof.
  intros Hll. apply eq_true_iff_eq. rewrite !existsb_exists. split.
  - intros (x & Hin & Hx). exists x. split; [|done].
    by apply list_elem_of_In, Hll, list_elem_of_In.
  - intros (x & Hin & Hx). exists x. split; [|done].
    by apply list_elem_of_In, Hll, list_elem_of_In.
Qed.

(** X8. What [check_existing_combinations] answers depends on the rows of
    the table as a set only: neither their order nor their repetition
    matters, so that the removal of duplicates in
    [import_exsting_combinations_file] and in [check_archive] changes no
    answer. *)
Theorem check_existing_combinations_set (df df' : DataFrame) (key : list value) :
  columns df = columns df' ->
  (forall r, r ∈ data df <-> r ∈ data df') ->
  check_existing_combinations df key = check_existing_combinations df' key
  /\ check_existing_combinations (drop_duplicates df) key
     = check_existing_combinations df key.
Proof.
  intros Hc Hd. unfold check_existing_combinations, eq_all_any. simpl. split.
  - rewrite <- Hc. case_bool_decide; [|done]. f_equal.
    by apply existsb_same_elements.
  - case_bool_decide; [|done]. f_equal. apply existsb_same_elements.
    intros r. rewrite keep_first_elem. split; [tauto |].
    intros Hr. split; [done |]. intros Hn. inversion Hn.
Qed.

Lemma check_existing_combinations_set_witness :
  check_existing_combinations example_archive [VStr "DE"; VDate d_2024_05_01; VNum 5]
  = check_existing_combinations
      (mkDF ["A"; "B"; "C"]
         [ [Some (VStr "FR"); Some (VDate d_2024_05_01); Some (VNum 5)];
           [Some (VStr "DE"); Some (VDate d_2024_05_01); Some (VNum 5)] ])
      [VStr "DE"; VDate d_2024_05_01; VNum 5]
  /\ check_existing_combinations (drop_duplicates example_archive)
       [VStr "DE"; VDate d_2024_05_01; VNum 5]
     = check_existing_combinations example_archive
         [VStr "DE"; VDate d_2024_05_01; VNum 5].
Proof.
  apply (check_existing_combinations_set example_archive).
  - reflexivity.
  - intros r. unfold example_archive. simpl. rewrite !elem_of_cons, !elem_of_nil.
    tauto.
Defined.

Lemma lstrip_split (s : string) : exists b, is_blank b = true /\ s = b +:+ lstrip s.
Proof.
  induction s as [|c s (b & Hb & Hs)]; [by exists "" |]. simpl.
  destruct (is_space c) eqn:Hc.
  - exists (String c b). split; [simpl; by rewrite Hc, Hb |].
    rewrite app_cons. by f_equal.
  - by exists "".
Qed.

Lemma rstrip_starts_clean (s : string) :
  starts_clean s = true -> starts_clean (String.rev (lstrip (String.rev s))) = true.
Proof.
  intros Hs. destruct (lstrip_split (String.rev s)) as (b & Hb & Hr).
  assert (Hd : s = String.rev (lstrip (String.rev s)) +:+ String.rev b).
  { rewrite <- rev_app_distr, <- Hr. symmetry. apply rev_involutive. }
  destruct (String.rev (lstrip (String.rev s))) as [|c r]; [done |].
  rewrite Hd in Hs. exact Hs.
Qed.

Lemma strip_idempotent (s : string) : strip (strip s) = strip s.
Proof.
  unfold strip.
  rewrite (lstrip_clean (String.rev (lstrip (String.rev (lstrip s)))))
    by apply rstrip_starts_clean, lstrip_starts_clean.
  rewrite rev_involutive.
  by rewrite (lstrip_clean (lstrip (String.rev (lstrip s))))
    by apply lstrip_starts_clean.
Qed.

Lemma strip_cell_idempotent (c : cell) : strip_cell (strip_cell c) = strip_cell c.
Proof. destruct c as [[s|z|d]|]; simpl; try done. by rewrite strip_idempotent. Qed.

Lemma normalize_length (n : nat) (r : list cell) : length (normalize n r) = n.
Proof. unfold normalize. by rewrite length_map, length_seq. Qed.

Lemma cell_of_normalize (n j : nat) (r : list cell) :
  j < n -> cell_of (normalize n r) j = cell_of r j.
Proof.
  intros Hj. unfold cell_of at 1, normalize.
  by rewrite list_lookup_fmap, lookup_seq_lt.
Qed.

(** The row of [clean_df] for a row of the table. *)
Lemma clean_df_data (df : DataFrame) :
  data (clean_df df)
  = map (fun r => imap (fun j c => if is_str_column df j then strip_cell c else c)
                       (normalize (length (columns df)) r))
        (data df).
Proof. reflexivity. Qed.

Lemma cell_of_cleaned (sel : nat -> bool) (n : nat) (r : list cell) (j : nat) :
  j < n ->
  cell_of (imap (fun j c => if sel j then strip_cell c else c) (normalize n r)) j
  = if sel j then strip_cell (cell_of r j) else cell_of r j.
Proof.
  intros Hj. unfold cell_of at 1. rewrite list_lookup_imap.
  unfold normalize. rewrite list_lookup_fmap, lookup_seq_lt by done. done.
Qed.

Lemma is_str_cleaned (sel : nat -> bool) (n : nat) (rows : list (list cell)) (j : nat) :
  j < n ->
  forallb (fun r => match cell_of r j with
                    | Some (VStr _) | None => true
                    | Some _ => false
                    end)
          (map (fun r => imap (fun j c => if sel j then strip_cell c else c)
                              (normalize n r)) rows)
  = forallb (fun r => match cell_of r j with
                      | Some (VStr _) | None => true
                      | Some _ => false
                      end) rows.
Proof.
  intros Hj. induction rows as [|r rest IH]; [done |].
  rewrite map_cons. cbn [forallb]. rewrite IH. f_equal.
  rewrite cell_of_cleaned by done.
  destruct (sel j); [|done]. by destruct (cell_of r j) as [[s|z|d]|].
Qed.

Lemma is_str_column_clean_df (df : DataFrame) (j : nat) :
  j < length (columns df) -> is_str_column (clean_df df) j = is_str_column df j.
Proof.
  intros Hj. unfold is_str_column at 1. rewrite clean_df_data.
  by rewrite is_str_cleaned.
Qed.

(** X9. [clean_df] is idempotent: cleaning a cleaned table changes
    nothing. *)
Theorem clean_df_idempotent (df : DataFrame) : clean_df (clean_df df) = clean_df df.
Proof.
  assert (Hc : columns (clean_df (clean_df df)) = columns (clean_df df)).
  { change (map strip (map strip (columns df)) = map strip (columns df)).
    rewrite map_map. apply map_ext. intros s. apply strip_idempotent. }
  assert (Hd : data (clean_df (clean_df df)) = data (clean_df df)).
  { rewrite (clean_df_data (clean_df df)).
    change (columns (clean_df df)) with (map strip (columns df)).
    rewrite length_map, clean_df_data, map_map. apply map_ext. intros r.
    set (n := length (columns df)).
    set (row := imap _ (normalize n r)).
    assert (Hlen : length row = n)
      by (unfold row; by rewrite length_imap, normalize_length).
    rewrite <- Hlen at 1. rewrite normalize_id.
    apply list_eq. intros j. rewrite list_lookup_imap.
    destruct (row !! j) as [c|] eqn:Hrow; [|done]. simpl. f_equal.
    assert (Hj : j < n) by (rewrite <- Hlen; by eapply lookup_lt_Some).
    rewrite is_str_column_clean_df by done.
    unfold row in Hrow. rewrite list_lookup_imap in Hrow.
    destruct (normalize n r !! j) as [c0|]; [|done]. simpl in Hrow.
    injection Hrow as <-.
    destruct (is_str_column df j); [apply strip_cell_idempotent | done]. }
  change (mkDF (columns (clean_df (clean_df df))) (data (clean_df (clean_df df)))
          = mkDF (columns (clean_df df)) (data (clean_df df))).
  by rewrite Hc, Hd.
Qed.

Lemma isna_cleaned (sel : nat -> bool) (n : nat) (rows : list (list cell)) (j : nat) :
  j < n ->
  forallb (fun r => isna (cell_of r j))
          (map (fun r => imap (fun j c => if sel j then strip_cell c else c)
                              (normalize n r)) rows)
  = forallb (fun r => isna (cell_of r j)) rows.
Proof.
  intros Hj. induction rows as [|r rest IH]; [done |].
  rewrite map_cons. cbn [forallb]. rewrite IH. f_equal.
  rewrite cell_of_cleaned by done.
  destruct (sel j); [|done]. by destruct (cell_of r j) as [[s|z|d]|].
Qed.

Lemma isna_all_axis0_clean_df (df : DataFrame) :
  isna_all_axis0 (clean_df df) = isna_all_axis0 df.
Proof.
  unfold isna_all_axis0. rewrite clean_df_data.
  change (columns (clean_df df)) with (map strip (columns df)). rewrite length_map.
  apply map_ext_in. intros j Hj. apply in_seq in Hj.
  apply isna_cleaned. lia.
Qed.

Lemma flagged_count {A B} (a : list A) (b : list B) (flags : list bool) :
  length a = length b ->
  length (map fst (List.filter (fun cv : A * bool => bool_decide (snd cv = true))
                               (zip a flags)))
  = length (map fst (List.filter (fun cv : B * bool => bool_decide (snd cv = true))
                                 (zip b flags))).
Proof.
  rewrite !length_map. revert b flags.
  induction a as [|x a IH]; intros [|y b] flags Hlen; try done.
  destruct flags as [|f flags]; [done |]. simpl in *.
  destruct (bool_decide (f = true)); simpl; rewrite (IH b) by lia; done.
Qed.

(** X10. [clean_df] changes no answer of [plausibility_checks]: a cell is
    missing after the cleaning exactly when it was missing before. *)
Theorem plausibility_checks_clean_df (df : DataFrame) :
  plausibility_checks (clean_df df) = plausibility_checks df.
Proof.
  unfold plausibility_checks. rewrite isna_all_axis0_clean_df.
  destruct (forallb id (isna_all_axis0 df)); [done |].
  rewrite (flagged_count (columns (clean_df df)) (columns df)); [done |].
  change (columns (clean_df df)) with (map strip (columns df)). by rewrite length_map.
Qed.

Lemma max_length_assembled (metadata : list cell) (hours : list string)
    (numeric : list (list cell)) :
  length numeric <= length hours -> numeric <> [] ->
  foldr Nat.max 0 (map length (zip_with (assembled metadata) hours numeric))
  = length metadata + 1 + foldr Nat.max 0 (map length numeric).
Proof.
  revert hours. induction numeric as [|row rest IH]; intros hours Hlen Hne; [done |].
  destruct hours as [|hour hours]; [simpl in Hlen; lia |].
  simpl in Hlen. cbn [zip_with map foldr].
  unfold assembled at 1. rewrite !length_app. simpl length.
  destruct rest as [|row2 rest].
  - destruct hours; simpl; lia.
  - rewrite IH; [lia | simpl in *; lia | done].
Qed.

(** X11. The frame of the hourly rows comes about exactly when the longest
    numeric row has as many entries as there are value columns: a row with
    fewer entries is filled up with missing cells, one row with more makes
    the construction raise its [ValueError].  With the seven metadata cells
    and the twelve column names of either driver this is four entries, of
    which the drivers test the first and the last row only. *)
Theorem hourly_frame_width (metadata : list cell) (hours : list string)
    (numeric : list (list cell)) (names : list string) :
  length numeric <= length hours -> numeric <> [] ->
  let frame := res_bind (assemble_rows metadata hours numeric 0)
                        (fun rows => make_frame rows names) in
  (length metadata + 1 + foldr Nat.max 0 (map length numeric) = length names ->
   exists rows, frame = Ok (mkDF names rows)
                /\ length rows = length numeric
                /\ Forall (fun r => length r = length names) rows)
  /\ (length metadata + 1 + foldr Nat.max 0 (map length numeric) <> length names ->
      frame = Raise ValueError).
Proof.
  intros Hlen Hne frame. unfold frame.
  rewrite assemble_rows_enough_hours by exact Hlen. rewrite drop_0. simpl res_bind.
  unfold make_frame.
  destruct (zip_with (assembled metadata) hours numeric) as [|row rows] eqn:Hz.
  { apply (f_equal length) in Hz. rewrite length_zip_with in Hz.
    destruct numeric; [done | simpl in Hz, Hlen; lia]. }
  rewrite <- Hz, max_length_assembled by done. split.
  - intros Hw. rewrite (proj2 (Nat.eqb_eq _ _) Hw). eexists. split; [reflexivity |].
    split.
    + rewrite length_map, length_zip_with. lia.
    + apply Forall_forall. intros r Hr. apply list_elem_of_fmap in Hr as (r0 & -> & _).
      apply normalize_length.
  - intros Hw. by rewrite (proj2 (Nat.eqb_neq _ _) Hw).
Qed.

Lemma hourly_frame_width_witness :
  (exists rows,
     res_bind (assemble_rows (Download.metadata download_args example_combination
                                example_last_update)
                 ["00 - 01"; "01 - 02"; "02 - 03"]
                 [numeric_row 10 20 30 40; [Some (VNum 11)]; numeric_row 12 22 32 42] 0)
              (fun rows => make_frame rows Download.hours_column_names)
     = Ok (mkDF Download.hours_column_names rows)
     /\ length rows = 3
     /\ Forall (fun r => length r = 12) rows)
  /\ res_bind (assemble_rows (Download.metadata download_args example_combination
                                example_last_update)
                 ["00 - 01"; "01 - 02"; "02 - 03"]
                 [numeric_row 10 20 30 40; numeric_row 11 21 31 41 ++ [Some (VNum 51)];
                  numeric_row 12 22 32 42] 0)
              (fun rows => make_frame rows Download.hours_column_names)
     = Raise ValueError.
Proof.
  split.
  - apply (hourly_frame_width (Download.metadata download_args example_combination
                                 example_last_update)
             ["00 - 01"; "01 - 02"; "02 - 03"]
             [numeric_row 10 20 30 40; [Some (VNum 11)]; numeric_row 12 22 32 42]
             Download.hours_column_names); [simpl; lia | done | reflexivity].
  - apply (hourly_frame_width (Download.metadata download_args example_combination
                                 example_last_update)
             ["00 - 01"; "01 - 02"; "02 - 03"]
             [numeric_row 10 20 30 40; numeric_row 11 21 31 41 ++ [Some (VNum 51)];
              numeric_row 12 22 32 42]
             Download.hours_column_names); [simpl; lia | done | simpl; lia].
Defined.

(** ** The rows of the continuous table *)

Lemma place_entries_tail (f : Download.header_flags) (row_clean : list cell)
    (row_counter : nat) (entries : list cell) :
  12 <= row_counter ->
  Download.place_entries f row_clean row_counter entries = row_clean ++ entries.
Proof.
  revert row_clean row_counter. induction entries as [|entry rest IH];
    intros row_clean row_counter Hc; simpl.
  - by rewrite app_nil_r.
  - destruct row_counter as [|[|[|[|[|[|[|[|[|[|[|[|n]]]]]]]]]]]]; try lia.
    simpl. rewrite !andb_false_r. rewrite IH by lia. by rewrite <- app_assoc.
Qed.

Lemma place_entries_aligned (f : Download.header_flags) (row_clean entries : list cell) :
  4 + length (List.filter id (rendered_optional f)) < length entries ->
  Download.place_entries f row_clean 5 entries
  = row_clean ++ take 4 entries ++ fill_optional (rendered_optional f) (drop 4 entries).
Proof.
  destruct f as [full one three rpd]. unfold rendered_optional. simpl.
  destruct entries as [|e0 [|e1 [|e2 [|e3 rest]]]]; simpl; try lia.
  intros Hlen.
  destruct full, one, three, rpd; simpl in *;
    destruct rest as [|r0 [|r1 [|r2 [|r3 rest]]]]; simpl in *; try lia;
    rewrite ?place_entries_tail by lia; rewrite <- ?app_assoc; reflexivity.
Qed.

Lemma fill_optional_length (rendered : list bool) (entries : list cell) :
  length (List.filter id rendered) <= length entries ->
  length (fill_optional rendered entries)
  = length entries + length (List.filter negb rendered).
Proof.
  revert entries. induction rendered as [|[|] more IH]; intros entries Hlen; simpl in *.
  - lia.
  - destruct entries as [|entry rest]; simpl in *; [lia |]. rewrite IH by lia. lia.
  - rewrite IH by lia. lia.
Qed.

Lemma rendered_optional_count (f : Download.header_flags) :
  length (List.filter id (rendered_optional f))
  + length (List.filter negb (rendered_optional f)) = 3.
Proof.
  unfold rendered_optional.
  by destruct (Download.id_full_indicator f), (Download.id_1_indicator f),
    (Download.id_3_indicator f), (Download.rpd_indicator f).
Qed.

Lemma continuous_rows_from (f : Download.header_flags) (market_area : string)
    (lead : list cell) (hours : list string) (continuous_data : list (list cell))
    (index : nat) :
  contains "GB" market_area = false -> length lead = 5 ->
  index + length continuous_data <= length hours ->
  Forall (fun entries =>
            4 + length (List.filter id (rendered_optional f)) < length entries)
         continuous_data ->
  Download.continuous_rows f market_area lead hours continuous_data index
  = Ok (zip_with (continuous_row f lead) (drop index hours) continuous_data).
Proof.
  intros Harea Hlead. revert index.
  induction continuous_data as [|entries rest IH]; intros index Hlen Hall; simpl in *.
  - by destruct (drop index hours).
  - apply Forall_cons in Hall as [Hentries Hall].
    destruct (lookup_lt_is_Some_2 hours index ltac:(lia)) as [hour Hhour].
    rewrite Hhour, IH by (done || lia). 
    rewrite length_app, Hlead. simpl length.
    rewrite place_entries_aligned by done.
    unfold Download.gb_columns. rewrite Harea. simpl.
    rewrite (drop_S _ _ _ Hhour). simpl. unfold continuous_row.
    by rewrite <- !app_assoc.
Qed.

(** X12. Outside GB the rows of the continuous table come out aligned with
    the column names: when every data row has an entry beyond the optional
    columns that the page renders, row [i] is the five leading cells, the
    hour label [i], the four prices, then for each of ID Full, ID1 and ID3
    the next entry if the page renders the column and a missing cell if
    not, the remaining entries, and two missing cells for the RPD
    columns.  A data row with the four prices, the rendered optional
    columns and the three volumes gives exactly the eighteen columns. *)
Theorem continuous_rows_aligned (f : Download.header_flags) (market_area : string)
    (lead : list cell) (hours : list string) (continuous_data : list (list cell)) :
  contains "GB" market_area = false -> length lead = 5 ->
  length continuous_data <= length hours ->
  Forall (fun entries =>
            4 + length (List.filter id (rendered_optional f)) < length entries)
         continuous_data ->
  Download.continuous_rows f market_area lead hours continuous_data 0
  = Ok (zip_with (continuous_row f lead) hours continuous_data)
  /\ forall hour entries,
       length entries = 7 + length (List.filter id (rendered_optional f)) ->
       length (continuous_row f lead hour entries)
       = length Download.continuous_column_names.
Proof.
  intros Harea Hlead Hlen Hall. split.
  - by rewrite continuous_rows_from.
  - intros hour entries He. unfold continuous_row.
    rewrite !length_app, length_take.
    rewrite fill_optional_length by (rewrite length_drop; lia).
    rewrite length_drop. pose proof (rendered_optional_count f).
    change (length Download.continuous_column_names) with 18.
    cbn [length]. lia.
Qed.

Lemma continuous_rows_aligned_witness :
  Download.continuous_rows (Download.mk_flags false true false false) "DE"
    [Some (VStr "DE"); Some (VDate d_2024_05_01); Some (VStr "Continuous");
     Some (VNum 60); Some (VStr example_last_update)]
    ["00 - 01"; "01 - 02"]
    [ [Some (VNum 1); Some (VNum 2); Some (VNum 3); Some (VNum 4); Some (VNum 5);
       Some (VNum 6); Some (VNum 7); Some (VNum 8)] ] 0
  = Ok [ [Some (VStr "DE"); Some (VDate d_2024_05_01); Some (VStr "Continuous");
          Some (VNum 60); Some (VStr example_last_update); Some (VStr "00 - 01");
          Some (VNum 1); Some (VNum 2); Some (VNum 3); Some (VNum 4);
          None; Some (VNum 5); None;
          Some (VNum 6); Some (VNum 7); Some (VNum 8); None; None] ].
Proof.
  refine (proj1 (continuous_rows_aligned (Download.mk_flags false true false false) "DE"
                   [Some (VStr "DE"); Some (VDate d_2024_05_01); Some (VStr "Continuous");
                    Some (VNum 60); Some (VStr example_last_update)]
                   ["00 - 01"; "01 - 02"]
                   [ [Some (VNum 1); Some (VNum 2); Some (VNum 3); Some (VNum 4);
                      Some (VNum 5); Some (VNum 6); Some (VNum 7); Some (VNum 8)] ]
                   _ _ _ _)).
  - reflexivity.
  - reflexivity.
  - simpl. lia.
  - repeat constructor. 
Defined.

(** X13. For a GB market area, whose page renders the two RPD columns where
    ID1 and ID3 stand elsewhere, the row of the continuous table is the
    five leading cells, the hour, the four prices, the ID Full entry (a
    missing cell when the page does not render that column), two missing
    cells under ID1 and ID3, the remaining entries, and the two RPD
    entries moved to the end, under the RPD columns.  A GB row with no
    more than four entries stops the assembly with an [IndexError]. *)
Theorem continuous_rows_gb (f : Download.header_flags) (market_area : string)
    (lead : list cell) (hour : string) (hours : list string)
    (prices id_full volumes : list cell) (rpd rpd_hh : cell) :
  contains "GB" market_area = true -> Download.rpd_indicator f = true ->
  length lead = 5 -> length prices = 4 ->
  length id_full = (if Download.id_full_indicator f then 1 else 0) ->
  Download.continuous_rows f market_area lead (hour :: hours)
    [prices ++ id_full ++ [rpd; rpd_hh] ++ volumes] 0
  = Ok [ lead ++ [Some (VStr hour)] ++ prices
           ++ (if Download.id_full_indicator f then id_full else [None])
           ++ [None; None] ++ volumes ++ [rpd; rpd_hh] ]
  /\ forall entries,
       length entries <= 4 ->
       Download.continuous_rows f market_area lead (hour :: hours) [entries] 0
       = Raise IndexError.
Proof.
  intros Harea Hrpd Hlead Hprices Hfull.
  destruct lead as [|l0 [|l1 [|l2 [|l3 [|l4 [|l5 lead]]]]]]; try discriminate Hlead.
  destruct f as [full one three r]. simpl in Hrpd, Hfull. subst r. split.
  - destruct prices as [|p0 [|p1 [|p2 [|p3 [|p4 prices]]]]]; try discriminate Hprices.
    destruct full.
    + destruct id_full as [|x [|y id_full]]; try discriminate Hfull.
      simpl. rewrite !andb_false_r. simpl.
      rewrite place_entries_tail by lia.
      unfold Download.gb_columns. rewrite Harea. simpl. reflexivity.
    + destruct id_full as [|x id_full]; try discriminate Hfull.
      simpl. rewrite !andb_false_r. simpl.
      rewrite place_entries_tail by lia.
      unfold Download.gb_columns. rewrite Harea. simpl. reflexivity.
  - intros entries He.
    destruct entries as [|e0 [|e1 [|e2 [|e3 [|e4 entries]]]]]; simpl in He; try lia;
      destruct full, one, three; simpl; unfold Download.gb_columns; rewrite Harea;
      reflexivity.
Qed.

Lemma continuous_rows_gb_witness :
  Download.continuous_rows (Download.mk_flags true false false true) "GB"
    [Some (VStr "GB"); Some (VDate d_2024_05_01); Some (VStr "Continuous");
     Some (VNum 30); Some (VStr example_last_update)]
    ["00:00 - 00:30"]
    [ [Some (VNum 1); Some (VNum 2); Some (VNum 3); Some (VNum 4)] ++ [Some (VNum 5)]
      ++ [Some (VNum 6); Some (VNum 7)] ++ [Some (VNum 8); Some (VNum 9); Some (VNum 10)] ] 0
  = Ok [ [Some (VStr "GB"); Some (VDate d_2024_05_01); Some (VStr "Continuous");
          Some (VNum 30); Some (VStr example_last_update); Some (VStr "00:00 - 00:30");
          Some (VNum 1); Some (VNum 2); Some (VNum 3); Some (VNum 4); Some (VNum 5);
          None; None; Some (VNum 8); Some (VNum 9); Some (VNum 10);
          Some (VNum 6); Some (VNum 7)] ].
Proof.
  refine (proj1 (continuous_rows_gb (Download.mk_flags true false false true) "GB"
                   [Some (VStr "GB"); Some (VDate d_2024_05_01); Some (VStr "Continuous");
                    Some (VNum 30); Some (VStr example_last_update)]
                   "00:00 - 00:30" []
                   [Some (VNum 1); Some (VNum 2); Some (VNum 3); Some (VNum 4)]
                   [Some (VNum 5)]
                   [Some (VNum 8); Some (VNum 9); Some (VNum 10)]
                   (Some (VNum 6)) (Some (VNum 7)) _ _ _ _ _)); reflexivity.
Defined.

(** ** The hour labels of a table page *)

Lemma walk_list_items (sep : string) (items : list (list string * string)) :
  map fst (List.filter (fun p => tag_matches "li" None (fst p))
                       (walk (list_items sep items)))
  = map (fun item => li (fst item) (snd item)) items.
Proof.
  induction items as [|[classes label] items IH]; [done |].
  change (walk (list_items sep ((classes, label) :: items)))
    with ((li classes label, NavigableString sep :: list_items sep items)
            :: descendants (li classes label)
               ++ (NavigableString sep, list_items sep items)
                  :: walk (list_items sep items)).
  simpl. by rewrite IH.
Qed.

Lemma find_all_li_hours_list (sep : string) (items : list (list string * string)) :
  find_all "li" None (Tag "ul" [] (NavigableString sep :: list_items sep items))
  = map (fun item => li (fst item) (snd item)) items.
Proof.
  unfold find_all, find_all_ctx.
  change (descendants (Tag "ul" [] (NavigableString sep :: list_items sep items)))
    with ((NavigableString sep, list_items sep items) :: walk (list_items sep items)).
  simpl. apply walk_list_items.
Qed.

Lemma a_text_items (items : list (list string * string)) :
  res_mapM a_text (map (fun item => li (fst item) (snd item)) items)
  = Ok (map (fun item => strip (snd item)) items).
Proof.
  induction items as [|[classes label] items IH]; [done |].
  cbn [map res_mapM fst snd]. by rewrite a_text_li, IH.
Qed.

Lemma spaced_subs_list_items (sep : string) (subs : list (granularity * string)) :
  spaced_subs sep subs
  = list_items sep
      (map (fun sub : granularity * string =>
              (match fst sub with
               | HalfHour => ["sub-child"; "lvl-1"]
               | Quarter => ["sub-child"; "lvl-2"]
               end, snd sub)) subs).
Proof.
  induction subs as [|[[|] s] subs IH]; [done | |].
  - change (spaced_subs sep ((HalfHour, s) :: subs))
      with (sub_li (HalfHour, s) :: NavigableString sep :: spaced_subs sep subs).
    rewrite IH. reflexivity.
  - change (spaced_subs sep ((Quarter, s) :: subs))
      with (sub_li (Quarter, s) :: NavigableString sep :: spaced_subs sep subs).
    rewrite IH. reflexivity.
Qed.

Lemma block_items_list_items (sep : string) (blocks : list hour_block) :
  flat_map (block_items sep) blocks = list_items sep (flat_map block_list_items blocks).
Proof.
  induction blocks as [|b blocks IH]; [done |].
  cbn [flat_map]. unfold list_items at 1. rewrite flat_map_app.
  fold (list_items sep (block_list_items b)).
  fold (list_items sep (flat_map block_list_items blocks)).
  rewrite <- IH. f_equal.
  unfold block_items, block_list_items.
  change (list_items sep (?x :: ?l))
    with (li (fst x) (snd x) :: NavigableString sep :: list_items sep l).
  cbn [fst snd]. by rewrite spaced_subs_list_items.
Qed.

Lemma container_hours_list (sep : string) (blocks : list hour_block) :
  container sep blocks = hours_list sep (flat_map block_list_items blocks).
Proof. unfold container, hours_list. by rewrite block_items_list_items. Qed.

(** X14. For a page whose hour list holds list items with their labels,
    [extract_hours] returns the labels, stripped, in document order,
    whatever the classes of the items and the text between the tags.  On
    the hour list of a continuous page, with every hour block followed by
    its sub-interval blocks, it returns what [extract_hours_continous]
    returns. *)
Theorem extract_hours_labels (soup : node) (sep : string)
    (items : list (list string * string)) (blocks : list hour_block) :
  (find "div" (Some hours_container) soup = Some (hours_list sep items) ->
   extract_hours soup = Ok (map (fun item => strip (snd item)) items))
  /\ (find "div" (Some hours_container) soup = Some (container sep blocks) ->
      extract_hours soup = extract_hours_continous soup).
Proof.
  assert (H : forall items,
             find "div" (Some hours_container) soup = Some (hours_list sep items) ->
             extract_hours soup = Ok (map (fun item => strip (snd item)) items)).
  { clear items. intros items Hdiv. unfold extract_hours. rewrite Hdiv.
    change (find "ul" None (hours_list sep items))
      with (Some (Tag "ul" [] (NavigableString sep :: list_items sep items))).
    simpl. rewrite find_all_li_hours_list. apply a_text_items. }
  split; [apply H |].
  intros Hdiv. rewrite container_hours_list in Hdiv. rewrite (H _ Hdiv).
  rewrite <- container_hours_list in Hdiv.
  unfold extract_hours_continous. rewrite Hdiv.
  rewrite find_all_ctx_container, block_pairs_labels. unfold res_map. simpl. f_equal.
  clear. induction blocks as [|b bs IH]; [done |].
  simpl. rewrite map_app, IH. f_equal. unfold block_labels. simpl. f_equal.
  by rewrite map_map.
Qed.

Lemma extract_hours_labels_witness :
  extract_hours
    (document [hours_list "" [([], "9:00 AM - 10:00 AM"); ([], "10:00 AM - 11:00 AM")]])
  = Ok ["9:00 AM - 10:00 AM"; "10:00 AM - 11:00 AM"]
  /\ extract_hours example_page = extract_hours_continous example_page.
Proof.
  split.
  - apply (proj1 (extract_hours_labels
                    (document [hours_list "" [([], "9:00 AM - 10:00 AM");
                                              ([], "10:00 AM - 11:00 AM")]])
                    "" [([], "9:00 AM - 10:00 AM"); ([], "10:00 AM - 11:00 AM")] [])).
    reflexivity.
  - apply (proj2 (extract_hours_labels example_page " " [] quarter_hours_00_02)).
    reflexivity.
Defined.


(** ** The validation of [download_data] *)

Lemma count_containing_bound (sub : string) (l : list string) :
  DownloadData.count_containing sub l <= length l.
Proof. unfold DownloadData.count_containing. apply List.filter_length_le. Qed.

(** X15. [download_data] starts its loops exactly when the type and the
    three file names all contain [head] and not all contain [traday], or
    all contain [traday] and not all contain [head].  Otherwise it raises
    [ValueError] before it touches a file, requests a page or pauses; its
    [assert] can never fail. *)
Theorem download_data_checks_names (E : Env) (a : DownloadData.Args)
    (market_areas : list (string * list string))
    (relevant_days : list (datetime * datetime)) (s : DownloadData.St) :
  let strings_to_check :=
    [ DownloadData.type_ a; DownloadData.tracking_file_filepath a;
      DownloadData.archive_hourly_data_filepath a;
      DownloadData.archive_base_peak_data_filepath a ] in
  let check_dayahead := DownloadData.count_containing "head" strings_to_check in
  let check_intraday := DownloadData.count_containing "traday" strings_to_check in
  let consistent :=
    check_dayahead = 4 /\ check_intraday < 4
    \/ check_intraday = 4 /\ check_dayahead < 4 in
  (consistent ->
   DownloadData.download_data E a market_areas relevant_days s
   = DownloadData.for_days E a market_areas relevant_days s)
  /\ (~ consistent ->
      DownloadData.download_data E a market_areas relevant_days s
      = (Raise ValueError, s)).
Proof.
  intros strings D I consistent. unfold consistent.
  unfold DownloadData.download_data, DownloadData.check_names.
  fold strings. fold D. fold I. change (length strings) with 4.
  pose proof (count_containing_bound "head" strings) as HD.
  pose proof (count_containing_bound "traday" strings) as HI.
  fold D in HD. fold I in HI. change (length strings) with 4 in HD, HI.
  clearbody D I. clear strings consistent.
  split; intros Hok;
    destruct (Nat.ltb_spec I D), (Nat.eqb_spec D 4), (Nat.ltb_spec D I),
      (Nat.eqb_spec I 4), (Nat.eqb_spec I D), (Nat.eqb_spec 4 D), (Nat.eqb_spec 4 I);
    simpl; try lia; reflexivity.
Qed.

(** The names of the main script pass; a day-ahead type with an intraday
    ledger does not. *)
Lemma download_data_checks_names_witness :
  DownloadData.download_data example_env dayahead_args [] []
    (DownloadData.unbound, world_of ∅)
  = DownloadData.for_days example_env dayahead_args [] []
      (DownloadData.unbound, world_of ∅)
  /\ DownloadData.download_data example_env
       (DownloadData.mkArgs "Dayahead" "Auction" "DayAhead"
          "epex_auction_intraday_tracking.csv"
          "epex_auction_dayahead_hourly_data_archive.xlsx"
          "epex_auction_dayahead_basepeak_data_archive.xlsx" 3)
       [("DE-LU", ["SDAC"])] [example_dates] (DownloadData.unbound, world_of ∅)
     = (Raise ValueError, (DownloadData.unbound, world_of ∅)).
Proof.
  split.
  - apply (download_data_checks_names example_env dayahead_args [] []
             (DownloadData.unbound, world_of ∅)).
    left. vm_compute. split; [reflexivity | lia].
  - apply (download_data_checks_names example_env
             (DownloadData.mkArgs "Dayahead" "Auction" "DayAhead"
                "epex_auction_intraday_tracking.csv"
                "epex_auction_dayahead_hourly_data_archive.xlsx"
                "epex_auction_dayahead_basepeak_data_archive.xlsx" 3)
             [("DE-LU", ["SDAC"])] [example_dates] (DownloadData.unbound, world_of ∅)).
    vm_compute. intros [[H _]|[H _]]; discriminate H.
Defined.

(** ** The loop variable of the market area *)

Lemma contains_GB_GB : contains "GB" "GB" = true.
Proof. reflexivity. Qed.

Lemma download_data_clean_market_area_idempotent (a : DownloadData.Args) (m : string) :
  DownloadData.clean_market_area a (DownloadData.clean_market_area a m)
  = DownloadData.clean_market_area a m.
Proof.
  unfold DownloadData.clean_market_area.
  destruct (contains "head" (DownloadData.type_ a)); [|done].
  destruct (contains "GB" m) eqn:Hm; [done | by rewrite Hm].
Qed.

Lemma download_clean_market_area_idempotent (a : Download.Args) (m : string) :
  Download.clean_market_area a (Download.clean_market_area a m)
  = Download.clean_market_area a m.
Proof.
  unfold Download.clean_market_area.
  destruct (Download.is_dayahead a); [|done].
  destruct (contains "GB" m) eqn:Hm; [done | by rewrite Hm].
Qed.

Lemma download_data_process_cleaned (E : Env) (a : DownloadData.Args)
    (dates : datetime * datetime) (m x : string) :
  DownloadData.process E a dates (DownloadData.clean_market_area a m) x
  = DownloadData.process E a dates m x.
Proof.
  unfold DownloadData.process. by rewrite download_data_clean_market_area_idempotent.
Qed.

Lemma download_process_cleaned (E : Env) (a : Download.Args) (ex : option DataFrame)
    (dates : datetime * datetime) (m : string) (v : value) (n : nat) :
  Download.process E a ex dates (Download.clean_market_area a m) v n
  = Download.process E a ex dates m v n.
Proof.
  unfold Download.process. by rewrite download_clean_market_area_idempotent.
Qed.

Lemma download_data_process_area (E : Env) (a : DownloadData.Args)
    (dates : datetime * datetime) (m x : string) (s s' : DownloadData.St) (m' : string) :
  DownloadData.process E a dates m x s = (Ok m', s') ->
  m' = DownloadData.clean_market_area a m.
Proof.
  unfold DownloadData.process. intros H.
  apply bind_ok_inv in H as (checked & s1 & _ & H).
  apply bind_ok_inv in H as ([] & s2 & _ & H). by injection H as <- _.
Qed.

Lemma download_process_area (E : Env) (a : Download.Args) (ex : option DataFrame)
    (dates : datetime * datetime) (m : string) (v : value) (n : nat) (w w' : World)
    (r : string * nat) :
  Download.process E a ex dates m v n w = (Ok r, w') ->
  fst r = Download.clean_market_area a m.
Proof.
  unfold Download.process. intros H.
  apply bind_ok_inv in H as (clean & w1 & _ & H).
  apply bind_ok_inv in H as ([|] & w2 & _ & H).
  - apply bind_ok_inv in H as ([] & w3 & _ & H). by injection H as <- _.
  - apply bind_ok_inv in H as ([] & w3 & _ & H).
    apply bind_ok_inv in H as (failed & w4 & _ & H). by injection H as <- _.
Qed.

(** X16. The drivers overwrite the loop variable of the market area with its
    cleaned form (GB for the GB day-ahead areas) while they work on an
    auction, and later auctions of the same area see the overwritten
    value.  This changes nothing: in both drivers the auctions of a market
    area are processed as if each started from the area as configured. *)
Theorem market_area_reassignment_harmless (E : Env) :
  (forall (a : DownloadData.Args) (dates : datetime * datetime) (market_area : string)
          (auctions : list string) (s : DownloadData.St),
     DownloadData.for_auctions E a dates market_area auctions s
     = each_auction E a dates market_area auctions s)
  /\ (forall (a : Download.Args) (ex : option DataFrame) (dates : datetime * datetime)
             (market_area : string) (values : list value) (n : nat) (w : World),
        Download.for_values E a ex dates market_area values n w
        = each_value E a ex dates market_area values n w).
Proof.
  split.
  - intros a dates m auctions.
    assert (H : forall s,
               DownloadData.for_auctions E a dates (DownloadData.clean_market_area a m)
                                         auctions s
               = each_auction E a dates m auctions s
               /\ DownloadData.for_auctions E a dates m auctions s
                  = each_auction E a dates m auctions s); [|intros s; apply H].
    induction auctions as [|x rest IH]; intros s; [done |].
    cbn [DownloadData.for_auctions each_auction]. unfold bind.
    rewrite download_data_process_cleaned.
    destruct (DownloadData.process E a dates m x s) as [[m'|e] s1] eqn:Hp; [|done].
    apply download_data_process_area in Hp as ->. split; apply IH.
  - intros a ex dates m values.
    assert (H : forall n w,
               Download.for_values E a ex dates (Download.clean_market_area a m)
                                   values n w
               = each_value E a ex dates m values n w
               /\ Download.for_values E a ex dates m values n w
                  = each_value E a ex dates m values n w); [|intros n w; apply H].
    induction values as [|v rest IH]; intros n w; [done |].
    cbn [Download.for_values each_value]. unfold bind.
    rewrite download_process_cleaned.
    destruct (Download.process E a ex dates m v n w) as [[r|e] w1] eqn:Hp; [|done].
    apply download_process_area in Hp as ->. split; apply IH.
Qed.

(** ** The ledger over a run *)

Lemma record_entries_existing (path : string) (header_row : list string)
    (entries : list (list string)) (w : World) (header : list string)
    (data_rows : list (list string)) :
  Forall (fun tracking_data => length tracking_data = length header_row) entries ->
  fs w !! path = Some (FCsv (header :: data_rows)) ->
  fst (record_entries path header_row entries w) = Ok tt
  /\ fs (snd (record_entries path header_row entries w))
     = <[path := FCsv (header :: rev entries ++ data_rows)]> (fs w).
Proof.
  revert w data_rows. induction entries as [|e rest IH]; intros w data_rows Hall Hf.
  - simpl. split; [done |]. by rewrite insert_id.
  - apply Forall_cons in Hall as [He Hall].
    cbn [record_entries]. unfold bind.
    rewrite (update_existing_file path e header_row header data_rows w He Hf).
    destruct (IH (mkWorld (<[path := FCsv (header :: e :: data_rows)]> (fs w))
                          (dirs w) (clock w)
                          (trace w ++ [EStat path; ERead path;
                                       EWrite path (FCsv (header :: e :: data_rows))]))
                 (e :: data_rows) Hall) as [Hok Hfs].
    { simpl. by rewrite lookup_insert_eq. }
    split; [exact Hok |]. rewrite Hfs. simpl.
    rewrite insert_insert_eq. by rewrite <- app_assoc.
Qed.

(** X17. The ledger keeps the entries of a run newest first: when the calls
    of [update_tracking_file] for a list of entries, each as long as the
    header, follow one another, a ledger that had a header line and data
    rows ends up as that header, the entries in reverse order of the
    calls, and the old data rows; a ledger that did not exist and can be
    created ends up as the header argument followed by the entries in
    reverse order; where it did not exist and cannot be created, the first
    call raises [OSError] and no file is changed. *)
Theorem ledger_newest_first (path : string) (header_row : list string)
    (entries : list (list string)) (w : World) :
  Forall (fun tracking_data => length tracking_data = length header_row) entries ->
  let run := record_entries path header_row entries w in
  (forall header data_rows,
     fs w !! path = Some (FCsv (header :: data_rows)) ->
     fst run = Ok tt
     /\ fs (snd run) = <[path := FCsv (header :: rev entries ++ data_rows)]> (fs w))
  /\ (fs w !! path = None -> can_create w path = true -> entries <> [] ->
      fst run = Ok tt
      /\ fs (snd run) = <[path := FCsv (header_row :: rev entries)]> (fs w))
  /\ (fs w !! path = None -> can_create w path = false -> entries <> [] ->
      fst run = Raise OSError /\ fs (snd run) = fs w).
Proof.
  intros Hall run. unfold run. split; [|split].
  - intros header data_rows Hf. by apply record_entries_existing.
  - intros Hf Hc Hne. destruct entries as [|e rest]; [done |].
    apply Forall_cons in Hall as [He Hall].
    cbn [record_entries]. unfold bind.
    rewrite (update_missing_file path e header_row w He Hf), Hc.
    destruct (record_entries_existing path header_row rest
                (mkWorld (<[path := FCsv [header_row; e]]> (fs w)) (dirs w) (clock w)
                         (trace w ++ [EStat path; EWrite path (FCsv [header_row; e])]))
                header_row [e] Hall) as [Hok Hfs].
    { simpl. by rewrite lookup_insert_eq. }
    split; [exact Hok |]. rewrite Hfs. simpl. by rewrite insert_insert_eq.
  - intros Hf Hc Hne. destruct entries as [|e rest]; [done |].
    apply Forall_cons in Hall as [He Hall].
    cbn [record_entries]. unfold bind.
    by rewrite (update_missing_file path e header_row w He Hf), Hc.
Qed.

(** Two entries for a ledger that is there, for one that is created in the
    working directory, and for one in a directory that is not there. *)
Lemma ledger_newest_first_witness :
  (fst (record_entries "tracking.csv" ["a"; "b"; "c"]
          [ ["BE"; "2025-01-14"; "Success"]; ["NL"; "2025-01-14"; "Error"] ]
          example_world) = Ok tt
   /\ fs (snd (record_entries "tracking.csv" ["a"; "b"; "c"]
                 [ ["BE"; "2025-01-14"; "Success"]; ["NL"; "2025-01-14"; "Error"] ]
                 example_world))
      = <["tracking.csv" :=
            FCsv (["MarketArea"; "DeliveryDate"; "SuccessIndicator"]
                    :: rev [ ["BE"; "2025-01-14"; "Success"];
                             ["NL"; "2025-01-14"; "Error"] ]
                    ++ [ ["DE-LU"; "2025-01-13"; "Success"];
                         ["FR"; "2025-01-12"; "Error"] ])]> (fs example_world))
  /\ (fst (record_entries "tracking.csv" ["a"; "b"; "c"]
             [ ["BE"; "2025-01-14"; "Success"]; ["NL"; "2025-01-14"; "Error"] ]
             (world_of ∅)) = Ok tt
      /\ fs (snd (record_entries "tracking.csv" ["a"; "b"; "c"]
                    [ ["BE"; "2025-01-14"; "Success"]; ["NL"; "2025-01-14"; "Error"] ]
                    (world_of ∅)))
         = <["tracking.csv" :=
               FCsv (["a"; "b"; "c"]
                       :: rev [ ["BE"; "2025-01-14"; "Success"];
                                ["NL"; "2025-01-14"; "Error"] ])]> ∅)
  /\ (fst (record_entries "nodir/tracking.csv" ["a"; "b"; "c"]
             [ ["BE"; "2025-01-14"; "Success"]; ["NL"; "2025-01-14"; "Error"] ]
             (world_of ∅)) = Raise OSError
      /\ fs (snd (record_entries "nodir/tracking.csv" ["a"; "b"; "c"]
                    [ ["BE"; "2025-01-14"; "Success"]; ["NL"; "2025-01-14"; "Error"] ]
                    (world_of ∅))) = ∅).
Proof.
  split; [|split].
  - refine (proj1 (ledger_newest_first "tracking.csv" ["a"; "b"; "c"]
                     [ ["BE"; "2025-01-14"; "Success"]; ["NL"; "2025-01-14"; "Error"] ]
                     example_world _) _ _ _).
    + repeat constructor.
    + reflexivity.
  - refine (proj1 (proj2 (ledger_newest_first "tracking.csv" ["a"; "b"; "c"]
                     [ ["BE"; "2025-01-14"; "Success"]; ["NL"; "2025-01-14"; "Error"] ]
                     (world_of ∅) _)) _ _ _).
    + repeat constructor.
    + reflexivity.
    + vm_compute. reflexivity.
    + discriminate.
  - refine (proj2 (proj2 (ledger_newest_first "nodir/tracking.csv" ["a"; "b"; "c"]
                     [ ["BE"; "2025-01-14"; "Success"]; ["NL"; "2025-01-14"; "Error"] ]
                     (world_of ∅) _)) _ _ _).
    + repeat constructor.
    + reflexivity.
    + vm_compute. reflexivity.
    + discriminate.
Defined.

(** ** Failed requests *)

Lemma emits_track_and_pace_ledger (a : Download.Args) (c : Download.Combination)
    (t : string) (final : indicator) (path : string) :
  path <> Download.tracking_file_filepath a ->
  emits (not_writing path) (Download.track_and_pace a c t final).
Proof.
  intros Hne.
  assert (Hw : forall f,
             not_writing path (EWrite (Download.tracking_file_filepath a) f) = true).
  { intros f. simpl. apply negb_true_iff, String.eqb_neq. congruence. }
  unfold Download.track_and_pace.
  apply emits_bind.
  { destruct (is_error final); [|traces].
    apply emits_bind; [by apply emits_os_path_exists |].
    intros present. destruct (negb present); [by apply emits_os_makedirs | traces]. }
  intros _. apply emits_bind; [traces |]. intros row.
  apply emits_bind; [by apply emits_update_tracking_file |].
  intros _. by apply emits_time_sleep.
Qed.

(** X18. In [download], for the types [dayahead] and [intraday]: when the
    page request fails, or the last-update text of the page cannot be
    extracted or is shorter than ten characters, the attempt does nothing
    more than record the combination in the ledger with the access time
    and the indicator [Error] and pause; it counts as an error, and no
    file but the ledger is changed. *)
Theorem failed_request_is_recorded (E : Env) (a : Download.Args)
    (c : Download.Combination) (auction : string) (w : World) :
  let url := table_url (Download.market_area c) auction
                       (strftime (Download.trading_date c))
                       (strftime (Download.delivery_date c)) (Download.sub_modality a) in
  Download.is_table a = true ->
  unusable_page E (page E url (S (clock w))) = true ->
  Download.attempt E a c (Some auction) w
  = bind (Download.track_and_pace a c (utc_now E (clock w)) Error) (fun _ => ret true)
         (mkWorld (fs w) (dirs w) (S (S (clock w))) (trace w ++ [EFetch url]))
  /\ forall path, path <> Download.tracking_file_filepath a ->
                  fs (snd (Download.attempt E a c (Some auction) w)) !! path
                  = fs w !! path.
Proof.
  intros url Ht Hpage.
  assert (Heq : Download.attempt E a c (Some auction) w
                = bind (Download.track_and_pace a c (utc_now E (clock w)) Error)
                       (fun _ => ret true)
                       (mkWorld (fs w) (dirs w) (S (S (clock w)))
                                (trace w ++ [EFetch url]))).
  { unfold Download.attempt, Download.url_of, Download.fetch. rewrite Ht.
    unfold bind at 1. unfold bind at 1. unfold lift_res at 1, bound at 1, ret at 1.
    unfold bind at 1. unfold now at 1, bind at 1, tick at 1, ret at 1.
    unfold bind at 1. unfold try_except at 1, bind at 1.
    unfold lift_res at 1, bound at 1. unfold bind at 1.
    unfold extract_soup, bind, emit, tick, lift_res. cbn [fst snd fs dirs clock trace].
    fold url. unfold unusable_page in Hpage.
    destruct (page E url (S (clock w))) as [document|e]; cbn [fst snd].
    - unfold ret at 1. unfold Download.last_update_of. cbn [is_error negb bound res_bind].
      destruct (extract_last_update E document) as [text|e].
      + apply Nat.ltb_lt in Hpage.
        destruct (String.length text =? 0)%nat eqn:H0.
        * reflexivity.
        * rewrite (proj2 (Nat.ltb_lt _ _) Hpage). reflexivity.
      + reflexivity.
    - reflexivity. }
  split; [exact Heq |].
  intros path Hne. rewrite Heq. rewrite snd_bind_ret.
  pose proof (emits_track_and_pace_ledger a c (utc_now E (clock w)) Error path Hne
                (mkWorld (fs w) (dirs w) (S (S (clock w))) (trace w ++ [EFetch url])))
    as Hext.
  apply extends_not_writing in Hext as [Hfs _]. exact Hfs.
Qed.

Lemma failed_request_is_recorded_witness :
  Download.attempt offline_env download_args example_combination (Some "MRC") (world_of ∅)
  = bind (Download.track_and_pace download_args example_combination
            (utc_now offline_env 0) Error) (fun _ => ret true)
         (mkWorld ∅ ∅ 2
            [EFetch (table_url "DE-LU" "MRC" "2024-05-01" "2024-05-02" "DayAhead")])
  /\ forall path, path <> Download.tracking_file_filepath download_args ->
                  fs (snd (Download.attempt offline_env download_args example_combination
                             (Some "MRC") (world_of ∅))) !! path
                  = fs (world_of ∅) !! path.
Proof.
  apply (failed_request_is_recorded offline_env download_args example_combination "MRC"
           (world_of ∅)); reflexivity.
Defined.

Lemma download_data_raise_propagates (E : Env) (a : DownloadData.Args)
    (dates : datetime * datetime) (days : list (datetime * datetime))
    (area auction_name : string) (auctions : list string)
    (market_areas : list (string * list string)) (s s' : DownloadData.St) (e : exn) :
  DownloadData.check_names a s = (Ok tt, s) ->
  DownloadData.process E a dates area auction_name s = (Raise e, s') ->
  DownloadData.download_data E a ((area, auction_name :: auctions) :: market_areas)
                             (dates :: days) s
  = (Raise e, s').
Proof.
  intros Hnames Hp. unfold DownloadData.download_data. unfold bind at 1.
  rewrite Hnames. cbn [DownloadData.for_days DownloadData.for_market_areas
                       DownloadData.for_auctions].
  unfold bind. by rewrite Hp.
Qed.

(** X19. In [download_data], when the first page request of a run fails,
    the last-update text has never been assigned: the run ends there with
    an [UnboundLocalError], after the must-add message and the request,
    without a ledger entry for the combination and without a pause. *)
Theorem first_request_failure_aborts (E : Env) (a : DownloadData.Args)
    (dates : datetime * datetime) (days : list (datetime * datetime))
    (area auction_name auction : string) (auctions : list string)
    (market_areas : list (string * list string))
    (l : DownloadData.Locals) (w w1 : World) (dfh dfb : DataFrame) (h b : bool)
    (e : exn) :
  let c := DownloadData.mkCombination (DownloadData.clean_market_area a area)
             auction_name (fst dates) (snd dates) in
  let url := table_url (DownloadData.market_area c) auction
                       (strftime (DownloadData.trading_date c))
                       (strftime (DownloadData.delivery_date c))
                       (DownloadData.sub_modality a) in
  DownloadData.check_names a (l, w) = (Ok tt, (l, w)) ->
  DownloadData.archive_checks E a c w = (Ok (dfh, dfb, h, b), w1) ->
  h && b = false ->
  DownloadData.auction_name_clean a auction_name = Some auction ->
  page E url (S (clock w1)) = Raise e ->
  DownloadData.soup l = None -> DownloadData.last_update l = None ->
  DownloadData.download_data E a ((area, auction_name :: auctions) :: market_areas)
                             (dates :: days) (l, w)
  = (Raise UnboundLocalError,
     (l, mkWorld (fs w1) (dirs w1) (S (S (clock w1)))
                 (trace w1 ++ [EPrintMustAdd (DownloadData.combination_to_check a c);
                               EFetch url]))).
Proof.
  intros c url Hnames Hchecks Hhb Hclean Hpage Hsoup Hlast.
  apply download_data_raise_propagates; [exact Hnames |].
  unfold DownloadData.process. fold c. unfold bind at 1.
  unfold DownloadData.io at 1. cbn [fst snd]. rewrite Hchecks. cbn [fst snd].
  unfold bind at 1. unfold DownloadData.after_checks. rewrite Hclean.
  unfold bind at 1. unfold DownloadData.fetch. rewrite Hhb.
  unfold bind, DownloadData.io, emit, now, tick, bind, ret, lift_res, bound,
    try_except, extract_soup, bind, emit, tick, lift_res, DownloadData.assign,
    DownloadData.var. cbn [fst snd fs dirs clock trace].
  fold url. rewrite Hpage. cbn [fst snd]. rewrite Hsoup. cbn [fst snd].
  rewrite Hlast. cbn [fst snd].
  by rewrite <- app_assoc.
Qed.

Lemma first_request_failure_aborts_witness :
  DownloadData.download_data offline_env dayahead_args [("DE-LU", ["SDAC"])]
    [example_dates] (DownloadData.unbound, world_of ∅)
  = (Raise UnboundLocalError,
     (DownloadData.unbound,
      mkWorld ∅ ∅ 2
        [ EStat "epex_auction_dayahead_hourly_data_archive.xlsx";
          EStat "epex_auction_dayahead_basepeak_data_archive.xlsx";
          EStat "epex_auction_dayahead_hourly_data_archive.xlsx";
          EStat "epex_auction_dayahead_basepeak_data_archive.xlsx";
          EPrintMustAdd [ VStr "DE-LU"; VDate d_2024_05_01; VDate d_2024_05_02;
                          VStr "Auction"; VStr "DayAhead"; VStr "SDAC" ];
          EFetch (table_url "DE-LU" "MRC" "2024-05-01" "2024-05-02" "DayAhead") ])).
Proof.
  exact (first_request_failure_aborts offline_env dayahead_args example_dates []
           "DE-LU" "SDAC" "MRC" [] [] DownloadData.unbound (world_of ∅)
           (mkWorld ∅ ∅ 0
              [ EStat "epex_auction_dayahead_hourly_data_archive.xlsx";
                EStat "epex_auction_dayahead_basepeak_data_archive.xlsx";
                EStat "epex_auction_dayahead_hourly_data_archive.xlsx";
                EStat "epex_auction_dayahead_basepeak_data_archive.xlsx" ])
           empty_frame empty_frame false false WebDriverException
           eq_refl eq_refl eq_refl eq_refl eq_refl eq_refl eq_refl).
Defined.

(** X20. In [download_data], when a page request fails after an earlier
    combination of the run has left its page and a last-update text of ten
    characters or more is read from it, the failure is recorded: nothing is
    extracted, the ledger gets the entry of the combination with [Error]
    for the hourly rows and for the base and peak load, and the pause
    follows. *)
Theorem later_request_failure_is_recorded (E : Env) (a : DownloadData.Args)
    (dates : datetime * datetime) (area auction_name auction : string)
    (l : DownloadData.Locals) (w w1 : World) (dfh dfb : DataFrame) (h b : bool)
    (e : exn) (stale : node) (text : string) :
  let c := DownloadData.mkCombination (DownloadData.clean_market_area a area)
             auction_name (fst dates) (snd dates) in
  let url := table_url (DownloadData.market_area c) auction
                       (strftime (DownloadData.trading_date c))
                       (strftime (DownloadData.delivery_date c))
                       (DownloadData.sub_modality a) in
  DownloadData.archive_checks E a c w = (Ok (dfh, dfb, h, b), w1) ->
  h && b = false ->
  DownloadData.auction_name_clean a auction_name = Some auction ->
  page E url (S (clock w1)) = Raise e ->
  DownloadData.soup l = Some stale ->
  extract_last_update E stale = Ok text ->
  10 <= String.length text ->
  DownloadData.process E a dates area auction_name (l, w)
  = bind (bind (DownloadData.io
                  (DownloadData.track a c h b (Some (utc_now E (clock w1))) Error Error))
               (fun _ => DownloadData.io (time_sleep (DownloadData.backoff_time a))))
         (fun _ => ret (DownloadData.clean_market_area a area))
         (DownloadData.set_last_update text l,
          mkWorld (fs w1) (dirs w1) (S (S (clock w1)))
                  (trace w1 ++ [EPrintMustAdd (DownloadData.combination_to_check a c);
                                EFetch url])).
Proof.
  intros c url Hchecks Hhb Hclean Hpage Hsoup Htext Hlen.
  assert (H0 : (String.length text =? 0)%nat = false) by (apply Nat.eqb_neq; lia).
  assert (H10 : (String.length text <? 10)%nat = false) by (apply Nat.ltb_ge; lia).
  unfold DownloadData.process. fold c. unfold bind at 1.
  unfold DownloadData.io at 1. cbn [fst snd]. rewrite Hchecks. cbn [fst snd].
  unfold bind at 1. unfold DownloadData.after_checks. rewrite Hclean.
  unfold bind at 1. unfold DownloadData.fetch. rewrite Hhb.
  unfold DownloadData.hours_block, DownloadData.base_peak_block.
  unfold bind, DownloadData.io, emit, now, tick, bind, ret, lift_res, bound,
    try_except, extract_soup, bind, emit, tick, lift_res, DownloadData.assign,
    DownloadData.var. cbn [fst snd fs dirs clock trace].
  fold url. rewrite Hpage. cbn [fst snd]. rewrite Hsoup. cbn [fst snd].
  rewrite Htext. cbn [fst snd DownloadData.last_update DownloadData.set_last_update].
  rewrite H0, H10. cbn [is_error negb fst snd]. rewrite !andb_false_r.
  cbn [fst snd]. rewrite <- app_assoc. reflexivity.
Qed.

Lemma later_request_failure_is_recorded_witness :
  DownloadData.process offline_env dayahead_args example_dates "DE-LU" "SDAC"
    (DownloadData.set_soup example_page DownloadData.unbound, world_of ∅)
  = bind (bind (DownloadData.io
                  (DownloadData.track dayahead_args
                     (DownloadData.mkCombination "DE-LU" "SDAC" (fst example_dates)
                        (snd example_dates))
                     false false (Some "2024-05-03T08:00:00+00:00") Error Error))
               (fun _ => DownloadData.io (time_sleep 3)))
         (fun _ => ret "DE-LU")
         (DownloadData.set_last_update example_last_update
            (DownloadData.set_soup example_page DownloadData.unbound),
          mkWorld ∅ ∅ 2
            [ EStat "epex_auction_dayahead_hourly_data_archive.xlsx";
              EStat "epex_auction_dayahead_basepeak_data_archive.xlsx";
              EStat "epex_auction_dayahead_hourly_data_archive.xlsx";
              EStat "epex_auction_dayahead_basepeak_data_archive.xlsx";
              EPrintMustAdd [ VStr "DE-LU"; VDate d_2024_05_01; VDate d_2024_05_02;
                              VStr "Auction"; VStr "DayAhead"; VStr "SDAC" ];
              EFetch (table_url "DE-LU" "MRC" "2024-05-01" "2024-05-02" "DayAhead") ]).
Proof.
  exact (later_request_failure_is_recorded offline_env dayahead_args example_dates
           "DE-LU" "SDAC" "MRC"
           (DownloadData.set_soup example_page DownloadData.unbound) (world_of ∅)
           (mkWorld ∅ ∅ 0
              [ EStat "epex_auction_dayahead_hourly_data_archive.xlsx";
                EStat "epex_auction_dayahead_basepeak_data_archive.xlsx";
                EStat "epex_auction_dayahead_hourly_data_archive.xlsx";
                EStat "epex_auction_dayahead_basepeak_data_archive.xlsx" ])
           empty_frame empty_frame false false WebDriverException example_page
           example_last_update eq_refl eq_refl eq_refl eq_refl eq_refl eq_refl
           ltac:(vm_compute; lia)).
Defined.

(** ** The error count *)

Lemma pretty_N_char_not_E (d : N) : pretty_N_char d <> "E"%char.
Proof.
  unfold pretty_N_char.
  repeat match goal with
         | |- context [match ?x with _ => _ end] => destruct x
         end; discriminate.
Qed.

Lemma pretty_N_go_head (x : N) (s : string) :
  (0 < x)%N -> exists d rest, pretty_N_go x s = String (pretty_N_char d) rest.
Proof.
  revert s. induction (N.lt_wf_0 x) as [x _ IH]. intros s Hx.
  rewrite pretty_N_go_step by done.
  destruct (decide (0 < x `div` 10)%N) as [Hd|Hd].
  - apply IH; [|done]. by apply N.div_lt.
  - assert (H0 : (x `div` 10)%N = 0%N) by (destruct (x `div` 10)%N; [done | lia]).
    rewrite H0, pretty_N_go_0. eauto.
Qed.

Lemma pretty_nat_not_Error (n : nat) : pretty n <> "Error".
Proof.
  unfold pretty, pretty_nat, pretty, pretty_N.
  destruct (decide (N.of_nat n = 0%N)) as [_|Hn]; [done |].
  destruct (pretty_N_go_head (N.of_nat n) "") as (d & rest & ->); [lia |].
  intros [= H _]. by apply pretty_N_char_not_E in H.
Qed.

Lemma str_indicator_Error (i : indicator) :
  bool_decide (Some (str_indicator i) = Some "Error") = is_error i.
Proof.
  destruct i as [| | |n]; try done. simpl.
  apply bool_decide_eq_false_2. intros [= H]. by apply pretty_nat_not_Error in H.
Qed.

Lemma errors_recorded_app (l1 l2 : list event) :
  errors_recorded (l1 ++ l2) = errors_recorded l1 + errors_recorded l2.
Proof. unfold errors_recorded. by rewrite List.filter_app, length_app. Qed.

Lemma errors_recorded_quiet (l : list event) :
  forallb no_ledger_write l = true -> errors_recorded l = 0.
Proof.
  unfold errors_recorded. induction l as [|e l IH]; [done |]. simpl.
  intros [He Hl]%andb_true_iff. rewrite <- (IH Hl).
  destruct e as [| |p [[|h [|entry rows]]|df]| | | | |]; simpl in *; done.
Qed.

Lemma observing_no_ledger_write (e : event) :
  observing e = true -> no_ledger_write e = true.
Proof. by destruct e. Qed.

Lemma emits_fetch_quiet (E : Env) (a : Download.Args) (url : option string) :
  emits no_ledger_write (Download.fetch E a url).
Proof.
  unfold Download.fetch. apply emits_try_except; [|intros ?; traces].
  destruct (Download.is_table a).
  - apply emits_bind; [traces |]. intros u.
    apply emits_bind; [by apply emits_extract_soup |]. intros ?. traces.
  - destruct (_ || _); [|traces].
    apply emits_bind; [traces |]. intros u.
    apply emits_bind; [by apply emits_extract_soup_aggregated_curves |]. intros ?. traces.
Qed.

Lemma emits_append_to_archive_quiet (E : Env) (a : Download.Args)
    (c : Download.Combination) (suffix : string) (with_trading_date : bool)
    (new_rows : DataFrame) :
  emits no_ledger_write
        (Download.append_to_archive E a c suffix with_trading_date new_rows).
Proof.
  unfold Download.append_to_archive.
  apply emits_bind; [by apply emits_os_path_exists |]. intros folder.
  apply emits_bind; [|intros ?; by apply emits_write_table].
  destruct folder.
  - apply emits_bind; [by apply emits_os_path_exists |]. intros [|]; [|traces].
    apply emits_bind; [by apply emits_import_csv |]. intros imported. traces.
  - apply emits_bind; [by apply emits_os_makedirs |]. intros ?. traces.
Qed.

Lemma emits_store_quiet (E : Env) (a : Download.Args) (c : Download.Combination)
    (success_indicator : indicator) (extracted : Download.payload) :
  emits no_ledger_write (Download.store E a c success_indicator extracted).
Proof.
  unfold Download.store.
  destruct (negb (is_error success_indicator)); [|traces].
  destruct (Download.is_table a).
  - destruct extracted; [|traces|traces].
    destruct (Download.frame_of _ _); [|traces].
    destruct (Download.frame_of _ _); [|traces].
    destruct (_ || _); [traces |].
    apply emits_bind.
    + apply emits_try_except; [|intros ?; traces].
      apply emits_bind; [apply emits_append_to_archive_quiet | intros ?; traces].
    + intros ok. destruct (negb (is_error ok)); [|traces].
      apply emits_try_except; [|intros ?; traces].
      apply emits_bind; [apply emits_append_to_archive_quiet | intros ?; traces].
  - destruct (_ || _); [|traces].
    destruct extracted; [traces| |traces].
    destruct (Download.frame_of _ _); [|traces].
    destruct (Download.unusable _); [traces |].
    apply emits_try_except; [|intros ?; traces].
    apply emits_bind; [apply emits_append_to_archive_quiet | intros ?; traces].
Qed.

(** A call of [update_tracking_file] that returns has written the file
    once, with the entry right after the header. *)
Lemma update_tracking_file_returns (path : string) (tracking_data header_row : list string)
    (w w' : World) :
  update_tracking_file path tracking_data header_row w = (Ok tt, w') ->
  exists checks header data_rows,
    trace w' = trace w ++ checks
                 ++ [EWrite path (FCsv (header :: tracking_data :: data_rows))]
    /\ forallb observing checks = true.
Proof.
  unfold update_tracking_file, bind, assert_.
  destruct (length tracking_data =? length header_row)%nat; [|discriminate].
  simpl. unfold os_path_isfile, bind, emit, get_file, ret. simpl.
  destruct (fs w !! path) as [[rows|df]|] eqn:Hf.
  - unfold csv_read, bind, emit, get_file, ret. simpl. rewrite Hf. simpl.
    destruct rows as [|header data_rows]; [discriminate |]. simpl.
    rewrite (csv_write_existing _ _ _ (FCsv (header :: data_rows))) by exact Hf.
    intros [= <-]. simpl.
    exists [EStat path; ERead path], header, data_rows.
    split; [by rewrite <- !app_assoc | done].
  - unfold csv_read, bind, emit, get_file, raise. simpl. rewrite Hf. discriminate.
  - unfold csv_append, bind, get_file. simpl. rewrite Hf.
    destruct (can_create w path) eqn:Hc.
    + rewrite csv_write_new by done. intros [= <-]. simpl.
      exists [EStat path], header_row, [].
      split; [by rewrite <- !app_assoc | done].
    + rewrite csv_write_fails by done. discriminate.
Qed.

Lemma tracking_row_last (a : Download.Args) (c : Download.Combination) (t : string)
    (final : indicator) (row : list string * list string) :
  Download.tracking_row a c t final = Some row ->
  last (fst row) = Some (str_indicator final).
Proof.
  unfold Download.tracking_row.
  destruct (_ || _); [by intros [= <-] |].
  destruct (contains "continuous" _); [by intros [= <-] |].
  destruct (contains "aggregated_curves" _); [by intros [= <-] | done].
Qed.

(** An attempt that returns has recorded one error if it failed and none
    if it did not. *)
Lemma attempt_errors_recorded (E : Env) (a : Download.Args) (c : Download.Combination)
    (clean : option string) (w w' : World) (failed : bool) :
  Download.attempt E a c clean w = (Ok failed, w') ->
  exists events, trace w' = trace w ++ events
                 /\ errors_recorded events = (if failed then 1 else 0).
Proof.
  intros H. unfold Download.attempt in H.
  apply bind_ok_inv in H as (url & w1 & H1 & H).
  apply bind_ok_inv in H as (t & w2 & H2 & H).
  apply bind_ok_inv in H as ([soup ok] & w3 & H3 & H).
  destruct (Download.last_update_of E soup ok) as [text ok'].
  apply bind_ok_inv in H as ([ok'' found] & w4 & H4 & H).
  apply bind_ok_inv in H as (final & w5 & H5 & H).
  apply bind_ok_inv in H as ([] & w6 & H6 & H).
  injection H as <- <-.
  unfold Download.track_and_pace in H6.
  apply bind_ok_inv in H6 as (? & w7 & H7 & H6).
  apply bind_ok_inv in H6 as (row & w8 & H8 & H6).
  apply bind_ok_inv in H6 as ([] & w9 & H9 & H6).
  assert (Hext : extends no_ledger_write w w8).
  { eapply extends_trans; [exact (run_extends _ _ _ _ _ (emits_url_of _ a c clean) H1) |].
    eapply extends_trans; [exact (run_extends _ _ _ _ _ (emits_now _ E) H2) |].
    eapply extends_trans; [exact (run_extends _ _ _ _ _ (emits_fetch_quiet E a url) H3) |].
    eapply extends_trans; [exact (run_extends _ _ _ _ _ (emits_lift_res _ _) H4) |].
    eapply extends_trans;
      [exact (run_extends _ _ _ _ _ (emits_store_quiet E a c ok'' found) H5) |].
    eapply extends_trans; [eapply run_extends; [|exact H7] |].
    { destruct (is_error final); [|traces].
      apply emits_bind; [by apply emits_os_path_exists |].
      intros present. destruct (negb present); [by apply emits_os_makedirs | traces]. }
    exact (run_extends _ _ _ _ _ (emits_lift_res _ _) H8). }
  destruct Hext as (before & Ht & Hq & _).
  apply update_tracking_file_returns in H9 as (checks & header & data_rows & Ht9 & Hobs).
  unfold time_sleep, emit in H6. injection H6 as <-. simpl.
  exists (before ++ checks ++ [EWrite (Download.tracking_file_filepath a)
                                      (FCsv (header :: fst row :: data_rows))]
            ++ [ESleep (Download.backoff_time a)]).
  split; [by rewrite Ht9, Ht, <- !app_assoc |].
  rewrite !errors_recorded_app, (errors_recorded_quiet before) by done.
  rewrite (errors_recorded_quiet checks).
  2:{ rewrite forallb_forall in *. intros e He. apply observing_no_ledger_write.
      by apply Hobs. }
  unfold lift_res, bound in H8.
  destruct (Download.tracking_row a c t final) as [row'|] eqn:Hrow; [|discriminate].
  injection H8 as <- _. apply tracking_row_last in Hrow.
  unfold errors_recorded. simpl. rewrite Hrow, str_indicator_Error.
  by destruct (is_error final).
Qed.

Lemma process_errors_recorded (E : Env) (a : Download.Args) (ex : option DataFrame)
    (dates : datetime * datetime) (area : string) (v : value) (n : nat)
    (w w' : World) (r : string * nat) :
  Download.process E a ex dates area v n w = (Ok r, w') ->
  exists events, trace w' = trace w ++ events
                 /\ snd r = n + errors_recorded events.
Proof.
  intros H. unfold Download.process in H.
  apply bind_ok_inv in H as (clean & w1 & H1 & H).
  apply bind_ok_inv in H as (chk & w2 & H2 & H).
  apply value_clean_world in H1 as ->.
  unfold lift_res in H2. injection H2 as _ <-.
  destruct chk.
  - apply bind_ok_inv in H as ([] & w3 & H3 & H). injection H as <- <-.
    unfold emit in H3. injection H3 as <-. simpl.
    eexists. split; [reflexivity |]. unfold errors_recorded. simpl. lia.
  - apply bind_ok_inv in H as ([] & w3 & H3 & H).
    apply bind_ok_inv in H as (failed & w4 & H4 & H). injection H as <- <-.
    apply attempt_errors_recorded in H4 as (events & Ht & Hn).
    unfold emit in H3. injection H3 as <-. simpl in Ht.
    exists (EPrintMustAdd (Download.combination_to_check a
              (Download.mkCombination (Download.clean_market_area a area) v
                 (fst dates) (snd dates))) :: events).
    split; [by rewrite Ht, <- app_assoc |].
    change (errors_recorded (?e :: events)) with (errors_recorded events).
    simpl. rewrite Hn. destruct failed; lia.
Qed.

Lemma for_values_errors_recorded (E : Env) (a : Download.Args) (ex : option DataFrame)
    (dates : datetime * datetime) (values : list value) (area : string) (n m : nat)
    (w w' : World) :
  Download.for_values E a ex dates area values n w = (Ok m, w') ->
  exists events, trace w' = trace w ++ events /\ m = n + errors_recorded events.
Proof.
  revert area n w. induction values as [|v rest IH]; intros area n w H; simpl in H.
  - injection H as <- <-. exists []. by rewrite app_nil_r, Nat.add_0_r.
  - apply bind_ok_inv in H as (r & w1 & H1 & H).
    apply process_errors_recorded in H1 as (e1 & Ht1 & Hn1).
    apply IH in H as (e2 & Ht2 & Hn2).
    exists (e1 ++ e2). split; [by rewrite Ht2, Ht1, app_assoc |].
    rewrite errors_recorded_app. lia.
Qed.

Lemma for_market_areas_errors_recorded (E : Env) (a : Download.Args)
    (ex : option DataFrame) (dates : datetime * datetime)
    (market_areas : list (string * list value)) (n m : nat) (w w' : World) :
  Download.for_market_areas E a ex dates market_areas n w = (Ok m, w') ->
  exists events, trace w' = trace w ++ events /\ m = n + errors_recorded events.
Proof.
  revert n w. induction market_areas as [|[area values] rest IH]; intros n w H; simpl in H.
  - injection H as <- <-. exists []. by rewrite app_nil_r, Nat.add_0_r.
  - apply bind_ok_inv in H as (k & w1 & H1 & H).
    apply for_values_errors_recorded in H1 as (e1 & Ht1 & Hn1).
    apply IH in H as (e2 & Ht2 & Hn2).
    exists (e1 ++ e2). split; [by rewrite Ht2, Ht1, app_assoc |].
    rewrite errors_recorded_app. lia.
Qed.

Lemma for_dates_errors_recorded (E : Env) (a : Download.Args) (ex : option DataFrame)
    (market_areas : list (string * list value)) (days : list (datetime * datetime))
    (n m : nat) (w w' : World) :
  Download.for_dates E a ex market_areas days n w = (Ok m, w') ->
  exists events, trace w' = trace w ++ events /\ m = n + errors_recorded events.
Proof.
  revert n w. induction days as [|dates rest IH]; intros n w H; simpl in H.
  - injection H as <- <-. exists []. by rewrite app_nil_r, Nat.add_0_r.
  - apply bind_ok_inv in H as (k & w1 & H1 & H).
    apply for_market_areas_errors_recorded in H1 as (e1 & Ht1 & Hn1).
    apply IH in H as (e2 & Ht2 & Hn2).
    exists (e1 ++ e2). split; [by rewrite Ht2, Ht1, app_assoc |].
    rewrite errors_recorded_app. lia.
Qed.

(** X21. The count that [download] returns is the number of ledger entries
    that the run has written with the indicator [Error]: every attempt
    writes the ledger once, and is counted exactly when the entry it
    writes, right after the header, ends in [Error]. *)
Theorem error_count_is_ledger_errors (E : Env) (a : Download.Args)
    (date_combinations : list (datetime * datetime))
    (market_areas : list (string * list value)) (w w' : World)
    (total_error_count : nat) :
  Download.download E a date_combinations market_areas w = (Ok total_error_count, w') ->
  total_error_count = errors_recorded (drop (length (trace w)) (trace w')).
Proof.
  intros H. unfold Download.download in H.
  apply bind_ok_inv in H as (ex & w1 & H1 & H).
  pose proof (run_extends observing _ _ _ _ (emits_load_existing E a) H1)
    as (loading & Ht1 & Hq1 & _).
  apply for_dates_errors_recorded in H as (events & Ht & ->).
  rewrite Ht, Ht1, <- app_assoc, drop_app_length, errors_recorded_app.
  rewrite (errors_recorded_quiet loading); [done |].
  rewrite forallb_forall in *. intros e He. apply observing_no_ledger_write.
  by apply Hq1.
Qed.

Lemma error_count_is_ledger_errors_witness :
  1 = errors_recorded
        (drop (length (trace (world_of ∅)))
           (trace (snd (Download.download offline_env download_args [example_dates]
                          [("DE-LU", [VStr "SDAC"])] (world_of ∅))))).
Proof.
  apply (error_count_is_ledger_errors offline_env download_args [example_dates]
           [("DE-LU", [VStr "SDAC"])] (world_of ∅)).
  vm_compute. reflexivity.
Defined.

(** ** Loading the ledger *)

Lemma index_of_None (name : string) (cols : list string) (j : nat) :
  index_of name cols j = None <-> in_list name cols = false.
Proof.
  revert j. unfold in_list. induction cols as [|c cols IH]; intros j; simpl; [done |].
  rewrite (String.eqb_sym name c).
  destruct (String.eqb c name); simpl; [split; discriminate | apply IH].
Qed.

Lemma replay_observing (evs : list event) (files : gmap string file) :
  forallb observing evs = true -> replay evs files = files.
Proof.
  revert files. induction evs as [|e evs IH]; intros files Hq; [done |].
  simpl in Hq. apply andb_true_iff in Hq as [He Hq].
  change (replay (e :: evs) files)
    with (replay evs (match e with EWrite p f => <[p := f]> files | _ => files end)).
  rewrite IH by done. by destruct e.
Qed.

(** X22. [import_exsting_combinations_file] returns a table exactly when the
    ledger can be read, has a [DeliveryDate] column whose cells all read
    as dates, and has a [SuccessIndicator] column.  A ledger that cannot
    be read raises [TypeError], a missing column [KeyError]; no file is
    changed in any case. *)
Theorem import_exsting_combinations_file_returns (E : Env) (path : string)
    (columns_to_check : list string) (w : World) :
  let run := import_exsting_combinations_file E path columns_to_check w in
  ((exists table, fst run = Ok table)
   <-> exists df dated,
         fst (import_csv E path w) = Ok (Some df)
         /\ convert_column "DeliveryDate" (to_date E) df = Ok dated
         /\ in_list "SuccessIndicator" (columns df) = true)
  /\ (fst (import_csv E path w) = Ok None -> fst run = Raise TypeError)
  /\ (forall df, fst (import_csv E path w) = Ok (Some df) ->
                 in_list "DeliveryDate" (columns df) = false
                 \/ (exists dated, convert_column "DeliveryDate" (to_date E) df = Ok dated)
                    /\ in_list "SuccessIndicator" (columns df) = false ->
                 fst run = Raise KeyError)
  /\ fs (snd run) = fs w.
Proof.
  intros run. unfold run, import_exsting_combinations_file.
  pose proof (emits_import_csv observing E path eq_refl eq_refl w) as (evs & _ & Hq & Hfs).
  unfold world, world_has_world in Hfs. rewrite replay_observing in Hfs by done.
  unfold bind. destruct (import_csv E path w) as [[[df|]|e] w1]; cbn [fst snd] in *.
  - unfold subscript, ret, lift_res, existing_combinations. cbn [fst snd]. split; [|split; [|split]].
    + split.
      * intros [table H]. exists df.
        destruct (convert_column "DeliveryDate" (to_date E) df) as [dated|e] eqn:Hc;
          [|discriminate H]. exists dated. split; [done |]. split; [done |].
        simpl in H. unfold not_error_rows in H.
        destruct (index_of "SuccessIndicator" (columns dated) 0) eqn:Hi; [|discriminate H].
        apply convert_column_Ok in Hc as [Hcols _]. rewrite Hcols in Hi.
        destruct (in_list "SuccessIndicator" (columns df)) eqn:Hin; [done |].
        apply (proj2 (index_of_None _ _ 0)) in Hin. congruence.
      * intros (df0 & dated & [= <-] & Hc & Hin). rewrite Hc. simpl.
        unfold not_error_rows.
        pose proof Hc as Hc'. apply convert_column_Ok in Hc' as [Hcols _]. rewrite Hcols.
        destruct (index_of "SuccessIndicator" (columns df) 0) eqn:Hi; [simpl; eauto |].
        apply index_of_None in Hi. congruence.
    + discriminate.
    + intros df0 [= <-] [Hd|[[dated Hc] Hs]].
      * unfold convert_column. by rewrite Hd.
      * rewrite Hc. simpl. unfold not_error_rows.
        pose proof Hc as Hc'. apply convert_column_Ok in Hc' as [Hcols _]. rewrite Hcols.
        apply (proj2 (index_of_None _ _ 0)) in Hs. by rewrite Hs.
    + exact Hfs.
  - split; [|split; [|split]]; try done.
    + split; [by intros [? [=]] | by intros (? & ? & [=] & _)].
  - split; [|split; [|split]]; try done.
    + split; [by intros [? [=]] | by intros (? & ? & [=] & _)].
Qed.

(** The ledger that [download_data] writes has no [SuccessIndicator]
    column: [download] cannot load it. *)
Lemma import_exsting_combinations_file_returns_witness :
  fst (import_exsting_combinations_file example_env "tracking.csv" Download.key_columns
         (world_of (<["tracking.csv" :=
                       FCsv [ DownloadData.tracking_header;
                              ["DE-LU"; "2024-05-01"; "2024-05-02"; "Auction"; "DayAhead";
                               "SDAC"; "2024-05-03T08:00:00+00:00"; "24"; "Success"] ]]> ∅)))
  = Raise KeyError.
Proof.
  refine (proj1 (proj2 (proj2
            (import_exsting_combinations_file_returns example_env "tracking.csv"
               Download.key_columns
               (world_of (<["tracking.csv" :=
                             FCsv [ DownloadData.tracking_header;
                                    ["DE-LU"; "2024-05-01"; "2024-05-02"; "Auction";
                                     "DayAhead"; "SDAC"; "2024-05-03T08:00:00+00:00";
                                     "24"; "Success"] ]]> ∅))))) _ _ _).
  - vm_compute. reflexivity.
  - right. split; [eexists; vm_compute; reflexivity | reflexivity].
Defined.

(** ** Error entries over a run *)

(** What [import_csv] and [value_clean] return depends on the files and
    directories only. *)
Lemma import_csv_observed (E : Env) (path : string) (w : World) (clock' : nat)
    (trace' : list event) :
  fst (import_csv E path (mkWorld (fs w) (dirs w) clock' trace'))
  = fst (import_csv E path w).
Proof.
  unfold import_csv, os_path_exists, bind, emit, get_file, ret. simpl.
  destruct (negb _); [done |]. simpl. done.
Qed.

Lemma value_clean_pure (a : Download.Args) (v : value) (w w0 : World)
    (clean : option string) :
  fst (Download.value_clean a v w) = Ok clean ->
  Download.value_clean a v w0 = (Ok clean, w0).
Proof.
  unfold Download.value_clean, Download.value_contains.
  destruct (Download.is_dayahead a); [by intros [= <-] |].
  destruct (Download.is_intraday a); [|by intros [= <-]].
  destruct v as [s|z|d]; simpl.
  - repeat (match goal with |- context [if ?b then _ else _] => destruct b end);
      unfold bind, ret; simpl;
      repeat (match goal with |- context [if ?b then _ else _] => destruct b end);
      by intros [= <-].
  - unfold bind, raise. simpl. discriminate.
  - unfold bind, raise. simpl. discriminate.
Qed.

(** The skip-set that [load_existing] returns for a ledger that pandas
    reads as [tracking]. *)
Lemma load_existing_skip_set (E : Env) (a : Download.Args) (w : World)
    (tracking : DataFrame) :
  fst (import_csv E (Download.tracking_file_filepath a) w) = Ok (Some tracking) ->
  fst (Download.load_existing E a w) = res_map Some (Download.skip_set E a tracking).
Proof.
  intros Himp.
  assert (Hpresent : match fs w !! Download.tracking_file_filepath a with
                     | Some _ => true
                     | None => bool_decide (Download.tracking_file_filepath a ∈ dirs w)
                     end = true).
  { revert Himp. unfold import_csv, os_path_exists, bind, emit, ret. simpl.
    destruct (match fs w !! _ with Some _ => true | None => _ end); [done |].
    simpl. discriminate. }
  unfold Download.load_existing, bind at 1, os_path_exists, bind at 1, emit. simpl.
  rewrite Hpresent.
  pose proof (import_csv_observed E (Download.tracking_file_filepath a) w (clock w)
                (trace w ++ [EStat (Download.tracking_file_filepath a)])) as Hobs.
  rewrite Himp in Hobs.
  unfold Download.skip_set.
  destruct (Download.is_continuous a);
    unfold import_exsting_combinations_file, bind; simpl;
    destruct (import_csv E _ (mkWorld _ _ _ _)) as [r w2] eqn:Hi;
    simpl in Hobs; subst r; unfold subscript, ret, lift_res.
  - by destruct (existing_combinations E tracking Download.continuous_key_columns).
  - destruct (existing_combinations E tracking Download.key_columns) as [U|e]; [|done].
    simpl. by destruct (convert_column "TradingDate" (to_date E) U).
Qed.

(** The loop body attempts a combination that the skip-set does not hold,
    whatever the loop variable of the market area has become. *)
Lemma process_attempts (E : Env) (a : Download.Args) (skip : DataFrame)
    (dates : datetime * datetime) (area area' : string) (v : value)
    (clean : option string) (n : nat) (w w0 : World) :
  let c := Download.mkCombination (Download.clean_market_area a area) v
                                  (fst dates) (snd dates) in
  let key := Download.combination_to_check a c in
  Download.archive_check (Some skip) key = Ok false ->
  Download.known_type a = true ->
  fst (Download.value_clean a v w) = Ok clean ->
  Download.clean_market_area a area' = Download.clean_market_area a area ->
  exists url rest,
    trace (snd (Download.process E a (Some skip) dates area' v n w0))
    = trace w0 ++ EPrintMustAdd key :: EFetch url :: rest.
Proof.
  intros c key Hcheck Hknown Hclean Harea.
  pose proof (value_clean_pure a v w w0 clean Hclean) as Hc0.
  unfold Download.process. rewrite Harea. fold c. fold key.
  unfold bind at 1. rewrite Hc0.
  unfold bind at 1, lift_res at 1. rewrite Hcheck.
  unfold bind at 1, emit at 1.
  destruct (attempt_requests_page E a c v clean w0 w0
              (mkWorld (fs w0) (dirs w0) (clock w0) (trace w0 ++ [EPrintMustAdd key]))
              Hknown Hc0) as (url & rest & Ht).
  exists url, rest. rewrite snd_bind_ret_fun.
  rewrite Ht. simpl. by rewrite <- app_assoc.
Qed.

Lemma attempted_more (key : list value) (t0 t1 t2 more : list event) :
  attempted key t0 t1 -> t2 = t1 ++ more -> attempted key t0 t2.
Proof.
  intros (work & url & rest & ->) ->. exists work, url, (rest ++ more).
  by rewrite <- !app_assoc.
Qed.

Lemma attempted_later (key : list value) (t0 t1 t2 delta : list event) :
  t1 = t0 ++ delta -> attempted key t1 t2 -> attempted key t0 t2.
Proof.
  intros -> (work & url & rest & ->). exists (delta ++ work), url, rest.
  by rewrite <- !app_assoc.
Qed.

(** A pass of the loops that returns has attempted every combination of
    its work that the skip-set does not hold. *)
Lemma for_values_attempts (E : Env) (a : Download.Args) (skip : DataFrame)
    (dates : datetime * datetime) (area : string) (v : value) (clean : option string)
    (w : World) (values : list value) (area' : string) (n m : nat) (w0 w1 : World) :
  let key := Download.combination_to_check a
               (Download.mkCombination (Download.clean_market_area a area) v
                                       (fst dates) (snd dates)) in
  Download.archive_check (Some skip) key = Ok false ->
  Download.known_type a = true ->
  fst (Download.value_clean a v w) = Ok clean ->
  Download.clean_market_area a area' = Download.clean_market_area a area ->
  In v values ->
  Download.for_values E a (Some skip) dates area' values n w0 = (Ok m, w1) ->
  attempted key (trace w0) (trace w1).
Proof.
  intros key Hcheck Hknown Hclean.
  revert area' n w0. induction values as [|v0 rest IH]; intros area' n w0 Harea Hin H;
    [destruct Hin |].
  simpl in H. apply bind_ok_inv in H as (r & w0' & Hp & H).
  destruct Hin as [-> | Hin].
  - destruct (process_attempts E a skip dates area area' v clean n w w0
                Hcheck Hknown Hclean Harea) as (url & rest' & Ht).
    rewrite Hp in Ht. simpl in Ht.
    apply download_for_values_paced in H as (deltas & Ht' & _).
    apply (attempted_more _ _ (trace w0') _ (concat deltas)); [|done].
    exists [], url, rest'. by rewrite Ht.
  - pose proof (download_process_area _ _ _ _ _ _ _ _ _ _ Hp) as Hr.
    apply download_process_paced in Hp as (delta & Ht & _).
    apply (attempted_later _ _ (trace w0') _ delta Ht).
    apply (IH (fst r) (snd r) w0'); [|done | done].
    by rewrite Hr, download_clean_market_area_idempotent.
Qed.

Lemma for_market_areas_attempts (E : Env) (a : Download.Args) (skip : DataFrame)
    (dates : datetime * datetime) (area : string) (v : value) (clean : option string)
    (w : World) (market_areas : list (string * list value)) (values : list value)
    (n m : nat) (w0 w1 : World) :
  let key := Download.combination_to_check a
               (Download.mkCombination (Download.clean_market_area a area) v
                                       (fst dates) (snd dates)) in
  Download.archive_check (Some skip) key = Ok false ->
  Download.known_type a = true ->
  fst (Download.value_clean a v w) = Ok clean ->
  In (area, values) market_areas -> In v values ->
  Download.for_market_areas E a (Some skip) dates market_areas n w0 = (Ok m, w1) ->
  attempted key (trace w0) (trace w1).
Proof.
  intros key Hcheck Hknown Hclean.
  revert n w0. induction market_areas as [|[area0 values0] rest IH]; intros n w0 Hin Hv H;
    [destruct Hin |].
  simpl in H. apply bind_ok_inv in H as (k & w0' & H1 & H).
  destruct Hin as [[= -> ->] | Hin].
  - apply download_for_market_areas_paced in H as (deltas & Ht' & _).
    apply (attempted_more _ _ (trace w0') _ (concat deltas)); [|done].
    by apply (for_values_attempts E a skip dates area v clean w values area n k w0 w0').
  - apply download_for_values_paced in H1 as (deltas & Ht & _).
    apply (attempted_later _ _ (trace w0') _ (concat deltas) Ht).
    by apply (IH k w0').
Qed.

Lemma for_dates_attempts (E : Env) (a : Download.Args) (skip : DataFrame)
    (dates : datetime * datetime) (area : string) (v : value) (clean : option string)
    (w : World) (market_areas : list (string * list value)) (values : list value)
    (days : list (datetime * datetime)) (n m : nat) (w0 w1 : World) :
  let key := Download.combination_to_check a
               (Download.mkCombination (Download.clean_market_area a area) v
                                       (fst dates) (snd dates)) in
  Download.archive_check (Some skip) key = Ok false ->
  Download.known_type a = true ->
  fst (Download.value_clean a v w) = Ok clean ->
  In dates days -> In (area, values) market_areas -> In v values ->
  Download.for_dates E a (Some skip) market_areas days n w0 = (Ok m, w1) ->
  attempted key (trace w0) (trace w1).
Proof.
  intros key Hcheck Hknown Hclean.
  revert n w0. induction days as [|dates0 rest IH]; intros n w0 Hd Hin Hv H;
    [destruct Hd |].
  simpl in H. apply bind_ok_inv in H as (k & w0' & H1 & H).
  destruct Hd as [-> | Hd].
  - apply download_for_dates_paced in H as (deltas & Ht' & _).
    apply (attempted_more _ _ (trace w0') _ (concat deltas)); [|done].
    by apply (for_market_areas_attempts E a skip dates area v clean w market_areas
                values n k w0 w0').
  - apply download_for_market_areas_paced in H1 as (deltas & Ht & _).
    apply (attempted_later _ _ (trace w0') _ (concat deltas) Ht).
    by apply (IH k w0').
Qed.

(** C3. For a ledger that pandas reads with a [SuccessIndicator] column
    and delivery dates, [import_exsting_combinations_file] returns exactly
    the ledger rows whose [SuccessIndicator] is not ["Error"], restricted to
    the key columns and without duplicates.  So a combination whose ledger
    entries all record an error is not in the skip-set that [download]
    loads from that ledger, and [download] attempts it again: whenever the
    loops reach it they print the must-add message and request the page,
    and every run that returns has done so. *)
Theorem error_entries_are_retried (E : Env) (path : string) (w : World)
    (tracking T1 : DataFrame) (j : nat) :
  fst (import_csv E path w) = Ok (Some tracking) ->
  convert_column "DeliveryDate" (to_date E) tracking = Ok T1 ->
  index_of "SuccessIndicator" (columns T1) 0 = Some j ->
  (forall columns_to_check, exists U,
     fst (import_exsting_combinations_file E path columns_to_check w) = Ok U /\
     columns U = List.filter (fun c => in_list c columns_to_check) (columns tracking) /\
     NoDup (data U) /\
     forall r, r ∈ data U <->
               exists row, row ∈ data T1 /\ cell_of row j <> Some (VStr "Error") /\
                           r = key_cells columns_to_check (columns T1) row) /\
  (forall (a : Download.Args) (skip : DataFrame) (dates : datetime * datetime)
          (area : string) (v : value) (clean : option string),
     let c := Download.mkCombination (Download.clean_market_area a area) v
                                     (fst dates) (snd dates) in
     let key := Download.combination_to_check a c in
     Download.tracking_file_filepath a = path ->
     fst (Download.load_existing E a w) = Ok (Some skip) ->
     length key = length (columns skip) ->
     (forall row r, row ∈ data T1 ->
        Download.ledger_key E a (columns T1) row = Ok r ->
        Forall2 (fun c k => c = Some k) r key ->
        cell_of row j = Some (VStr "Error")) ->
     Download.known_type a = true ->
     fst (Download.value_clean a v w) = Ok clean ->
     Download.archive_check (Some skip) key = Ok false /\
     (forall n w0, exists url rest,
        trace (snd (Download.process E a (Some skip) dates area v n w0))
        = trace w0 ++ EPrintMustAdd key :: EFetch url :: rest) /\
     (forall date_combinations market_areas values n w',
        In dates date_combinations -> In (area, values) market_areas -> In v values ->
        Download.download E a date_combinations market_areas w = (Ok n, w') ->
        attempted key (trace w) (trace w'))).
Proof.
  intros Himp Hc Hj. split.
  - intros cols.
    exists (drop_duplicates
              (project (mkDF (columns T1)
                          (List.filter
                             (fun r => negb (cell_eqb (cell_of r j) (VStr "Error")))
                             (data T1)))
                       cols)).
    split; [|split; [|split]].
    + unfold import_exsting_combinations_file, bind.
      destruct (import_csv E path w) as [r w1]. simpl in Himp. subst r.
      unfold subscript, ret, lift_res. simpl.
      by apply (existing_combinations_unfold E tracking T1 j).
    + unfold drop_duplicates, project, select_columns. simpl.
      by destruct (convert_column_Ok _ _ _ _ Hc) as [-> _].
    + apply keep_first_NoDup.
    + apply existing_rows.
  - intros a skip dates area v clean c key Hpath Hload Hlen Honly Hknown Hclean.
    subst path.
    rewrite (load_existing_skip_set E a w tracking Himp) in Hload.
    assert (Hskip : Download.skip_set E a tracking = Ok skip).
    { destruct (Download.skip_set E a tracking); simpl in Hload; congruence. }
    assert (Hcheck : Download.archive_check (Some skip) key = Ok false).
    { by apply (skip_set_without_errors E a tracking T1 skip j key). }
    split; [done |]. split.
    + intros n w0.
      by apply (process_attempts E a skip dates area area v clean n w w0).
    + intros days mas values n w' Hd Hin Hv H.
      unfold Download.download in H.
      apply bind_ok_inv in H as (ex & w1 & H1 & H).
      pose proof (run_extends observing _ _ _ _ (emits_load_existing E a) H1)
        as (loading & Ht1 & _ & _).
      assert (ex = Some skip) as ->.
      { pose proof (load_existing_skip_set E a w tracking Himp) as Hl.
        rewrite H1, Hload in Hl. simpl in Hl. congruence. }
      apply (attempted_later _ _ (trace w1) _ loading Ht1).
      apply (for_dates_attempts E a skip dates area v clean w mas values
               (rev days) 0 n w1 w'); try done.
      by apply in_rev in Hd.
Qed.

(** The ledger of the example records an error for DE-LU and a success
    for FR: a run over DE-LU returns and has attempted the combination
    again. *)
Lemma error_entries_are_retried_witness :
  Download.archive_check (Some skip_set_with_error) example_key = Ok false /\
  (forall n w0, exists url rest,
     trace (snd (Download.process example_env download_args (Some skip_set_with_error)
                   example_dates "DE-LU" (VStr "SDAC") n w0))
     = trace w0 ++ EPrintMustAdd example_key :: EFetch url :: rest) /\
  attempted example_key (trace world_with_error_ledger)
    (trace (snd (Download.download example_env download_args [example_dates]
                   [("DE-LU", [VStr "SDAC"])] world_with_error_ledger))).
Proof.
  pose proof (proj2 (error_entries_are_retried example_env
                       "root/epex_dayahead_tracking.csv" world_with_error_ledger
                       ledger_with_error ledger_with_error_dated 7
                       ltac:(vm_compute; reflexivity) ltac:(vm_compute; reflexivity)
                       ltac:(reflexivity))
                    download_args skip_set_with_error example_dates "DE-LU" (VStr "SDAC")
                    (Some "MRC")) as H.
  destruct H as (Hcheck & Hprocess & Hrun).
  - reflexivity.
  - vm_compute. reflexivity.
  - reflexivity.
  - intros row r Hin Hkey Hmatch. simpl in Hin.
    apply elem_of_cons in Hin as [-> | Hin]; [reflexivity |].
    apply elem_of_cons in Hin as [-> | Hin]; [|inversion Hin].
    vm_compute in Hkey. injection Hkey as <-. exfalso.
    inversion Hmatch as [|? ? ? ? Hhead]. discriminate Hhead.
  - reflexivity.
  - reflexivity.
  - split; [exact Hcheck |]. split; [exact Hprocess |].
    apply (Hrun [example_dates] [("DE-LU", [VStr "SDAC"])] [VStr "SDAC"] 0%nat
                (snd (Download.download example_env download_args [example_dates]
                        [("DE-LU", [VStr "SDAC"])] world_with_error_ledger))).
    + by left.
    + by left.
    + by left.
    + vm_compute. reflexivity.
Defined.
